(** * Elasticsearch bulk ingestion (app/vlinsert/elasticsearch)

    A shallow embedding of the [/_bulk] request path: the line-pair reader
    [readBulkLine], the request loop [readBulkRequest], the timestamp
    extractor, the message-field remapper and the [/_bulk] arm of
    [RequestHandler].

    Go's [string] is a byte sequence, modelled by [string] (a list of
    8-bit [ascii]); [int64] and [int] are modelled by [Z], with the 64-bit
    wrap-around written out where the source multiplies.

    Two smaller developments follow the same plan: [insertRows] of the
    vmagent import handlers ([app/vmagent/vmimport], [app/vmagent/native])
    and the quicktemplate [FacetsResponse]. *)

From Stdlib Require Import ZArith Bool List Lia.
From Stdlib Require Import Strings.String Strings.Ascii.
From Stdlib Require Import Sorting.Sorted Sorting.Permutation.
Import ListNotations.

Local Open Scope string_scope.
Local Open Scope list_scope.
Local Open Scope Z_scope.

(** ** 64-bit integers *)

Module Int64.

Definition MaxInt64 : Z := 2 ^ 63 - 1.
Definition MinInt64 : Z := - 2 ^ 63.
Definition maxUint64 : Z := 2 ^ 64 - 1.

(** Two's-complement reduction of a mathematical integer to [int64]. *)
Definition wrap (z : Z) : Z := (z + 2 ^ 63) mod 2 ^ 64 - 2 ^ 63.

(** Reduction to [uint64]. *)
Definition uwrap (z : Z) : Z := z mod 2 ^ 64.

Definition in_range (z : Z) : Prop := MinInt64 <= z <= MaxInt64.

End Int64.

(** ** The part of Go's [strconv] the handler calls

    [strconv.ParseInt(s, 10, 64)] belongs to the Go standard library; it is
    written out here after its source, for base 10 and 64 bits. *)

Module strconv.

Inductive NumError := ErrSyntax | ErrRange.

Definition byte_val (c : ascii) : Z := Z.of_N (N_of_ascii c).

(** [cutoff] is the smallest number such that [cutoff * 10 > maxUint64]. *)
Definition cutoff10 : Z := Int64.maxUint64 / 10 + 1.

(** The digit loop of [ParseUint]: [n] is the value read so far.  Any
    byte that is not a decimal digit is a syntax error (a letter yields
    a digit value of at least 10, which base 10 rejects). *)
Fixpoint ParseUint_loop (s : string) (n : Z) : Z * option NumError :=
  match s with
  | EmptyString => (n, None)
  | String c rest =>
      let b := byte_val c in
      if (48 <=? b) && (b <=? 57) then
        let d := b - 48 in
        if cutoff10 <=? n then (Int64.maxUint64, Some ErrRange)
        else
          let n10 := Int64.uwrap (n * 10) in
          let n1 := Int64.uwrap (n10 + d) in
          if (n1 <? n10) || (Int64.maxUint64 <? n1)
          then (Int64.maxUint64, Some ErrRange)
          else ParseUint_loop rest n1
      else (0, Some ErrSyntax)
  end.

Definition ParseUint (s : string) : Z * option NumError :=
  match s with
  | EmptyString => (0, Some ErrSyntax)
  | _ => ParseUint_loop s 0
  end.

(** [ParseInt(s, 10, 64)]: the value on success, the error otherwise
    (the handler ignores the value that accompanies an error). *)
Definition ParseInt (s : string) : NumError + Z :=
  match s with
  | EmptyString => inl ErrSyntax
  | String c rest =>
      let '(neg, digits) :=
        if Ascii.eqb c "+" then (false, rest)
        else if Ascii.eqb c "-" then (true, rest)
        else (false, s) in
      let '(un, err) := ParseUint digits in
      match err with
      | Some ErrSyntax => inl ErrSyntax
      | _ =>
          let cutoff := 2 ^ 63 in
          if negb neg && (cutoff <=? un) then inl ErrRange
          else if neg && (cutoff <? un) then inl ErrRange
          else
            let n := Int64.wrap un in
            inr (if neg then Int64.wrap (- n) else n)
      end
  end.

End strconv.

(** ** The part of Go's [strings] the handler calls *)

Module strings.

(** [strings.Contains(s, substr)]. *)
Fixpoint Contains (s substr : string) : bool :=
  String.prefix substr s ||
  match s with
  | EmptyString => false
  | String _ rest => Contains rest substr
  end.

End strings.

(** ** Fields *)

(** [logstorage.Field]. *)
Record Field : Type := mkField { Name : string; Value : string }.

Definition setValue (f : Field) (v : string) : Field :=
  {| Name := Name f; Value := v |}.

Definition setName (f : Field) (n : string) : Field :=
  {| Name := n; Value := Value f |}.

(** ** Timestamps *)

(** The errors [parseElasticsearchTimestamp] builds with [fmt.Errorf], one
    constructor per format string. *)
Inductive TimestampError : Type :=
| CannotParseMillis (s : string) (cause : strconv.NumError)
| TooBigMillis (n : Z)
| TooSmallMillis (n : Z)
| CannotParseDate (s : string)
| CannotParseRFC3339 (s : string)
| IndexOutOfRange.

Definition layoutDate : string := "2006-01-02".
Definition layoutRFC3339 : string := "2006-01-02T15:04:05Z07:00".

(** The constant [1e6] of the source, converted to [int64]. *)
Definition million : Z := 1000000.

(** [int64(math.MaxInt64)/1e6] and [int64(math.MinInt64)/1e6]: Go's integer
    division truncates toward zero. *)
Definition maxMillis : Z := Z.quot Int64.MaxInt64 million.
Definition minMillis : Z := Z.quot Int64.MinInt64 million.

Section Timestamp.

(** [time.Time], [time.Parse] and [Time.UnixNano] belong to the Go standard
    library and are taken as given. *)
Context {Time : Type}.
Variable time_Parse : string -> string -> option Time.
Variable UnixNano : Time -> Z.

(** The test [len(s) < len("YYYY-MM-DD") || s[len("YYYY")] != '-'].
    [||] evaluates its right operand only when the left one is false, so
    the index 4 is then within the string; [None] stands for the run-time
    panic of an index out of range. *)
Definition looksLikeMillis (s : string) : option bool :=
  if Z.of_nat (String.length s) <? Z.of_nat (String.length "YYYY-MM-DD")
  then Some true
  else match String.get (String.length "YYYY") s with
       | Some c => Some (negb (Ascii.eqb c "-"))
       | None => None
       end.

Definition parseElasticsearchTimestamp (s : string) : TimestampError + Z :=
  match looksLikeMillis s with
  | None => inl IndexOutOfRange
  | Some true =>
      (* Try parsing timestamp in milliseconds *)
      match strconv.ParseInt s with
      | inl e => inl (CannotParseMillis s e)
      | inr n =>
          if maxMillis <? n then inl (TooBigMillis n)
          else if n <? minMillis then inl (TooSmallMillis n)
          else inr (Int64.wrap (n * million))
      end
  | Some false =>
      if (String.length s =? String.length "YYYY-MM-DD")%nat then
        match time_Parse layoutDate s with
        | None => inl (CannotParseDate s)
        | Some t => inr (UnixNano t)
        end
      else
        match time_Parse layoutRFC3339 s with
        | None => inl (CannotParseRFC3339 s)
        | Some t => inr (UnixNano t)
        end
  end.

End Timestamp.

(** ** The line scanner

    [bufio.Scanner] over the request body, as the sequence of lines it
    yields followed by the way it stops: a clean end of input, a line longer
    than the buffer ([bufio.ErrTooLong]) or another read error. *)

Inductive ScanError : Type :=
| ErrTooLong
| ErrRead (msg : string).

Record Scanner : Type := mkScanner {
  tokens : list string;
  failure : option ScanError
}.

(** [sc.Scan()] followed by [sc.Bytes()]: the next line, if there is one. *)
Definition Scan (sc : Scanner) : option string * Scanner :=
  match tokens sc with
  | [] => (None, sc)
  | line :: rest => (Some line, {| tokens := rest; failure := failure sc |})
  end.

(** [sc.Err()], read after [Scan] returned false. *)
Definition Err (sc : Scanner) : option ScanError := failure sc.

(** The body [r.Body] together with what [common.GetGzipReader] answers when
    the body is declared gzip-encoded. *)
Record Reader : Type := mkReader {
  gzipOpen : option string;   (* [Some cause] when the gzip reader cannot be made *)
  lines : Scanner
}.

(** ** Errors of the bulk reader *)

Inductive BulkError : Type :=
| CannotReadGzip (cause : string)
| CommandTooLong (limit : Z)
| ScanFailed (msg : string)
| UnexpectedCommand (line : string)
| MessageTooLong (limit : Z)
| MissingLogMessage
| CannotParseJSON (cause : string)
| CannotParseTimestamp (e : TimestampError).

Definition dquote : ascii := "034"%char.
Definition quoted (s : string) : string :=
  String dquote (String.append s (String dquote EmptyString)).

(** The command test of [readBulkLine]. *)
Definition isCommand (lineStr : string) : bool :=
  negb (negb (strings.Contains lineStr (quoted "create"))
        && negb (strings.Contains lineStr (quoted "index"))).

(** The loop [for len(line) == 0] that reads the command: it stops at the
    first line that is not empty, or when [Scan] returns false. *)
Fixpoint scanCommand (toks : list string) (fail : option ScanError)
  : option string * Scanner :=
  match toks with
  | [] => (None, {| tokens := []; failure := fail |})
  | line :: rest =>
      if (String.length line =? 0)%nat then scanCommand rest fail
      else (Some line, {| tokens := rest; failure := fail |})
  end.

(** ** Rows and the per-request batch *)

(** Modelled from the spec: [logstorage.TenantID] is declared outside these
    sources; it is an opaque identifier, one per request. *)
Record TenantID : Type := mkTenant { AccountID : Z; ProjectID : Z }.

Record Row : Type := mkRow {
  rowTenant : TenantID;
  rowTimestamp : Z;
  rowFields : list Field
}.

(** Modelled from the spec: [logstorage.LogRows] is declared outside these
    sources.  It is the per-request batch: the rows appended so far and the
    stream/ignore field configuration; [MustAdd] appends one row,
    [ResetKeepSettings] clears the rows and keeps the configuration. *)
Record LogRows : Type := mkLogRows {
  streamFields : list string;
  ignoreFields : list string;
  rows : list Row
}.

(** Modelled from the spec: [LogRows.MustAdd], outside these sources, adds
    one row to the batch. *)
Definition MustAdd (lr : LogRows) (t : TenantID) (timestamp : Z)
    (fields : list Field) : LogRows :=
  {| streamFields := streamFields lr;
     ignoreFields := ignoreFields lr;
     rows := rows lr ++ [mkRow t timestamp fields] |}.

(** Modelled from the spec: [LogRows.ResetKeepSettings], outside these
    sources, clears the rows and keeps the field configuration. *)
Definition ResetKeepSettings (lr : LogRows) : LogRows :=
  {| streamFields := streamFields lr;
     ignoreFields := ignoreFields lr;
     rows := [] |}.

(** ** Effects

    What a request does to the rest of the process, in the order it does
    it: pool traffic, counters, log lines and the calls into storage. *)

Inductive Event : Type :=
| BulkRequestsInc
| HttpErrorf (msg : string)
| GetLogRows | PutLogRows
| GetGzipReader | PutGzipReader
| GetReader | PutReader
| GetLineBuffer | PutLineBuffer
| GetParser | PutParser
| DecConcurrency
| StorageMustAddRows (batch : list Row)
| RowsIngestedAdd (k : Z)
| RowsDroppedInc
| LogInfof (row : option Row)
| LogWarnf (n : Z) (err : BulkError)
| GetBufferedWriter | PutBufferedWriter
| WriteBulkResponse (n : Z) (tookMs : Z).

(** The state a request runs in: the effects so far, the number of times
    the wall clock has been read, and the batch [lr] of the request. *)
Record World : Type := mkWorld {
  trace : list Event;
  clock : nat;
  lr : LogRows
}.

Definition M (A : Type) : Type := World -> A * World.

Definition ret {A : Type} (a : A) : M A := fun w => (a, w).

Definition bind {A B : Type} (m : M A) (k : A -> M B) : M B :=
  fun w => let (a, w') := m w in k a w'.

Declare Scope bulk_scope.
Delimit Scope bulk_scope with bulk.
Notation "x <- m ;; k" := (bind m (fun x => k))
  (at level 61, m at next level, right associativity) : bulk_scope.
Notation "m ;; k" := (bind m (fun _ => k))
  (at level 61, right associativity) : bulk_scope.
Local Open Scope bulk_scope.

Definition emit (e : Event) : M unit :=
  fun w => (tt, {| trace := trace w ++ [e]; clock := clock w; lr := lr w |}).

(** The world after [emit e]. *)
Definition emitted (e : Event) (w : World) : World :=
  {| trace := trace w ++ [e]; clock := clock w; lr := lr w |}.

(** The world after one reading of the clock. *)
Definition tick (w : World) : World :=
  {| trace := trace w; clock := S (clock w); lr := lr w |}.

Definition getLR : M LogRows := fun w => (lr w, w).

Definition putLR (l : LogRows) : M unit :=
  fun w => (tt, {| trace := trace w; clock := clock w; lr := l |}).

(** [updateMessageFieldName]: the loop over [fields]. *)
Fixpoint updateMessageFieldName_loop (msgField : string) (fields : list Field)
  : list Field :=
  match fields with
  | [] => []
  | f :: rest =>
      if String.eqb (Name f) msgField then setName f "_msg" :: rest
      else f :: updateMessageFieldName_loop msgField rest
  end.

Definition updateMessageFieldName (msgField : string) (fields : list Field)
  : list Field :=
  if String.eqb msgField "" then fields
  else updateMessageFieldName_loop msgField fields.

Section Bulk.

Context {Time : Type}.
Variable time_Parse : string -> string -> option Time.
Variable UnixNano : Time -> Z.

(** [time.Now().UnixNano()] at the k-th reading of the clock. *)
Variable time_Now : nat -> Z.

(** [logjson.Parser.ParseLogMessage]: the decoded fields, or the text of
    the decode error.  The decoder is outside these sources. *)
Variable ParseLogMessage : string -> string + list Field.

(** [LogRows.NeedFlush], outside these sources. *)
Variable NeedFlush : LogRows -> bool.

(** The value of the flag [-insert.maxLineSizeBytes]. *)
Variable maxLineSizeBytes : Z.

Definition now : M Z :=
  fun w => (time_Now (clock w),
            {| trace := trace w; clock := S (clock w); lr := lr w |}).

(** The slice [fields] is updated in place; the model returns it next to
    the result. *)
Fixpoint extractTimestampFromFields (timeField : string)
    (fields : list Field) : M ((TimestampError + Z) * list Field) :=
  match fields with
  | [] => t <- now ;; ret (inr t, [])
  | f :: rest =>
      if negb (String.eqb (Name f) timeField) then
        r <- extractTimestampFromFields timeField rest ;;
        ret (fst r, f :: snd r)
      else
        match parseElasticsearchTimestamp time_Parse UnixNano (Value f) with
        | inl err => ret (inl err, f :: rest)
        | inr timestamp => ret (inr timestamp, setValue f "" :: rest)
        end
  end.

(** [(false, err)] is [inl err]; [(ok, nil)] is [inr ok]. *)
Definition readBulkLine (sc : Scanner) (timeField msgField : string)
    (processLogMessage : Z -> list Field -> M unit)
  : M ((BulkError + bool) * Scanner) :=
  match scanCommand (tokens sc) (failure sc) with
  | (None, sc1) =>
      match Err sc1 with
      | Some ErrTooLong => ret (inl (CommandTooLong maxLineSizeBytes), sc1)
      | Some (ErrRead msg) => ret (inl (ScanFailed msg), sc1)
      | None => ret (inr false, sc1)
      end
  | (Some line, sc1) =>
      if negb (isCommand line) then ret (inl (UnexpectedCommand line), sc1)
      else
        (* Decode log message *)
        match Scan sc1 with
        | (None, sc2) =>
            match Err sc2 with
            | Some ErrTooLong =>
                ret (inl (MessageTooLong maxLineSizeBytes), sc2)
            | Some (ErrRead msg) => ret (inl (ScanFailed msg), sc2)
            | None => ret (inl MissingLogMessage, sc2)
            end
        | (Some line, sc2) =>
            emit GetParser ;;
            match ParseLogMessage line with
            | inl cause => ret (inl (CannotParseJSON cause), sc2)
            | inr fields =>
                r <- extractTimestampFromFields timeField fields ;;
                match fst r with
                | inl err => ret (inl (CannotParseTimestamp err), sc2)
                | inr timestamp =>
                    let fields := updateMessageFieldName msgField (snd r) in
                    processLogMessage timestamp fields ;;
                    emit PutParser ;;
                    ret (inr true, sc2)
                end
            end
        end
  end.

(** The tail of [readBulkLine], from the check-out of the parser on. *)
Definition decodeDocument (doc : string) (sc2 : Scanner)
    (timeField msgField : string) (sink : Z -> list Field -> M unit)
    (w : World) : ((BulkError + bool) * Scanner) * World :=
  let w1 := emitted GetParser w in
  match ParseLogMessage doc with
  | inl cause => ((inl (CannotParseJSON cause), sc2), w1)
  | inr fields =>
      let res :=
        extractTimestampFromFields timeField fields w1 in
      match fst (fst res) with
      | inl err => ((inl (CannotParseTimestamp err), sc2), snd res)
      | inr timestamp =>
          let w3 :=
            snd (sink timestamp
                   (updateMessageFieldName msgField (snd (fst res)))
                   (snd res)) in
          ((inr true, sc2), emitted PutParser w3)
      end
  end.

(** The [for] loop of [readBulkRequest].  Every round that goes on has
    consumed at least two lines, so [fuel] above the number of lines left
    is never exhausted ([None]). *)
Fixpoint readBulkRequest_loop (fuel : nat) (sc : Scanner)
    (timeField msgField : string)
    (processLogMessage : Z -> list Field -> M unit)
    (n nCheckpoint : Z) : M (option (Z * option BulkError)) :=
  match fuel with
  | O => ret None
  | S fuel' =>
      r <- readBulkLine sc timeField msgField processLogMessage ;;
      emit DecConcurrency ;;
      match fst r with
      | inl err =>
          emit (RowsIngestedAdd (n - nCheckpoint)) ;;
          ret (Some (n, Some err))
      | inr false =>
          emit (RowsIngestedAdd (n - nCheckpoint)) ;;
          ret (Some (n, None))
      | inr true =>
          let n := n + 1 in
          let batchSize := n - nCheckpoint in
          if 1000 <=? n then
            emit (RowsIngestedAdd batchSize) ;;
            readBulkRequest_loop fuel' (snd r) timeField msgField
              processLogMessage n n
          else
            readBulkRequest_loop fuel' (snd r) timeField msgField
              processLogMessage n nCheckpoint
      end
  end.

(** The deferred calls run, last registered first, on every return. *)
Definition readBulkRequest (r : Reader) (isGzip : bool)
    (timeField msgField : string)
    (processLogMessage : Z -> list Field -> M unit)
  : M (option (Z * option BulkError)) :=
  let body :=
    emit GetReader ;;
    emit GetLineBuffer ;;
    res <- readBulkRequest_loop (S (List.length (tokens (lines r)))) (lines r)
             timeField msgField processLogMessage 0 0 ;;
    emit PutLineBuffer ;;
    emit PutReader ;;
    ret res in
  if isGzip then
    match gzipOpen r with
    | Some cause => ret (Some (0, Some (CannotReadGzip cause)))
    | None =>
        emit GetGzipReader ;;
        res <- body ;;
        emit PutGzipReader ;;
        ret res
    end
  else body.

(** The closure [processLogMessage] of [RequestHandler]. *)
Definition processLogMessage (tenantID : TenantID) (isDebug : bool)
    (timestamp : Z) (fields : list Field) : M unit :=
  l <- getLR ;;
  putLR (MustAdd l tenantID timestamp fields) ;;
  if isDebug then
    l <- getLR ;;
    let s := nth_error (rows l) 0 in
    putLR (ResetKeepSettings l) ;;
    emit (LogInfof s) ;;
    emit RowsDroppedInc
  else
    l <- getLR ;;
    if NeedFlush l then
      emit (StorageMustAddRows (rows l)) ;;
      putLR (ResetKeepSettings l)
    else ret tt.

(** The first field named [timeField], if there is one, parses. *)
Fixpoint timestampParses (timeField : string) (fields : list Field)
  : bool :=
  match fields with
  | [] => true
  | f :: rest =>
      if String.eqb (Name f) timeField then
        match parseElasticsearchTimestamp time_Parse UnixNano (Value f) with
        | inr _ => true
        | inl _ => false
        end
      else timestampParses timeField rest
  end.

(** A line-pair, with the number of empty lines before it, that
    [readBulkLine] decodes: a command line, then a document that decodes
    to fields whose timestamp parses. *)
Definition wellFormed (timeField : string) (p : nat * string * string)
  : bool :=
  let '(_, cmd, doc) := p in
  isCommand cmd &&
  match ParseLogMessage doc with
  | inr fields => timestampParses timeField fields
  | inl _ => false
  end.

(** The lines left do not begin with a well-formed line-pair: after the
    empty lines there is nothing, or a line that is no command, or a
    command without a document, or a document that does not decode. *)
Definition stopsRequest (timeField : string) (tail : list string) : bool :=
  match scanCommand tail None with
  | (None, _) => true
  | (Some cmd, sc1) =>
      negb (isCommand cmd) ||
      match tokens sc1 with
      | [] => true
      | doc :: _ => negb (wellFormed timeField (O, cmd, doc))
      end
  end.

(** What the [/_bulk] arm reads from the HTTP request. *)
Record Request : Type := mkRequest {
  reqTenant : string + TenantID;     (* [GetTenantIDFromRequest] *)
  reqTimeField : string;             (* form value [_time_field] *)
  reqMsgField : string;              (* form value [_msg_field] *)
  reqStreamFields : list string;
  reqIgnoreFields : list string;
  reqDebug : bool;
  reqGzip : bool;                    (* [Content-Encoding] is gzip *)
  reqBody : Reader
}.

(** The [/_bulk] arm of [RequestHandler].  [time.Since(startTime)] reads
    the clock again; [Milliseconds] divides the nanoseconds by [1e6]. *)
Definition RequestHandler (r : Request) : M (option bool) :=
  startTime <- now ;;
  emit BulkRequestsInc ;;
  match reqTenant r with
  | inl err => emit (HttpErrorf err) ;; ret (Some true)
  | inr tenantID =>
      let timeField :=
        if String.eqb (reqTimeField r) "" then "_time" else reqTimeField r in
      let msgField :=
        if String.eqb (reqMsgField r) "" then "" else reqMsgField r in
      let isDebug := reqDebug r in
      emit GetLogRows ;;
      putLR (mkLogRows (reqStreamFields r) (reqIgnoreFields r) []) ;;
      res <- readBulkRequest (reqBody r) (reqGzip r) timeField msgField
               (processLogMessage tenantID isDebug) ;;
      match res with
      | None => ret None
      | Some (n, Some err) => emit (LogWarnf n err) ;; ret (Some true)
      | Some (n, None) =>
          l <- getLR ;;
          emit (StorageMustAddRows (rows l)) ;;
          emit PutLogRows ;;
          endTime <- now ;;
          let tookMs := Z.quot (endTime - startTime) million in
          emit GetBufferedWriter ;;
          emit (WriteBulkResponse n tookMs) ;;
          emit PutBufferedWriter ;;
          ret (Some true)
      end
  end.

End Bulk.

(** ** Reading a trace *)

(** The rows handed to storage, in order. *)
Fixpoint storedRows (tr : list Event) : list Row :=
  match tr with
  | [] => []
  | StorageMustAddRows batch :: tr' => batch ++ storedRows tr'
  | _ :: tr' => storedRows tr'
  end.

(** The amount added to [vl_rows_ingested_total]. *)
Fixpoint ingestedTotal (tr : list Event) : Z :=
  match tr with
  | [] => 0
  | RowsIngestedAdd k :: tr' => k + ingestedTotal tr'
  | _ :: tr' => ingestedTotal tr'
  end.

(** The successive arguments of [rowsIngestedTotal.Add]. *)
Fixpoint ingestedAdds (tr : list Event) : list Z :=
  match tr with
  | [] => []
  | RowsIngestedAdd k :: tr' => k :: ingestedAdds tr'
  | _ :: tr' => ingestedAdds tr'
  end.

(** The amount added to [vl_rows_dropped_total]. *)
Fixpoint droppedTotal (tr : list Event) : Z :=
  match tr with
  | [] => 0
  | RowsDroppedInc :: tr' => 1 + droppedTotal tr'
  | _ :: tr' => droppedTotal tr'
  end.

(** The row count the handler reports, in its warning or in its response. *)
Fixpoint reportedCount (tr : list Event) : option Z :=
  match tr with
  | [] => None
  | LogWarnf n _ :: _ => Some n
  | WriteBulkResponse n _ :: _ => Some n
  | _ :: tr' => reportedCount tr'
  end.

(** Whether that report is the warning of a failed request. *)
Fixpoint warned (tr : list Event) : bool :=
  match tr with
  | [] => false
  | LogWarnf _ _ :: _ => true
  | WriteBulkResponse _ _ :: _ => false
  | _ :: tr' => warned tr'
  end.

Definition Event_eqb_tag (a b : Event) : bool :=
  match a, b with
  | GetLogRows, GetLogRows | PutLogRows, PutLogRows
  | GetGzipReader, GetGzipReader | PutGzipReader, PutGzipReader
  | GetReader, GetReader | PutReader, PutReader
  | GetLineBuffer, GetLineBuffer | PutLineBuffer, PutLineBuffer
  | GetParser, GetParser | PutParser, PutParser
  | GetBufferedWriter, GetBufferedWriter
  | PutBufferedWriter, PutBufferedWriter
  | DecConcurrency, DecConcurrency
  | BulkRequestsInc, BulkRequestsInc | RowsDroppedInc, RowsDroppedInc => true
  | _, _ => false
  end.

(** How many times the event [e] (one without arguments) occurs. *)
Definition occurrences (e : Event) (tr : list Event) : nat :=
  List.length (filter (Event_eqb_tag e) tr).

(** The objects of a pool still checked out at the end of a trace: taken
    minus given back. *)
Definition outstanding (get put : Event) (tr : list Event) : Z :=
  Z.of_nat (occurrences get tr) - Z.of_nat (occurrences put tr).

(** The lines of a line-pair that has [k] empty lines before it. *)
Definition pairLines (p : nat * string * string) : list string :=
  let '(k, cmd, doc) := p in repeat "" k ++ [cmd; doc].

(** The time field the handler uses: the form value [_time_field], or
    [_time] when it is empty. *)
Definition timeFieldOf (r : Request) : string :=
  if String.eqb (reqTimeField r) "" then "_time" else reqTimeField r.

(** The message field the handler uses: the form value [_msg_field]. *)
Definition msgFieldOf (r : Request) : string :=
  if String.eqb (reqMsgField r) "" then "" else reqMsgField r.

(** The world in which the handler calls [readBulkRequest]: the clock has
    been read, the request is counted and a fresh batch is checked out. *)
Definition requestStart (r : Request) (w : World) : World :=
  {| trace := trace w ++ [BulkRequestsInc; GetLogRows];
     clock := S (clock w);
     lr := mkLogRows (reqStreamFields r) (reqIgnoreFields r) [] |}.

(** What the handler does after [readBulkRequest] has returned the count
    [n] and the error [err], with [batch] the rows left in the batch and
    [tookMs] the time the request took. *)
Definition requestEnd (n : Z) (err : option BulkError) (batch : list Row)
    (tookMs : Z) : list Event :=
  match err with
  | Some e => [LogWarnf n e]
  | None => [StorageMustAddRows batch; PutLogRows; GetBufferedWriter;
             WriteBulkResponse n tookMs; PutBufferedWriter]
  end.

(** The body is read: it is not declared gzip-encoded, or the gzip reader
    can be made. *)
Definition bodyOpens (r : Reader) (isGzip : bool) : bool :=
  negb isGzip || match gzipOpen r with None => true | Some _ => false end.

(** ** What a stretch of the request does

    [RoundEffect dbg w w' evs k]: from [w] to [w'] the events [evs] were
    added, [k] line-pairs were decoded to the end, and, with the debug flag,
    nothing was stored, [k] rows were dropped and an empty batch stayed
    empty; without it, nothing was dropped and each of the [k] rows is
    either in storage or still in the batch. *)

Definition RoundEffect (dbg : bool) (w w' : World) (evs : list Event) (k : Z)
  : Prop :=
  trace w' = trace w ++ evs /\
  reportedCount evs = None /\
  Z.of_nat (occurrences PutParser evs) = k /\
  if dbg
  then storedRows evs = [] /\ droppedTotal evs = k /\
       (rows (lr w) = [] -> rows (lr w') = [])
  else droppedTotal evs = 0 /\
       Z.of_nat (List.length (storedRows evs))
       + Z.of_nat (List.length (rows (lr w')))
       = Z.of_nat (List.length (rows (lr w))) + k.

(** An event that is neither a store, a drop nor a check-in of the parser. *)
Definition neutral (e : Event) : Prop :=
  storedRows [e] = [] /\ droppedTotal [e] = 0 /\
  occurrences PutParser [e] = 0%nat /\ reportedCount [e] = None.

(** The rows a call of [readBulkLine] adds to the count. *)
Definition decodedCount (r : BulkError + bool) : Z :=
  match r with
  | inr true => 1
  | _ => 0
  end.

(** ** A sample environment

    Stand-ins for what lies outside these sources, used to run the handler
    on concrete requests. *)

Module Sample.

(** Two entries of [time.Parse]: the instants of the spec's examples, as
    nanoseconds since the epoch. *)
Definition time_Parse (layout s : string) : option Z :=
  if String.eqb layout layoutDate && String.eqb s "2024-01-15"
  then Some 1705276800000000000
  else if String.eqb layout layoutRFC3339
          && String.eqb s "2024-01-15T10:00:00Z"
  then Some 1705312800000000000
  else None.

Definition UnixNano (t : Z) : Z := t.

Definition time_Now (k : nat) : Z := 1700000000000000000 + Z.of_nat k.

(** Splits [name=value] at its first [=]. *)
Fixpoint splitEq (s : string) : option (string * string) :=
  match s with
  | EmptyString => None
  | String c rest =>
      if Ascii.eqb c "=" then Some (EmptyString, rest)
      else match splitEq rest with
           | Some (k, v) => Some (String c k, v)
           | None => None
           end
  end.

(** A one-field decoder: the line [name=value] is the document with that
    single field; a line without [=] does not decode. *)
Definition ParseLogMessage (line : string) : string + list Field :=
  match splitEq line with
  | Some (k, v) => inr [mkField k v]
  | None => inl "unexpected document"
  end.

Definition flushAt (k : nat) (l : LogRows) : bool :=
  (k <=? List.length (rows l))%nat.

Definition neverFlush (l : LogRows) : bool := false.

Definition maxLineSizeBytes : Z := 256 * 1024.

Definition tenant0 : TenantID := mkTenant 0 0.

Definition world0 : World :=
  {| trace := []; clock := 0; lr := mkLogRows [] [] [] |}.

Definition create : string :=
  String.append "{" (String.append (quoted "create") ":{}}").

Definition plainBody (toks : list string) : Reader :=
  {| gzipOpen := None; lines := {| tokens := toks; failure := None |} |}.

Definition request (debug : bool) (toks : list string) : Request :=
  {| reqTenant := inr tenant0; reqTimeField := ""; reqMsgField := "";
     reqStreamFields := []; reqIgnoreFields := []; reqDebug := debug;
     reqGzip := false; reqBody := plainBody toks |}.

Definition handle (needFlush : LogRows -> bool) (r : Request)
  : option bool * World :=
  RequestHandler time_Parse UnixNano time_Now ParseLogMessage needFlush
    maxLineSizeBytes r world0.

(** [k] well-formed line-pairs. *)
Fixpoint goodPairs (k : nat) : list string :=
  match k with
  | O => []
  | S k' => create :: "msg=hello" :: goodPairs k'
  end.

End Sample.

(** ** The timestamp dispatch as the specification words it

    Three shapes, tested in this order: milliseconds when the value has at
    least 10 bytes and its fifth byte is not a dash, or fewer than 10 bytes;
    a calendar date when it has exactly 10 bytes; an RFC 3339 date-time
    otherwise. *)

Inductive TimestampShape : Type := ShapeMillis | ShapeDate | ShapeRFC3339.

Definition fifthIsDash (s : string) : bool :=
  match String.get 4 s with
  | Some c => Ascii.eqb c "-"
  | None => false
  end.

Definition spec_shape (s : string) : TimestampShape :=
  let len := String.length s in
  if ((10 <=? len)%nat && negb (fifthIsDash s)) || (len <? 10)%nat
  then ShapeMillis
  else if (len =? 10)%nat then ShapeDate
  else ShapeRFC3339.

Definition spec_parseTimestamp {Time : Type}
    (time_Parse : string -> string -> option Time) (UnixNano : Time -> Z)
    (s : string) : TimestampError + Z :=
  match spec_shape s with
  | ShapeMillis =>
      match strconv.ParseInt s with
      | inl e => inl (CannotParseMillis s e)
      | inr n =>
          if Z.quot Int64.MaxInt64 1000000 <? n then inl (TooBigMillis n)
          else if n <? Z.quot Int64.MinInt64 1000000
          then inl (TooSmallMillis n)
          else inr (n * 1000000)
      end
  | ShapeDate =>
      match time_Parse "2006-01-02" s with
      | Some t => inr (UnixNano t)
      | None => inl (CannotParseDate s)
      end
  | ShapeRFC3339 =>
      match time_Parse "2006-01-02T15:04:05Z07:00" s with
      | Some t => inr (UnixNano t)
      | None => inl (CannotParseRFC3339 s)
      end
  end.

Definition isOverflowError (e : TimestampError) : bool :=
  match e with
  | TooBigMillis _ | TooSmallMillis _ => true
  | _ => false
  end.

(** ** The whole of [RequestHandler]

    The routing on [path] around the [/_bulk] arm above: the headers set on
    every call, the stub answers of the management endpoints, and the paths
    the handler declines. *)

(** [http.Header]: the values recorded under each key, none for a key that
    is absent. *)
Definition Header : Type := string -> list string.

(** [Header.Add]: appends to the values of the key. *)
Definition Header_Add (key value : string) (h : Header) : Header :=
  fun k => if String.eqb k key then h k ++ [value] else h k.

(** [Header.Set]: replaces the values of the key. *)
Definition Header_Set (key value : string) (h : Header) : Header :=
  fun k => if String.eqb k key then [value] else h k.

(** [http.ResponseWriter]: the headers and the bytes written so far. *)
Record ResponseWriter : Type := mkResponseWriter {
  header : Header;
  written : string
}.

(** [fmt.Fprintf(w, text)] for a [text] without verbs. *)
Definition Fprintf (rw : ResponseWriter) (text : string) : ResponseWriter :=
  {| header := header rw; written := String.append (written rw) text |}.

(** [strings.HasPrefix(s, prefix)]. *)
Definition HasPrefix (s prefix : string) : bool := String.prefix prefix s.

Definition nl : string := String "010"%char EmptyString.

Fixpoint tabs (k : nat) : string :=
  match k with
  | O => EmptyString
  | S k' => String "009"%char (tabs k')
  end.

(** The lines of a raw string literal, each with its indentation. *)
Definition rawLines (ls : list (nat * string)) : string :=
  String.concat nl (map (fun l => String.append (tabs (fst l)) (snd l)) ls).

(** The answer to the ping request [GET /]. *)
Definition versionBody : string :=
  rawLines
    [ (0%nat, "{");
      (3%nat, String.append (quoted "version") ": {");
      (4%nat, String.append (quoted "number")
                (String.append ": " (quoted "8.8.0")));
      (3%nat, "}");
      (2%nat, "}") ].

(** The answer to [/_license]. *)
Definition licenseBody : string :=
  rawLines
    [ (0%nat, "{");
      (3%nat, String.append (quoted "license") ": {");
      (4%nat, String.append (quoted "uid")
                (String.append ": "
                   (String.append
                      (quoted "cbff45e7-c553-41f7-ae4f-9205eabd80xx") ",")));
      (4%nat, String.append (quoted "type")
                (String.append ": " (String.append (quoted "oss") ",")));
      (4%nat, String.append (quoted "status")
                (String.append ": " (String.append (quoted "active") ",")));
      (4%nat, String.append (quoted "expiry_date_in_millis")
                " : 4000000000000");
      (3%nat, "}");
      (2%nat, "}") ].

Definition MethodGet : string := "GET".
Definition MethodHead : string := "HEAD".

Section Routing.

Context {Time : Type}.
Variable time_Parse : string -> string -> option Time.
Variable UnixNano : Time -> Z.
Variable time_Now : nat -> Z.
Variable ParseLogMessage : string -> string + list Field.
Variable NeedFlush : LogRows -> bool.
Variable maxLineSizeBytes : Z.

(** [RequestHandler(path, w, r)] as a whole; [method] is [r.Method].  What
    the [/_bulk] arm writes to [w] is produced outside these sources and is
    recorded in the trace ([WriteBulkResponse], [HttpErrorf]). *)
Definition RequestHandlerPath (path method : string) (r : Request)
    (rw : ResponseWriter) : M (option bool * ResponseWriter) :=
  let rw :=
    {| header := Header_Add "Content-Type" "application/json" (header rw);
       written := written rw |} in
  (* This header is needed for Logstash *)
  let rw :=
    {| header := Header_Set "X-Elastic-Product" "Elasticsearch" (header rw);
       written := written rw |} in
  if HasPrefix path "/_ilm/policy" then ret (Some true, Fprintf rw "{}")
  else if HasPrefix path "/_index_template" then
    ret (Some true, Fprintf rw "{}")
  else if HasPrefix path "/_ingest" then ret (Some true, Fprintf rw "{}")
  else if HasPrefix path "/_nodes" then ret (Some true, Fprintf rw "{}")
  else if String.eqb path "/" then
    if String.eqb method MethodGet then
      ret (Some true, Fprintf rw versionBody)
    else ret (Some true, rw)
  else if String.eqb path "/_license" then
    ret (Some true, Fprintf rw licenseBody)
  else if String.eqb path "/_bulk" then
    res <- RequestHandler time_Parse UnixNano time_Now ParseLogMessage
             NeedFlush maxLineSizeBytes r ;;
    ret (res, rw)
  else ret (Some false, rw).

(** ** The rows a body stands for *)

(** A world that holds nothing but the clock. *)
Definition scratch (clk : nat) : World :=
  {| trace := []; clock := clk; lr := mkLogRows [] [] [] |}.

(** The rows [readBulkLine] hands to its sink on the line-pairs [pairs],
    read one after the other from the [clk]-th reading of the clock on: each
    document is decoded, its timestamp extracted and its message field
    renamed; the list ends at the first document that fails. *)
Fixpoint expectedRows (tenantID : TenantID) (timeField msgField : string)
    (pairs : list (nat * string * string)) (clk : nat) : list Row :=
  match pairs with
  | [] => []
  | (_, _, doc) :: rest =>
      match ParseLogMessage doc with
      | inl _ => []
      | inr fields =>
          let res :=
            extractTimestampFromFields time_Parse UnixNano time_Now timeField
              fields (scratch clk) in
          match fst (fst res) with
          | inl _ => []
          | inr timestamp =>
              mkRow tenantID timestamp
                (updateMessageFieldName msgField (snd (fst res)))
              :: expectedRows tenantID timeField msgField rest
                   (clock (snd res))
          end
      end
  end.

End Routing.

(** The rows a request has handed over so far: those in storage, then those
    waiting in the batch. *)
Definition accepted (w : World) : list Row :=
  storedRows (trace w) ++ rows (lr w).

(** The rows logged by the debug path, in order. *)
Fixpoint loggedRows (tr : list Event) : list Row :=
  match tr with
  | [] => []
  | LogInfof (Some row) :: tr' => row :: loggedRows tr'
  | _ :: tr' => loggedRows tr'
  end.

(** The rows a request has delivered: logged with the debug flag, accepted
    without it. *)
Definition delivered (dbg : bool) (w : World) : list Row :=
  if dbg then loggedRows (trace w) else accepted w.

(** ** Pool traffic *)

(** The events that take an object from a pool, give one back, or release a
    concurrency unit. *)
Definition isPoolEvent (e : Event) : bool :=
  match e with
  | GetGzipReader | PutGzipReader | GetReader | PutReader
  | GetLineBuffer | PutLineBuffer | GetParser | PutParser
  | DecConcurrency => true
  | _ => false
  end.

Definition poolTrace (tr : list Event) : list Event := filter isPoolEvent tr.

(** The events only the handler itself produces, around
    [readBulkRequest]. *)
Definition isHandlerEvent (e : Event) : bool :=
  match e with
  | BulkRequestsInc | HttpErrorf _ | GetLogRows | PutLogRows | LogWarnf _ _
  | GetBufferedWriter | PutBufferedWriter | WriteBulkResponse _ _ => true
  | _ => false
  end.

Definition handlerTrace (tr : list Event) : list Event :=
  filter isHandlerEvent tr.

(** The pool traffic of the round that ends the loop: the parser has been
    taken when the round failed on a document it had read. *)
Definition lastRound (err : option BulkError) : list Event :=
  match err with
  | Some (CannotParseJSON _) | Some (CannotParseTimestamp _) =>
      [GetParser; DecConcurrency]
  | _ => [DecConcurrency]
  end.

(** The pool traffic of a request whose body is read: [n] rounds that
    decode a line-pair, then the round that ends the loop, between the
    check-outs and the deferred check-ins. *)
Definition poolTraffic (isGzip : bool) (n : nat) (err : option BulkError)
  : list Event :=
  (if isGzip then [GetGzipReader] else [])
  ++ [GetReader; GetLineBuffer]
  ++ List.concat (repeat [GetParser; PutParser; DecConcurrency] n)
  ++ lastRound err
  ++ [PutLineBuffer; PutReader]
  ++ (if isGzip then [PutGzipReader] else []).

(** ** The checkpoints of the ingested-row counter *)

(** The successive amounts added to the counter by a request that decodes
    [n] rows. *)
Definition checkpointAdds (n : nat) : list Z :=
  if (n <? 1000)%nat then [Z.of_nat n]
  else 1000 :: repeat 1 (n - 1000) ++ [0].

(** The amounts added from the state of the loop in which [n] rows are
    counted, with [m] rows still to be decoded. *)
Definition checkpointAddsFrom (n m : nat) : list Z :=
  if (n + m <? 1000)%nat then [Z.of_nat (n + m)]
  else (if (n <? 1000)%nat then 1000 :: repeat 1 (n + m - 1000)
        else repeat 1 m) ++ [0].

(** The events of the handler's sink. *)
Definition isSinkEvent (e : Event) : bool :=
  match e with
  | LogInfof _ | RowsDroppedInc | StorageMustAddRows _ => true
  | _ => false
  end.

(** * The import handlers of vmagent

    [insertRows] of [app/vmagent/vmimport] and of [app/vmagent/native]
    turn parsed rows into one remote-write request and push it.  The pooled
    context, the counters and the push are outside these sources and are
    recorded as events; [remotewrite.TryPush] is a parameter. *)

Module prompbmarshal.

Section Types.

(** Sample values are copied, never inspected. *)
Context {float64 : Type}.

Record Label : Type := mkLabel { Name : string; Value : string }.

Record Sample : Type := mkSample {
  sampleValue : float64;
  Timestamp : Z
}.

Record TimeSeries : Type := mkTimeSeries {
  Labels : list Label;
  Samples : list Sample
}.

End Types.

Arguments Sample : clear implicits.
Arguments TimeSeries : clear implicits.

End prompbmarshal.

Module vmagent.

(** [auth.Token], as the tenant it names. *)
Record Token : Type := mkToken { AccountID : Z; ProjectID : Z }.

Inductive Error : Type := ErrQueueFullHTTPRetry.

Section Common.

Context {float64 : Type}.

(** A tag of a parsed row. *)
Record Tag : Type := mkTag { Key : string; tagValue : string }.

(** [common.PushCtx]: the request under construction and the two buffers
    its series are cut from. *)
Record PushCtx : Type := mkPushCtx {
  Timeseries : list (prompbmarshal.TimeSeries float64);
  ctxLabels : list prompbmarshal.Label;
  ctxSamples : list (prompbmarshal.Sample float64)
}.

Inductive Event : Type :=
| GetPushCtx
| PutPushCtx
| TryPushCall (at_ : option Token)
              (tss : list (prompbmarshal.TimeSeries float64))
| RowsInsertedAdd (n : Z)
| RowsTenantInsertedAdd (at_ : Token) (n : Z)
| RowsPerInsertUpdate (n : Z)
| Panicf (lenTimestamps lenValues : Z).

(** How a call ends: it returns an error value, or it panics (the deferred
    calls have run by then). *)
Inductive Outcome : Type :=
| Returned (err : option Error)
| Panicked.

(** The locals of [insertRows]. *)
Record Locals : Type := mkLocals {
  rowsTotal : Z;
  tssDst : list (prompbmarshal.TimeSeries float64);
  labels : list prompbmarshal.Label;
  samples : list (prompbmarshal.Sample float64)
}.

(** [for j := range tags { labels = append(labels, Label{...}) }]. *)
Fixpoint appendTags (labels : list prompbmarshal.Label) (tags : list Tag)
  : list prompbmarshal.Label :=
  match tags with
  | [] => labels
  | tag :: rest =>
      appendTags
        (labels ++ [prompbmarshal.mkLabel (Key tag) (tagValue tag)]) rest
  end.

(** [for j, value := range values { samples = append(samples,
    Sample{value, timestamps[j]}) }] from index [j] on; [None] stands for
    the run-time panic of [timestamps[j]] out of range. *)
Fixpoint appendSamples (samples : list (prompbmarshal.Sample float64))
    (values : list float64) (timestamps : list Z) (j : nat)
  : option (list (prompbmarshal.Sample float64)) :=
  match values with
  | [] => Some samples
  | value :: rest =>
      match nth_error timestamps j with
      | None => None
      | Some t =>
          appendSamples (samples ++ [prompbmarshal.mkSample value t]) rest
            timestamps (S j)
      end
  end.

(** Why a call panicked. *)
Inductive PanicCause : Type :=
| LengthMismatch (lenTimestamps lenValues : Z)
| IndexOutOfRange.

(** The counters both handlers update, for [n] rows. *)
Definition countRows (at_ : option Token) (n : Z) : list Event :=
  [RowsInsertedAdd n]
  ++ match at_ with
     | Some t => [RowsTenantInsertedAdd t n]
     | None => []
     end
  ++ [RowsPerInsertUpdate n].

Definition panicEvents (cause : PanicCause) : list Event :=
  match cause with
  | LengthMismatch lt lv => [Panicf lt lv]
  | IndexOutOfRange => []
  end.

End Common.

Arguments Tag : clear implicits.
Arguments PushCtx : clear implicits.
Arguments Event : clear implicits.
Arguments Locals : clear implicits.

End vmagent.

Module vmimport.

Import vmagent.

Section ImportRows.

Context {float64 : Type}.
Variable TryPush :
  option Token -> list (prompbmarshal.TimeSeries float64) -> bool.

(** [parser.Row]. *)
Record Row : Type := mkRow {
  Tags : list Tag;
  Values : list float64;
  Timestamps : list Z
}.

(** The loop over the rows, from the locals [acc]. *)
Fixpoint insertRows_loop (rows : list Row)
    (extraLabels : list prompbmarshal.Label) (acc : Locals float64)
  : PanicCause + Locals float64 :=
  match rows with
  | [] => inr acc
  | r :: rest =>
      let rowsTotal := rowsTotal acc + Z.of_nat (List.length (Values r)) in
      let labelsLen := List.length (labels acc) in
      let labels := appendTags (labels acc) (Tags r) in
      let labels := labels ++ extraLabels in
      let values := Values r in
      let timestamps := Timestamps r in
      if negb (List.length timestamps =? List.length values)%nat then
        inl (LengthMismatch (Z.of_nat (List.length timestamps))
               (Z.of_nat (List.length values)))
      else
        let samplesLen := List.length (samples acc) in
        match appendSamples (samples acc) values timestamps 0 with
        | None => inl IndexOutOfRange
        | Some samples =>
            let tssDst :=
              tssDst acc
              ++ [prompbmarshal.mkTimeSeries (skipn labelsLen labels)
                    (skipn samplesLen samples)] in
            insertRows_loop rest extraLabels
              (mkLocals rowsTotal tssDst labels samples)
        end
  end.

(** [insertRows(at, rows, extraLabels)] on the pooled context [ctx]: how
    the call ends, the context it hands back to the pool, and its events in
    order.  The locals [tssDst], [labels] and [samples] are reslices of the
    context's own arrays, which the appends write into, and the context gets
    them back only by the three assignments before the push.  When the call
    panics those assignments have not run and the arrays of the context hold
    what was appended so far under its old lengths; the model does not
    follow the arrays and gives no context then ([None]). *)
Definition insertRows (at_ : option Token) (rows : list Row)
    (extraLabels : list prompbmarshal.Label) (ctx : PushCtx float64)
  : Outcome * option (PushCtx float64) * list (Event float64) :=
  let acc :=
    mkLocals 0 (firstn 0 (Timeseries ctx)) (firstn 0 (ctxLabels ctx))
      (firstn 0 (ctxSamples ctx)) in
  match insertRows_loop rows extraLabels acc with
  | inl cause =>
      (Panicked, None, [GetPushCtx] ++ panicEvents cause ++ [PutPushCtx])
  | inr acc =>
      let ctx := mkPushCtx (tssDst acc) (labels acc) (samples acc) in
      if negb (TryPush at_ (Timeseries ctx)) then
        (Returned (Some ErrQueueFullHTTPRetry), Some ctx,
         [GetPushCtx; TryPushCall at_ (Timeseries ctx); PutPushCtx])
      else
        (Returned None, Some ctx,
         [GetPushCtx; TryPushCall at_ (Timeseries ctx)]
         ++ countRows at_ (rowsTotal acc) ++ [PutPushCtx])
  end.

End ImportRows.

Arguments Row : clear implicits.

End vmimport.

Module native.

Import vmagent.

Section Native.

Context {float64 : Type}.
Variable TryPush :
  option Token -> list (prompbmarshal.TimeSeries float64) -> bool.

(** [storage.MetricName], as far as the handler reads it. *)
Record MetricName : Type := mkMetricName {
  MetricGroup : string;
  Tags : list Tag
}.

(** [stream.Block]. *)
Record Block : Type := mkBlock {
  blockMetricName : MetricName;
  Values : list float64;
  Timestamps : list Z
}.

(** [insertRows(at, block, extraLabels)] on the pooled context [ctx].  As
    in the import handler, the labels are appended into the context's own
    array before the lengths are compared, and the context gets its slices
    back only by the assignments before the push: after a panic the model
    gives no context ([None]). *)
Definition insertRows (at_ : option Token) (block : Block)
    (extraLabels : list prompbmarshal.Label) (ctx : PushCtx float64)
  : Outcome * option (PushCtx float64) * list (Event float64) :=
  (* Update rowsInserted and rowsPerInsert before actual inserting,
     since relabeling can prevent from inserting the rows. *)
  let rowsLen := Z.of_nat (List.length (Values block)) in
  let counted := [GetPushCtx] ++ countRows at_ rowsLen in
  let tssDst := firstn 0 (Timeseries ctx) in
  let labels := firstn 0 (ctxLabels ctx) in
  let samples := firstn 0 (ctxSamples ctx) in
  let mn := blockMetricName block in
  let labelsLen := List.length labels in
  let labels :=
    labels ++ [prompbmarshal.mkLabel "__name__" (MetricGroup mn)] in
  let labels := appendTags labels (Tags mn) in
  let labels := labels ++ extraLabels in
  let values := Values block in
  let timestamps := Timestamps block in
  if negb (List.length timestamps =? List.length values)%nat then
    (Panicked, None,
     counted
     ++ [Panicf (Z.of_nat (List.length timestamps))
           (Z.of_nat (List.length values)); PutPushCtx])
  else
    let samplesLen := List.length samples in
    match appendSamples samples values timestamps 0 with
    | None => (Panicked, None, counted ++ [PutPushCtx])
    | Some samples =>
        let tssDst :=
          tssDst
          ++ [prompbmarshal.mkTimeSeries (skipn labelsLen labels)
                (skipn samplesLen samples)] in
        let ctx := mkPushCtx tssDst labels samples in
        if negb (TryPush at_ (Timeseries ctx)) then
          (Returned (Some ErrQueueFullHTTPRetry), Some ctx,
           counted ++ [TryPushCall at_ (Timeseries ctx); PutPushCtx])
        else
          (Returned None, Some ctx,
           counted ++ [TryPushCall at_ (Timeseries ctx); PutPushCtx])
    end.

End Native.

Arguments MetricName : clear implicits.
Arguments Block : clear implicits.

End native.

(** ** Reading the events of an import *)

(** The amount added to [vmagent_rows_inserted_total]. *)
Fixpoint rowsInsertedTotal {float64 : Type}
    (evs : list (vmagent.Event float64)) : Z :=
  match evs with
  | [] => 0
  | vmagent.RowsInsertedAdd n :: evs' => n + rowsInsertedTotal evs'
  | _ :: evs' => rowsInsertedTotal evs'
  end.

(** The amount added to the per-tenant counter of [t]. *)
Fixpoint rowsTenantInsertedTotal {float64 : Type} (t : vmagent.Token)
    (evs : list (vmagent.Event float64)) : Z :=
  match evs with
  | [] => 0
  | vmagent.RowsTenantInsertedAdd t' n :: evs' =>
      (if (vmagent.AccountID t =? vmagent.AccountID t')
          && (vmagent.ProjectID t =? vmagent.ProjectID t')
       then n else 0) + rowsTenantInsertedTotal t evs'
  | _ :: evs' => rowsTenantInsertedTotal t evs'
  end.

(** The requests handed to [remotewrite.TryPush], in order. *)
Fixpoint pushedRequests {float64 : Type}
    (evs : list (vmagent.Event float64))
  : list (list (prompbmarshal.TimeSeries float64)) :=
  match evs with
  | [] => []
  | vmagent.TryPushCall _ tss :: evs' => tss :: pushedRequests evs'
  | _ :: evs' => pushedRequests evs'
  end.

(** The number of samples of a request. *)
Definition sampleCount {float64 : Type}
    (tss : list (prompbmarshal.TimeSeries float64)) : Z :=
  Z.of_nat (List.length (List.concat (map prompbmarshal.Samples tss))).

(** The series a row of the import format stands for. *)
Definition seriesOfRow {float64 : Type}
    (extraLabels : list prompbmarshal.Label) (r : vmimport.Row float64)
  : prompbmarshal.TimeSeries float64 :=
  prompbmarshal.mkTimeSeries
    (map (fun tag =>
            prompbmarshal.mkLabel (vmagent.Key tag) (vmagent.tagValue tag))
       (vmimport.Tags r) ++ extraLabels)
    (map (fun vt => prompbmarshal.mkSample (fst vt) (snd vt))
       (combine (vmimport.Values r) (vmimport.Timestamps r))).

(** The series a block of the native format stands for. *)
Definition seriesOfBlock {float64 : Type}
    (extraLabels : list prompbmarshal.Label) (b : native.Block float64)
  : prompbmarshal.TimeSeries float64 :=
  prompbmarshal.mkTimeSeries
    (prompbmarshal.mkLabel "__name__"
       (native.MetricGroup (native.blockMetricName b))
     :: map (fun tag =>
               prompbmarshal.mkLabel (vmagent.Key tag) (vmagent.tagValue tag))
          (native.Tags (native.blockMetricName b)) ++ extraLabels)
    (map (fun vt => prompbmarshal.mkSample (fst vt) (snd vt))
       (combine (native.Values b) (native.Timestamps b))).

(** A row whose timestamps match its values in number. *)
Definition rowShaped {float64 : Type} (r : vmimport.Row float64) : bool :=
  (List.length (vmimport.Timestamps r)
   =? List.length (vmimport.Values r))%nat.

(** * The facets response (quicktemplate)

    [FacetsResponse] renders a map from field names to facet entries as a
    JSON document.  The template is written under [stripspace], so the
    layout of the source leaves no byte in the output.  [{%q= s %}] writes
    [s] as a JSON string; the quoting belongs to quicktemplate and is a
    parameter.  A Go map is modelled by its bindings in the order in which
    [range] happens to visit them. *)

Module Facets.

Record facetEntry : Type := mkFacetEntry { value : string; hits : string }.

Definition FacetMap : Type := list (string * list facetEntry).

(** [m[k]]: the entries bound to [k], none for a missing key. *)
Fixpoint lookup (m : FacetMap) (k : string) : list facetEntry :=
  match m with
  | [] => []
  | (k', fes) :: m' => if String.eqb k k' then fes else lookup m' k
  end.

Fixpoint insertSorted (k : string) (l : list string) : list string :=
  match l with
  | [] => [k]
  | x :: l' => if String.leb k x then k :: l else x :: insertSorted k l'
  end.

(** [slices.Sort] on strings: ascending byte-wise order. *)
Fixpoint slices_Sort (l : list string) : list string :=
  match l with
  | [] => []
  | k :: l' => insertSorted k (slices_Sort l')
  end.

(** The pieces a template writes one after the other. *)
Definition write (parts : list string) : string :=
  String.concat EmptyString parts.

(** The output of a [for] loop whose body writes [body x]. *)
Fixpoint writeEach {A : Type} (body : A -> string) (l : list A) : string :=
  match l with
  | [] => EmptyString
  | x :: l' => String.append (body x) (writeEach body l')
  end.

Section Template.

Variable Q : string -> string.

Definition facetLine (fe : facetEntry) : string :=
  write ["{"; quoted "field_value"; ":"; Q (value fe); ",";
         quoted "hits"; ":"; hits fe; "}"].

Definition facetsLine (m : FacetMap) (k : string) : string :=
  let fes := lookup m k in
  write ["{"; quoted "field_name"; ":"; Q k; ","; quoted "values"; ":[";
         match fes with
         | [] => EmptyString
         | fe0 :: rest =>
             String.append (facetLine fe0)
               (writeEach (fun fe => String.append "," (facetLine fe)) rest)
         end;
         "]"; "}"].

Definition FacetsResponse (m : FacetMap) : string :=
  let sortedKeys := slices_Sort (map fst m) in
  write ["{"; quoted "facets"; ":[";
         match sortedKeys with
         | [] => EmptyString
         | k0 :: rest =>
             String.append (facetsLine m k0)
               (writeEach (fun k => String.append "," (facetsLine m k)) rest)
         end;
         "]"; "}"].

End Template.

End Facets.

(** ** Decimal numerals

    The strings a client writes for a timestamp in milliseconds: a run of
    decimal digits, read most significant digit first. *)

Definition isDigit (c : ascii) : bool :=
  (48 <=? strconv.byte_val c) && (strconv.byte_val c <=? 57).

Fixpoint isDigits (s : string) : bool :=
  match s with
  | EmptyString => true
  | String c rest => isDigit c && isDigits rest
  end.

(** The number the digits of [s] denote after the digits of [n]. *)
Fixpoint digitsValueFrom (s : string) (n : Z) : Z :=
  match s with
  | EmptyString => n
  | String c rest => digitsValueFrom rest (n * 10 + (strconv.byte_val c - 48))
  end.

Definition digitsValue (s : string) : Z := digitsValueFrom s 0.

(** ** The part of Go's [time] the handler calls

    [time.Parse] with the layout [2006-01-02] and [Time.UnixNano] belong to
    the Go standard library; they are written out here after its source, as
    [strconv.ParseInt] is above.  The layout [time.RFC3339] is left to a
    parameter. *)

Module time.

(** An instant: the seconds since the Unix epoch and the nanoseconds within
    the second. *)
Record Time : Type := mkTime { unixSec : Z; nsec : Z }.

Definition isLeap (year : Z) : bool :=
  (year mod 4 =? 0) && (negb (year mod 100 =? 0) || (year mod 400 =? 0)).

(** [daysBefore[m]]: the days of a non-leap year before month [m + 1]. *)
Definition daysBefore (m : Z) : Z :=
  nth (Z.to_nat m) [0; 31; 59; 90; 120; 151; 181; 212; 243; 273; 304; 334; 365]
    0.

Definition daysIn (m year : Z) : Z :=
  if (m =? 2) && isLeap year then 29 else daysBefore m - daysBefore (m - 1).

(** [daysSinceEpoch]: the days before 1 January of [year], added up by 400-,
    100- and 4-year cycles and single years.  Go counts them from its
    absolute zero year, a whole number of 400-year cycles before year 1; the
    count here starts at year 1 and [Date] subtracts the days from there to
    1970. *)
Definition daysSinceEpoch (year : Z) : Z :=
  let y := year - 1 in
  let n := y / 400 in
  let y := y - 400 * n in
  let d := 146097 * n in
  let n := y / 100 in
  let y := y - 100 * n in
  let d := d + 36524 * n in
  let n := y / 4 in
  let y := y - 4 * n in
  let d := d + 1461 * n in
  d + 365 * y.

Definition secondsPerDay : Z := 86400.

(** [unixToInternal]: the seconds from year 1 to 1970. *)
Definition unixToInternal : Z :=
  (1969 * 365 + 1969 / 4 - 1969 / 100 + 1969 / 400) * secondsPerDay.

(** [Date(year, month, day, 0, 0, 0, 0, UTC)] for a month and a day that
    need no normalising. *)
Definition Date (year month day : Z) : Time :=
  let d := daysSinceEpoch year in
  let d := d + daysBefore (month - 1) in
  let d := if isLeap year && (3 <=? month) then d + 1 else d in
  let d := d + (day - 1) in
  mkTime (d * secondsPerDay - unixToInternal) 0.

Definition isDigit (c : ascii) : bool :=
  (48 <=? strconv.byte_val c) && (strconv.byte_val c <=? 57).

Definition digit (c : ascii) : Z := strconv.byte_val c - 48.

(** The chunk [2006]: at least four bytes, read by [atoi], which accepts
    digits only once the first byte is one. *)
Definition getyear (value : string) : option (Z * string) :=
  match value with
  | String a (String b (String c (String d rest))) =>
      if isDigit a && (isDigit b && isDigit c && isDigit d)
      then Some (((digit a * 10 + digit b) * 10 + digit c) * 10 + digit d,
                 rest)
      else None
  | _ => None
  end.

(** [getnum(s, true)]: exactly two digits. *)
Definition getnum (s : string) : option (Z * string) :=
  match s with
  | String a rest =>
      if negb (isDigit a) then None
      else match rest with
           | String b rest' =>
               if negb (isDigit b) then None
               else Some (digit a * 10 + digit b, rest')
           | EmptyString => None
           end
  | EmptyString => None
  end.

(** [skip(value, prefix)] for a prefix of one byte that is not a space. *)
Definition skip (value : string) (prefix : ascii) : option string :=
  match value with
  | String c rest => if Ascii.eqb c prefix then Some rest else None
  | EmptyString => None
  end.

(** [time.Parse("2006-01-02", value)]: the chunks of the layout in turn,
    then the check for text left over and the validation of the day of the
    month; any error is [None]. *)
Definition ParseDate (value : string) : option Time :=
  match getyear value with
  | None => None
  | Some (year, value) =>
      match skip value "-" with
      | None => None
      | Some value =>
          match getnum value with
          | None => None
          | Some (month, value) =>
              if (month <=? 0) || (12 <? month) then None
              else
                match skip value "-" with
                | None => None
                | Some value =>
                    match getnum value with
                    | None => None
                    | Some (day, value) =>
                        if negb (String.length value =? 0)%nat then None
                        else if (day <? 1) || (daysIn month year <? day)
                        then None
                        else Some (Date year month day)
                    end
                end
          end
      end
  end.

(** [t.UnixNano()]: [int64] arithmetic, which wraps around. *)
Definition UnixNano (t : Time) : Z :=
  Int64.wrap (Int64.wrap (unixSec t * 1000000000) + nsec t).

(** [time.Parse] for the two layouts of the handler. *)
Definition Parse (ParseRFC3339 : string -> option Time)
    (layout value : string) : option Time :=
  if String.eqb layout layoutDate then ParseDate value
  else if String.eqb layout layoutRFC3339 then ParseRFC3339 value
  else None.

End time.

(** ** The timestamp formats as the specification words them *)

(** A base-10 signed integer: an optional sign, then at least one digit. *)
Definition spec_digits (s : string) : option Z :=
  if negb (String.length s =? 0)%nat && isDigits s
  then Some (digitsValue s) else None.

Definition spec_decimal (s : string) : option Z :=
  match s with
  | EmptyString => None
  | String c rest =>
      if Ascii.eqb c "+" then spec_digits rest
      else if Ascii.eqb c "-" then option_map Z.opp (spec_digits rest)
      else spec_digits s
  end.

(** The Gregorian calendar. *)
Definition spec_leapYear (year : Z) : bool :=
  (year mod 400 =? 0) || ((year mod 4 =? 0) && negb (year mod 100 =? 0)).

Definition spec_monthLength (year month : Z) : Z :=
  if month =? 2 then (if spec_leapYear year then 29 else 28)
  else if (month =? 4) || (month =? 6) || (month =? 9) || (month =? 11)
  then 30 else 31.

(** A calendar date YYYY-MM-DD: ten bytes, digits around two dashes, a
    month of the year and a day of that month. *)
Definition spec_calendarDate (s : string) : option (Z * Z * Z) :=
  if (String.length s =? 10)%nat
     && isDigits (String.substring 0 4 s)
     && String.eqb (String.substring 4 1 s) "-"
     && isDigits (String.substring 5 2 s)
     && String.eqb (String.substring 7 1 s) "-"
     && isDigits (String.substring 8 2 s)
  then
    let year := digitsValue (String.substring 0 4 s) in
    let month := digitsValue (String.substring 5 2 s) in
    let day := digitsValue (String.substring 8 2 s) in
    if (1 <=? month) && (month <=? 12) && (1 <=? day)
       && (day <=? spec_monthLength year month)
    then Some (year, month, day)
    else None
  else None.

(** The leap days of the years 1 to [year - 1]. *)
Definition spec_leapDaysBefore (year : Z) : Z :=
  (year - 1) / 4 - (year - 1) / 100 + (year - 1) / 400.

(** The days from 1 January 1970 to a date: the whole years, then the whole
    months of its year, then the days of its month. *)
Definition spec_daysSince1970 (date : Z * Z * Z) : Z :=
  let '(year, month, day) := date in
  365 * (year - 1970)
  + (spec_leapDaysBefore year - spec_leapDaysBefore 1970)
  + fold_right Z.add 0
      (map (fun k => spec_monthLength year (Z.of_nat k))
         (seq 1 (Z.to_nat month - 1)))
  + (day - 1).

(** That date's midnight UTC, in nanoseconds since the epoch. *)
Definition spec_midnightUTC (date : Z * Z * Z) : Z :=
  spec_daysSince1970 date * 86400 * 1000000000.

(** * Properties *)

(** ** Timestamps *)

Lemma wrap_in_range (z : Z) : Int64.in_range z -> Int64.wrap z = z.
Proof.
  unfold Int64.in_range, Int64.wrap, Int64.MinInt64, Int64.MaxInt64; intros H.
  rewrite Z.mod_small; lia.
Qed.

Lemma get_in_range (s : string) (k : nat) :
  (k < String.length s)%nat -> exists c, String.get k s = Some c.
Proof.
  revert k; induction s as [|a s IH]; intros k Hk; simpl in *.
  - lia.
  - destruct k as [|k]; [now exists a|].
    apply IH; lia.
Qed.

Lemma millis_bounds : maxMillis = 9223372036854 /\ minMillis = -9223372036854.
Proof. split; reflexivity. Qed.

(** Within the two guards the multiplication by [1e6] does not wrap. *)
Lemma millis_no_wrap (n : Z) :
  (maxMillis <? n) = false -> (n <? minMillis) = false ->
  Int64.wrap (n * million) = n * 1000000.
Proof.
  destruct millis_bounds as [-> ->]; intros H1 H2.
  apply Z.ltb_ge in H1, H2.
  unfold million; apply wrap_in_range.
  unfold Int64.in_range, Int64.MinInt64, Int64.MaxInt64; lia.
Qed.

(** The index expression [s[4]] never panics: it is only evaluated on a
    value of at least 10 bytes. *)
Lemma looksLikeMillis_total (s : string) :
  looksLikeMillis s =
  Some ((String.length s <? 10)%nat || negb (fifthIsDash s)).
Proof.
  unfold looksLikeMillis, fifthIsDash.
  change (String.length "YYYY-MM-DD") with 10%nat.
  change (String.length "YYYY") with 4%nat.
  destruct (Z.ltb_spec (Z.of_nat (String.length s)) (Z.of_nat 10)) as [H|H].
  - assert (E : (String.length s <? 10)%nat = true)
      by (apply Nat.ltb_lt; lia).
    now rewrite E.
  - assert (E : (String.length s <? 10)%nat = false)
      by (apply Nat.ltb_ge; lia).
    rewrite E; simpl.
    destruct (get_in_range s 4) as [c Hc]; [lia|].
    now rewrite Hc.
Qed.

(** The timestamp parser of the source agrees, for every input and every
    date and date-time parser, with the three-way dispatch of the
    specification: milliseconds when the value has at least 10 bytes and a
    fifth byte other than a dash, or fewer than 10 bytes; otherwise a
    calendar date when it has exactly 10 bytes; otherwise an RFC 3339
    date-time; every branch fails with its own bad-timestamp error when its
    parse fails. *)
Lemma parseElasticsearchTimestamp_dispatch :
  forall (Time : Type) (time_Parse : string -> string -> option Time)
         (UnixNano : Time -> Z) (s : string),
    parseElasticsearchTimestamp time_Parse UnixNano s =
    spec_parseTimestamp time_Parse UnixNano s.
Proof.
  intros Time tp un s.
  unfold parseElasticsearchTimestamp, spec_parseTimestamp, spec_shape.
  rewrite looksLikeMillis_total.
  change (String.length "YYYY-MM-DD") with 10%nat.
  fold layoutDate; fold layoutRFC3339.
  destruct (Nat.ltb_spec (String.length s) 10) as [Hlt|Hge].
  - rewrite orb_true_r; cbn [orb].
    destruct (strconv.ParseInt s) as [e|n]; [reflexivity|].
    fold million; fold maxMillis; fold minMillis.
    destruct (maxMillis <? n) eqn:E1; [reflexivity|].
    destruct (n <? minMillis) eqn:E2; [reflexivity|].
    now rewrite millis_no_wrap.
  - assert (E : (10 <=? String.length s)%nat = true)
      by (apply Nat.leb_le; lia).
    rewrite E, orb_false_r; cbn [orb andb].
    destruct (negb (fifthIsDash s)).
    + destruct (strconv.ParseInt s) as [e|n]; [reflexivity|].
      fold million; fold maxMillis; fold minMillis.
      destruct (maxMillis <? n) eqn:E1; [reflexivity|].
      destruct (n <? minMillis) eqn:E2; [reflexivity|].
      now rewrite millis_no_wrap.
    + destruct (String.length s =? 10)%nat;
        [destruct (tp layoutDate s) | destruct (tp layoutRFC3339 s)];
        reflexivity.
Qed.

(** The examples of the specification, on the sample entries of
    [time.Parse]: one value per branch, and one failure per branch. *)
Example timestamp_examples :
  let parse := parseElasticsearchTimestamp Sample.time_Parse Sample.UnixNano in
  parse "1700000000000" = inr 1700000000000000000 /\
  parse "-5" = inr (-5000000) /\
  parse "2024-01-15" = inr 1705276800000000000 /\
  parse "2024-01-15T10:00:00Z" = inr 1705312800000000000 /\
  parse "12 o'clock" = inl (CannotParseMillis "12 o'clock" strconv.ErrSyntax) /\
  parse "2024-13-99" = inl (CannotParseDate "2024-13-99") /\
  parse "2024-01-15 10:00" = inl (CannotParseRFC3339 "2024-01-15 10:00") /\
  parse "-9223372036855" = inl (TooSmallMillis (-9223372036855)).
Proof. cbv zeta; repeat split. Qed.

(** C4. In the milliseconds branch, for every value [n] that
    [strconv.ParseInt] returns, the parser fails with an overflow error
    exactly when [n] exceeds [MaxInt64/1e6] or is below [MinInt64/1e6]
    (Go's truncating division), and otherwise returns [n * 1e6]
    nanoseconds; ["1700000000000"] yields [1700000000000 * 1e6] and
    ["9223372036854775"] fails with the overflow error. *)
Theorem C4_millis_overflow_guard :
  (forall (Time : Type) (time_Parse : string -> string -> option Time)
          (UnixNano : Time -> Z) (s : string) (n : Z),
      (String.length s < 10)%nat \/ fifthIsDash s = false ->
      strconv.ParseInt s = inr n ->
      let r := parseElasticsearchTimestamp time_Parse UnixNano s in
      let overflows :=
        n > Z.quot Int64.MaxInt64 1000000 \/
        n < Z.quot Int64.MinInt64 1000000 in
      ((exists e, r = inl e /\ isOverflowError e = true) <-> overflows) /\
      (~ overflows -> r = inr (n * 1000000)))
  /\
  (forall (Time : Type) (time_Parse : string -> string -> option Time)
          (UnixNano : Time -> Z),
      parseElasticsearchTimestamp time_Parse UnixNano "1700000000000"
      = inr (1700000000000 * 10 ^ 6))
  /\
  (forall (Time : Type) (time_Parse : string -> string -> option Time)
          (UnixNano : Time -> Z),
      exists e,
        parseElasticsearchTimestamp time_Parse UnixNano "9223372036854775"
        = inl e /\ isOverflowError e = true).
Proof.
  split; [|split].
  - intros Time tp un s n Hshape Hparse r overflows; subst r overflows.
    unfold parseElasticsearchTimestamp.
    rewrite looksLikeMillis_total.
    assert (E : ((String.length s <? 10)%nat || negb (fifthIsDash s)) = true).
    { destruct Hshape as [H|H].
      - apply Nat.ltb_lt in H; now rewrite H.
      - rewrite H; apply orb_true_r. }
    rewrite E, Hparse.
    fold maxMillis; fold minMillis.
    destruct (maxMillis <? n) eqn:E1.
    + apply Z.ltb_lt in E1; split.
      * split; [intros _; left; fold million; fold maxMillis; lia|].
        intros _; now exists (TooBigMillis n).
      * intros H; exfalso; apply H; left; fold million; fold maxMillis; lia.
    + destruct (n <? minMillis) eqn:E2.
      * apply Z.ltb_lt in E2; split.
        -- split; [intros _; right; fold million; fold minMillis; lia|].
           intros _; now exists (TooSmallMillis n).
        -- intros H; exfalso; apply H; right; fold million; fold minMillis; lia.
      * rewrite millis_no_wrap by assumption.
        apply Z.ltb_ge in E1, E2; split.
        -- split; [intros (e & He & _); discriminate|].
           fold million; fold maxMillis; fold minMillis; lia.
        -- reflexivity.
  - intros; reflexivity.
  - intros; exists (TooBigMillis 9223372036854775); split; reflexivity.
Qed.

Lemma C4_millis_overflow_guard_witness :
  ((String.length "42" < 10)%nat \/ fifthIsDash "42" = false) /\
  strconv.ParseInt "42" = inr 42 /\
  parseElasticsearchTimestamp Sample.time_Parse Sample.UnixNano "42"
  = inr (42 * 1000000).
Proof.
  split; [left; simpl; lia|].
  split; [reflexivity|].
  apply (proj1 C4_millis_overflow_guard Z Sample.time_Parse Sample.UnixNano
           "42" 42).
  - left; simpl; lia.
  - reflexivity.
  - unfold Int64.MaxInt64, Int64.MinInt64; intros [H|H]; vm_compute in H;
      discriminate.
Defined.

(** ** The timestamp extractor and the remapper *)

Section Extract.

Context {Time : Type}.
Variable time_Parse : string -> string -> option Time.
Variable UnixNano : Time -> Z.
Variable time_Now : nat -> Z.

Let extract := extractTimestampFromFields time_Parse UnixNano time_Now.
Let parse := parseElasticsearchTimestamp time_Parse UnixNano.

Lemma extract_no_match (timeField : string) (fields : list Field) (w : World) :
  Forall (fun f => Name f <> timeField) fields ->
  extract timeField fields w = ((inr (time_Now (clock w)), fields), tick w).
Proof.
  subst extract; induction 1 as [|f rest Hf _ IH]; simpl.
  - reflexivity.
  - apply String.eqb_neq in Hf; rewrite Hf; simpl.
    unfold bind at 1; rewrite IH; reflexivity.
Qed.

Lemma extract_first_match (timeField : string) (pre post : list Field)
    (f : Field) (w : World) :
  Forall (fun g => Name g <> timeField) pre ->
  Name f = timeField ->
  extract timeField (pre ++ f :: post) w =
  match parse (Value f) with
  | inl err => ((inl err, pre ++ f :: post), w)
  | inr timestamp => ((inr timestamp, pre ++ setValue f "" :: post), w)
  end.
Proof.
  subst extract parse; intros Hpre Hf.
  induction Hpre as [|g rest Hg _ IH]; simpl.
  - rewrite Hf, String.eqb_refl; simpl.
    destruct (parseElasticsearchTimestamp _ _ _); reflexivity.
  - apply String.eqb_neq in Hg; rewrite Hg; simpl.
    unfold bind at 1; rewrite IH.
    destruct (parseElasticsearchTimestamp _ _ _); reflexivity.
Qed.

(** The extractor touches neither the trace nor the batch. *)
Lemma extract_world (timeField : string) (fields : list Field) (w : World) :
  let w' := snd (extract timeField fields w) in
  trace w' = trace w /\ lr w' = lr w.
Proof.
  subst extract; revert w; induction fields as [|f rest IH]; intros w; simpl.
  - split; reflexivity.
  - destruct (negb (Name f =? timeField)%string).
    + unfold bind at 1 2.
      destruct (extractTimestampFromFields _ _ _ timeField rest w)
        as [r w1] eqn:E.
      specialize (IH w); rewrite E in IH; exact IH.
    + destruct (parseElasticsearchTimestamp _ _ _); split; reflexivity.
Qed.

(** A failed extraction returns the fields as they were, in the world as
    it was. *)
Lemma extract_error_unchanged (timeField : string) (fields : list Field)
    (w : World) (err : TimestampError) :
  fst (fst (extract timeField fields w)) = inl err ->
  extract timeField fields w = ((inl err, fields), w).
Proof.
  subst extract; revert w; induction fields as [|f rest IH]; intros w; simpl.
  - discriminate.
  - destruct (negb (Name f =? timeField)%string).
    + unfold bind at 1 2.
      destruct (extractTimestampFromFields _ _ _ timeField rest w)
        as [r w1] eqn:E.
      simpl; intros H.
      specialize (IH w); rewrite E in IH; simpl in IH.
      specialize (IH H); injection IH as -> ->. reflexivity.
    + destruct (parseElasticsearchTimestamp _ _ _) as [e|ts]; simpl.
      * now intros [= ->].
      * discriminate.
Qed.

End Extract.

(** C5, as amended. When no field bears the time-field name the extractor
    returns the current wall-clock time and leaves every field untouched.
    When one does, only the first such field is consulted: the outcome is
    the outcome of parsing its value, whatever follows it in the list.  On a
    successful parse its value is set to the empty string: the field keeps
    its name and its place in the list, and every other field, later ones of
    the same name included, is left untouched.  On a failed parse the error
    is returned, no later field of the same name is tried, and no field is
    changed.  In both cases the clock is not read. *)
Theorem C5_extract_timestamp :
  forall (Time : Type) (time_Parse : string -> string -> option Time)
         (UnixNano : Time -> Z) (time_Now : nat -> Z)
         (timeField : string) (fields : list Field) (w : World),
    (Forall (fun f => Name f <> timeField) fields ->
     extractTimestampFromFields time_Parse UnixNano time_Now timeField fields w
     = ((inr (time_Now (clock w)), fields), tick w))
    /\
    (forall (pre post : list Field) (f : Field),
        fields = pre ++ f :: post ->
        Forall (fun g => Name g <> timeField) pre ->
        Name f = timeField ->
        extractTimestampFromFields time_Parse UnixNano time_Now timeField
          fields w
        = match parseElasticsearchTimestamp time_Parse UnixNano (Value f) with
          | inr timestamp =>
              ((inr timestamp, pre ++ mkField (Name f) "" :: post), w)
          | inl err => ((inl err, fields), w)
          end).
Proof.
  intros Time tp un tnow timeField fields w; split.
  - apply extract_no_match.
  - intros pre post f -> Hpre Hf.
    rewrite extract_first_match by assumption.
    destruct (parseElasticsearchTimestamp tp un (Value f)); reflexivity.
Qed.

Lemma C5_extract_timestamp_witness :
  let fields := [mkField "msg" "hi"; mkField "_time" "1700000000000";
                 mkField "_time" "5"] in
  let later := [mkField "msg" "hi"; mkField "_time" "yesterday";
                mkField "_time" "5"] in
  extractTimestampFromFields Sample.time_Parse Sample.UnixNano
    Sample.time_Now "_time" fields Sample.world0
  = ((inr 1700000000000000000,
      [mkField "msg" "hi"; mkField "_time" ""; mkField "_time" "5"]),
     Sample.world0)
  /\
  extractTimestampFromFields Sample.time_Parse Sample.UnixNano
    Sample.time_Now "_time" later Sample.world0
  = ((inl (CannotParseMillis "yesterday" strconv.ErrSyntax), later),
     Sample.world0)
  /\
  extractTimestampFromFields Sample.time_Parse Sample.UnixNano
    Sample.time_Now "when" fields Sample.world0
  = ((inr (Sample.time_Now 0), fields), tick Sample.world0).
Proof.
  intros fields later; split; [|split].
  - apply (proj2 (C5_extract_timestamp Z Sample.time_Parse Sample.UnixNano
                    Sample.time_Now "_time" fields Sample.world0)
             [mkField "msg" "hi"] [mkField "_time" "5"]
             (mkField "_time" "1700000000000")).
    + reflexivity.
    + repeat constructor; simpl; discriminate.
    + reflexivity.
  - apply (proj2 (C5_extract_timestamp Z Sample.time_Parse Sample.UnixNano
                    Sample.time_Now "_time" later Sample.world0)
             [mkField "msg" "hi"] [mkField "_time" "5"]
             (mkField "_time" "yesterday")).
    + reflexivity.
    + repeat constructor; simpl; discriminate.
    + reflexivity.
  - apply (proj1 (C5_extract_timestamp Z Sample.time_Parse Sample.UnixNano
                    Sample.time_Now "when" fields Sample.world0)).
    repeat constructor; simpl; discriminate.
Defined.

(** C5 as stated fails: after a successful parse the matched field is
    still in the list and still bears its name; only its value is empty. *)
Lemma C5_counterexample :
  let fields := [mkField "_time" "1700000000000"; mkField "msg" "hi"] in
  let out := extractTimestampFromFields Sample.time_Parse Sample.UnixNano
               Sample.time_Now "_time" fields Sample.world0 in
  fst (fst out) = inr 1700000000000000000 /\
  snd (fst out) = [mkField "_time" ""; mkField "msg" "hi"] /\
  snd (fst out) <> [mkField "msg" "hi"] /\
  snd (fst out) <> [mkField "" ""; mkField "msg" "hi"].
Proof.
  cbv zeta; repeat split; try reflexivity; vm_compute; discriminate.
Qed.

Lemma updateMessageFieldName_loop_no_match (msgField : string)
    (fields : list Field) :
  Forall (fun f => Name f <> msgField) fields ->
  updateMessageFieldName_loop msgField fields = fields.
Proof.
  induction 1 as [|f rest Hf _ IH]; simpl; [reflexivity|].
  apply String.eqb_neq in Hf; rewrite Hf; now rewrite IH.
Qed.

Lemma updateMessageFieldName_loop_first (msgField : string)
    (pre post : list Field) (f : Field) :
  Forall (fun g => Name g <> msgField) pre ->
  Name f = msgField ->
  updateMessageFieldName_loop msgField (pre ++ f :: post)
  = pre ++ setName f "_msg" :: post.
Proof.
  intros Hpre Hf; induction Hpre as [|g rest Hg _ IH]; simpl.
  - now rewrite Hf, String.eqb_refl.
  - apply String.eqb_neq in Hg; rewrite Hg; now rewrite IH.
Qed.

(** C9. With an empty message-field name the remapper changes nothing.
    Otherwise the first field bearing that name is renamed to [_msg] with
    its value unchanged; the fields before and after it, later fields of the
    same name included, are left as they were; and when no field bears the
    name the list is unchanged. *)
Theorem C9_update_message_field_name :
  forall (msgField : string) (fields : list Field),
    (msgField = "" -> updateMessageFieldName msgField fields = fields)
    /\
    (Forall (fun f => Name f <> msgField) fields ->
     updateMessageFieldName msgField fields = fields)
    /\
    (forall (pre post : list Field) (f : Field),
        msgField <> "" ->
        fields = pre ++ f :: post ->
        Forall (fun g => Name g <> msgField) pre ->
        Name f = msgField ->
        updateMessageFieldName msgField fields
        = pre ++ mkField "_msg" (Value f) :: post).
Proof.
  intros msgField fields; unfold updateMessageFieldName; repeat split.
  - now intros ->.
  - intros H; destruct (msgField =? "")%string; [reflexivity|].
    now apply updateMessageFieldName_loop_no_match.
  - intros pre post f Hne -> Hpre Hf.
    apply String.eqb_neq in Hne; rewrite Hne.
    now apply updateMessageFieldName_loop_first.
Qed.

Lemma C9_update_message_field_name_witness :
  let fields := [mkField "host" "a"; mkField "message" "first";
                 mkField "message" "second"] in
  updateMessageFieldName "" fields = fields /\
  updateMessageFieldName "text" fields = fields /\
  updateMessageFieldName "message" fields
  = [mkField "host" "a"; mkField "_msg" "first"; mkField "message" "second"].
Proof.
  intros fields; split; [|split].
  - now apply (proj1 (C9_update_message_field_name "" fields)).
  - apply (proj1 (proj2 (C9_update_message_field_name "text" fields))).
    repeat constructor; simpl; discriminate.
  - apply (proj2 (proj2 (C9_update_message_field_name "message" fields))
             [mkField "host" "a"] [mkField "message" "second"]
             (mkField "message" "first")).
    + discriminate.
    + reflexivity.
    + repeat constructor; simpl; discriminate.
    + reflexivity.
Defined.

(** ** The line-pair reader *)

Lemma scanCommand_blanks (k : nat) (rest : list string)
    (fail : option ScanError) :
  scanCommand (repeat "" k ++ rest) fail = scanCommand rest fail.
Proof. induction k as [|k IH]; simpl; [reflexivity | exact IH]. Qed.

Lemma isCommand_not_empty (cmd : string) :
  isCommand cmd = true -> (String.length cmd =? 0)%nat = false.
Proof. destruct cmd; [discriminate | reflexivity]. Qed.

Lemma scanCommand_command (k : nat) (cmd : string) (rest : list string)
    (fail : option ScanError) :
  isCommand cmd = true ->
  scanCommand (repeat "" k ++ cmd :: rest) fail
  = (Some cmd, {| tokens := rest; failure := fail |}).
Proof.
  intros H; rewrite scanCommand_blanks; simpl.
  now rewrite (isCommand_not_empty _ H).
Qed.

Section ReadBulkLine.

Context {Time : Type}.
Variable time_Parse : string -> string -> option Time.
Variable UnixNano : Time -> Z.
Variable time_Now : nat -> Z.
Variable ParseLogMessage : string -> string + list Field.
Variable maxLineSizeBytes : Z.

Let readLine :=
  readBulkLine time_Parse UnixNano time_Now ParseLogMessage maxLineSizeBytes.

(** What [readBulkLine] does once a command line and a document line
    have been read. *)
Lemma readBulkLine_pair (k : nat) (cmd doc : string) (rest : list string)
    (fail : option ScanError) (timeField msgField : string)
    (sink : Z -> list Field -> M unit) (w : World) :
  isCommand cmd = true ->
  readLine {| tokens := repeat "" k ++ cmd :: doc :: rest; failure := fail |}
    timeField msgField sink w
  = let sc2 := {| tokens := rest; failure := fail |} in
    let w1 := snd (emit GetParser w) in
    match ParseLogMessage doc with
    | inl cause => ((inl (CannotParseJSON cause), sc2), w1)
    | inr fields =>
        let '(r, w2) :=
          extractTimestampFromFields time_Parse UnixNano time_Now
            timeField fields w1 in
        match fst r with
        | inl err => ((inl (CannotParseTimestamp err), sc2), w2)
        | inr timestamp =>
            let w3 :=
              snd (sink timestamp
                     (updateMessageFieldName msgField (snd r)) w2) in
            ((inr true, sc2), snd (emit PutParser w3))
        end
    end.
Proof.
  intros Hcmd; subst readLine; unfold readBulkLine; cbn [tokens failure].
  rewrite scanCommand_command by assumption.
  rewrite Hcmd; simpl.
  unfold bind at 1; simpl.
  destruct (ParseLogMessage doc) as [cause|fields]; [reflexivity|].
  unfold bind at 1.
  destruct (extractTimestampFromFields _ _ _ _ _ _) as [r w2].
  destruct (fst r) as [err|ts]; [reflexivity|].
  unfold bind; destruct (sink _ _ w2) as [u w3]; reflexivity.
Qed.

End ReadBulkLine.

(** C7. While the command is awaited, empty lines are skipped; the end of
    the input met there is the clean end of the request ([ok = false], no
    error), whereas the end of the input met after a command line and before
    its document line is the missing-log-message error.  Neither outcome
    touches the world. *)
Theorem C7_end_of_stream :
  forall (Time : Type) (time_Parse : string -> string -> option Time)
         (UnixNano : Time -> Z) (time_Now : nat -> Z)
         (ParseLogMessage : string -> string + list Field)
         (maxLineSizeBytes : Z) (k : nat) (timeField msgField : string)
         (sink : Z -> list Field -> M unit) (w : World),
    let readLine := readBulkLine time_Parse UnixNano time_Now ParseLogMessage
                      maxLineSizeBytes in
    let ended := {| tokens := []; failure := None |} in
    (forall (rest : list string) (fail : option ScanError),
        readLine {| tokens := repeat "" k ++ rest; failure := fail |}
          timeField msgField sink w
        = readLine {| tokens := rest; failure := fail |}
            timeField msgField sink w)
    /\
    readLine {| tokens := repeat "" k; failure := None |}
      timeField msgField sink w
    = ((inr false, ended), w)
    /\
    (forall cmd : string,
        isCommand cmd = true ->
        readLine {| tokens := repeat "" k ++ [cmd]; failure := None |}
          timeField msgField sink w
        = ((inl MissingLogMessage, ended), w)).
Proof.
  intros Time tp un tnow plm maxLine k tf mf sink w readLine ended.
  subst readLine ended; unfold readBulkLine; cbn [tokens failure].
  split; [|split].
  - intros rest fail; now rewrite scanCommand_blanks.
  - rewrite <- (app_nil_r (repeat "" k)), scanCommand_blanks; reflexivity.
  - intros cmd Hcmd.
    rewrite scanCommand_command by assumption.
    now rewrite Hcmd.
Qed.

Lemma C7_end_of_stream_witness :
  isCommand Sample.create = true /\
  readBulkLine Sample.time_Parse Sample.UnixNano Sample.time_Now
    Sample.ParseLogMessage Sample.maxLineSizeBytes
    {| tokens := [""; ""; Sample.create]; failure := None |} "_time" ""
    (processLogMessage Sample.neverFlush Sample.tenant0 false) Sample.world0
  = ((inl MissingLogMessage, {| tokens := []; failure := None |}),
     Sample.world0).
Proof.
  split; [reflexivity|].
  apply (proj2 (proj2 (C7_end_of_stream Z Sample.time_Parse Sample.UnixNano
                         Sample.time_Now Sample.ParseLogMessage
                         Sample.maxLineSizeBytes 2 "_time" ""
                         (processLogMessage Sample.neverFlush Sample.tenant0
                            false) Sample.world0)) Sample.create).
  reflexivity.
Defined.

(** C10. Once the document line of a line-pair has been read, a failure
    of the JSON decoder or of the timestamp parser ends [readBulkLine] with
    an error before the sink is called: whatever the sink is, the world
    afterwards is the world before plus the check-out of the parser, so the
    batch is unchanged.  On a timestamp failure the extractor hands the
    fields back exactly as it received them. *)
Theorem C10_failed_pair_leaves_no_trace :
  forall (Time : Type) (time_Parse : string -> string -> option Time)
         (UnixNano : Time -> Z) (time_Now : nat -> Z)
         (ParseLogMessage : string -> string + list Field)
         (maxLineSizeBytes : Z) (k : nat) (cmd doc : string)
         (rest : list string) (fail : option ScanError)
         (timeField msgField : string)
         (sink : Z -> list Field -> M unit) (w : World),
    isCommand cmd = true ->
    let sc := {| tokens := repeat "" k ++ cmd :: doc :: rest;
                 failure := fail |} in
    let sc' := {| tokens := rest; failure := fail |} in
    let w1 := {| trace := trace w ++ [GetParser]; clock := clock w;
                 lr := lr w |} in
    (forall cause : string,
        ParseLogMessage doc = inl cause ->
        readBulkLine time_Parse UnixNano time_Now ParseLogMessage
          maxLineSizeBytes sc timeField msgField sink w
        = ((inl (CannotParseJSON cause), sc'), w1))
    /\
    (forall (pre post : list Field) (f : Field) (err : TimestampError),
        ParseLogMessage doc = inr (pre ++ f :: post) ->
        Forall (fun g => Name g <> timeField) pre ->
        Name f = timeField ->
        parseElasticsearchTimestamp time_Parse UnixNano (Value f) = inl err ->
        extractTimestampFromFields time_Parse UnixNano time_Now timeField
          (pre ++ f :: post) w1
        = ((inl err, pre ++ f :: post), w1)
        /\
        readBulkLine time_Parse UnixNano time_Now ParseLogMessage
          maxLineSizeBytes sc timeField msgField sink w
        = ((inl (CannotParseTimestamp err), sc'), w1)).
Proof.
  intros Time tp un tnow plm maxLine k cmd doc rest fail tf mf sink w Hcmd
    sc sc' w1; subst sc sc'.
  split.
  - intros cause Hdoc.
    rewrite readBulkLine_pair by assumption.
    now rewrite Hdoc.
  - intros pre post f err Hdoc Hpre Hf Hparse.
    assert (E : extractTimestampFromFields tp un tnow tf (pre ++ f :: post) w1
                = ((inl err, pre ++ f :: post), w1)).
    { rewrite extract_first_match by assumption. now rewrite Hparse. }
    split; [exact E|].
    rewrite readBulkLine_pair by assumption.
    rewrite Hdoc; cbv zeta.
    change (snd (emit GetParser w)) with w1.
    now rewrite E.
Qed.

Lemma C10_failed_pair_leaves_no_trace_witness :
  let run doc :=
    readBulkLine Sample.time_Parse Sample.UnixNano Sample.time_Now
      Sample.ParseLogMessage Sample.maxLineSizeBytes
      {| tokens := [Sample.create; doc; "next"]; failure := None |}
      "_time" "" (processLogMessage Sample.neverFlush Sample.tenant0 false)
      Sample.world0 in
  let after := {| tokens := ["next"]; failure := None |} in
  let w1 := {| trace := [GetParser]; clock := 0; lr := mkLogRows [] [] [] |} in
  isCommand Sample.create = true /\
  run "no document" = ((inl (CannotParseJSON "unexpected document"), after), w1)
  /\
  run "_time=yesterday"
  = ((inl (CannotParseTimestamp
             (CannotParseMillis "yesterday" strconv.ErrSyntax)), after), w1).
Proof.
  intros run after w1; subst run after w1.
  split; [reflexivity|]; split.
  - apply (proj1 (C10_failed_pair_leaves_no_trace Z Sample.time_Parse
                    Sample.UnixNano Sample.time_Now Sample.ParseLogMessage
                    Sample.maxLineSizeBytes 0 Sample.create "no document"
                    ["next"] None "_time" ""
                    (processLogMessage Sample.neverFlush Sample.tenant0 false)
                    Sample.world0 eq_refl)).
    reflexivity.
  - apply (proj2 (C10_failed_pair_leaves_no_trace Z Sample.time_Parse
                    Sample.UnixNano Sample.time_Now Sample.ParseLogMessage
                    Sample.maxLineSizeBytes 0 Sample.create "_time=yesterday"
                    ["next"] None "_time" ""
                    (processLogMessage Sample.neverFlush Sample.tenant0 false)
                    Sample.world0 eq_refl)
             [] [] (mkField "_time" "yesterday")).
    + reflexivity.
    + constructor.
    + reflexivity.
    + reflexivity.
Defined.

(** ** Traces under concatenation *)

Lemma storedRows_app (a b : list Event) :
  storedRows (a ++ b) = storedRows a ++ storedRows b.
Proof.
  induction a as [|e a IH]; simpl; [reflexivity|].
  destruct e; rewrite ?IH, ?app_assoc; reflexivity.
Qed.

Lemma ingestedTotal_app (a b : list Event) :
  ingestedTotal (a ++ b) = ingestedTotal a + ingestedTotal b.
Proof.
  induction a as [|e a IH]; simpl; [reflexivity|].
  destruct e; rewrite ?IH; lia.
Qed.

Lemma droppedTotal_app (a b : list Event) :
  droppedTotal (a ++ b) = droppedTotal a + droppedTotal b.
Proof.
  induction a as [|e a IH]; cbn [droppedTotal app]; [reflexivity|].
  destruct e; rewrite ?IH; lia.
Qed.

Lemma reportedCount_app (a b : list Event) :
  reportedCount a = None -> reportedCount (a ++ b) = reportedCount b.
Proof.
  induction a as [|e a IH]; cbn [reportedCount app]; [reflexivity|].
  destruct e; auto; discriminate.
Qed.

Lemma warned_app (a b : list Event) :
  reportedCount a = None -> warned (a ++ b) = warned b.
Proof.
  induction a as [|e a IH]; cbn [reportedCount warned app]; [reflexivity|].
  destruct e; auto; discriminate.
Qed.

Lemma occurrences_app (e : Event) (a b : list Event) :
  occurrences e (a ++ b) = (occurrences e a + occurrences e b)%nat.
Proof. unfold occurrences; now rewrite filter_app, length_app. Qed.

(** ** The monad, unfolded *)

Lemma bind_eq {A B : Type} (m : M A) (k : A -> M B) (w : World) :
  bind m k w = k (fst (m w)) (snd (m w)).
Proof. unfold bind; destruct (m w); reflexivity. Qed.

Lemma emit_eq (e : Event) (w : World) : emit e w = (tt, emitted e w).
Proof. reflexivity. Qed.

(** ** One round of the request loop *)

Lemma scanCommand_spec (toks : list string) (fail : option ScanError) :
  let res := scanCommand toks fail in
  failure (snd res) = fail /\
  match fst res with
  | Some _ => (List.length (tokens (snd res)) < List.length toks)%nat
  | None => tokens (snd res) = []
  end.
Proof.
  induction toks as [|line rest IH]; cbn [scanCommand].
  - split; reflexivity.
  - destruct (String.length line =? 0)%nat.
    + cbv zeta in IH; destruct IH as [IH1 IH2]; split; [exact IH1|].
      destruct (fst (scanCommand rest fail)); [simpl; lia | exact IH2].
    + split; [reflexivity | simpl; lia].
Qed.

Section Round.

Context {Time : Type}.
Variable time_Parse : string -> string -> option Time.
Variable UnixNano : Time -> Z.
Variable time_Now : nat -> Z.
Variable ParseLogMessage : string -> string + list Field.
Variable maxLineSizeBytes : Z.

Let readLine :=
  readBulkLine time_Parse UnixNano time_Now ParseLogMessage maxLineSizeBytes.

(** A call of [readBulkLine] either stops before any document is read,
    leaving the world as it was, or reads a document from a strictly
    shorter input and decodes it. *)
Lemma readBulkLine_cases (sc : Scanner) (timeField msgField : string)
    (sink : Z -> list Field -> M unit) (w : World) :
  let res := readLine sc timeField msgField sink w in
  (snd res = w /\ fst (fst res) <> inr true)
  \/
  (exists (doc : string) (sc2 : Scanner),
      (List.length (tokens sc2) < List.length (tokens sc))%nat /\
      res = decodeDocument time_Parse UnixNano time_Now ParseLogMessage
              doc sc2 timeField msgField sink w).
Proof.
  subst readLine; unfold readBulkLine.
  pose proof (scanCommand_spec (tokens sc) (failure sc)) as Hscan.
  destruct (scanCommand (tokens sc) (failure sc)) as [[cmd|] sc1];
    simpl in Hscan; destruct Hscan as [Hfail Hlen].
  - destruct (negb (isCommand cmd)).
    + left; split; [reflexivity | discriminate].
    + unfold Scan; destruct (tokens sc1) as [|doc rest] eqn:Htok.
      * left; destruct (Err sc1) as [[|msg]|];
          (split; [reflexivity | discriminate]).
      * right; exists doc, {| tokens := rest; failure := failure sc1 |}.
        split; [simpl in *; lia|].
        unfold decodeDocument; rewrite bind_eq, emit_eq; cbn [fst snd].
        destruct (ParseLogMessage doc) as [cause|fields]; [reflexivity|].
        rewrite bind_eq.
        destruct (fst (fst (extractTimestampFromFields _ _ _ _ _ _)));
          [reflexivity|].
        rewrite !bind_eq, emit_eq; reflexivity.
  - left; destruct (Err sc1) as [[|msg]|];
      (split; [reflexivity | discriminate]).
Qed.

Lemma readBulkRequest_loop_S (fuel : nat) (sc : Scanner)
    (timeField msgField : string) (sink : Z -> list Field -> M unit)
    (n nCheckpoint : Z) (w : World) :
  readBulkRequest_loop time_Parse UnixNano time_Now ParseLogMessage
    maxLineSizeBytes (S fuel) sc timeField msgField sink n nCheckpoint w
  = let res := readLine sc timeField msgField sink w in
    let w1 := emitted DecConcurrency (snd res) in
    match fst (fst res) with
    | inl err =>
        (Some (n, Some err), emitted (RowsIngestedAdd (n - nCheckpoint)) w1)
    | inr false =>
        (Some (n, None), emitted (RowsIngestedAdd (n - nCheckpoint)) w1)
    | inr true =>
        if 1000 <=? n + 1 then
          readBulkRequest_loop time_Parse UnixNano time_Now ParseLogMessage
            maxLineSizeBytes fuel (snd (fst res)) timeField msgField sink
            (n + 1) (n + 1)
            (emitted (RowsIngestedAdd (n + 1 - nCheckpoint)) w1)
        else
          readBulkRequest_loop time_Parse UnixNano time_Now ParseLogMessage
            maxLineSizeBytes fuel (snd (fst res)) timeField msgField sink
            (n + 1) nCheckpoint w1
    end.
Proof.
  subst readLine; cbn [readBulkRequest_loop].
  rewrite !bind_eq, emit_eq; cbn [fst snd].
  destruct (fst (fst (readBulkLine _ _ _ _ _ _ _ _ _ _))) as [err|[|]].
  - rewrite bind_eq, emit_eq; reflexivity.
  - destruct (1000 <=? n + 1); [|reflexivity].
    rewrite bind_eq, emit_eq; reflexivity.
  - rewrite bind_eq, emit_eq; reflexivity.
Qed.

End Round.

Lemma RoundEffect_refl (dbg : bool) (w : World) : RoundEffect dbg w w [] 0.
Proof.
  unfold RoundEffect; rewrite app_nil_r.
  destruct dbg; simpl; repeat split; auto; lia.
Qed.

Lemma RoundEffect_trans (dbg : bool) (w1 w2 w3 : World)
    (evs1 evs2 : list Event) (k1 k2 : Z) :
  RoundEffect dbg w1 w2 evs1 k1 -> RoundEffect dbg w2 w3 evs2 k2 ->
  RoundEffect dbg w1 w3 (evs1 ++ evs2) (k1 + k2).
Proof.
  unfold RoundEffect; intros (T1 & N1 & P1 & H1) (T2 & N2 & P2 & H2).
  split; [rewrite T2, T1; symmetry; apply app_assoc|].
  split; [now rewrite reportedCount_app|].
  split; [rewrite occurrences_app; lia|].
  rewrite storedRows_app, droppedTotal_app, length_app.
  destruct dbg.
  - destruct H1 as (S1 & D1 & R1), H2 as (S2 & D2 & R2).
    rewrite S1, S2; repeat split; auto; lia.
  - destruct H1 as (D1 & C1), H2 as (D2 & C2); split; lia.
Qed.

Lemma RoundEffect_emitted (dbg : bool) (e : Event) (w : World) :
  neutral e -> RoundEffect dbg w (emitted e w) [e] 0.
Proof.
  intros (Hs & Hd & Hp & Hn); unfold RoundEffect; rewrite Hs, Hd, Hp, Hn.
  destruct dbg; simpl; repeat split; auto; lia.
Qed.

Lemma neutral_DecConcurrency : neutral DecConcurrency.
Proof. repeat split. Qed.

Lemma neutral_RowsIngestedAdd (k : Z) : neutral (RowsIngestedAdd k).
Proof. repeat split. Qed.

Lemma neutral_GetParser : neutral GetParser.
Proof. repeat split. Qed.

Create HintDb bulk.

#[local] Hint Resolve neutral_DecConcurrency neutral_RowsIngestedAdd
  neutral_GetParser RoundEffect_emitted RoundEffect_refl : bulk.

Lemma RoundEffect_trans_eq (dbg : bool) (w1 w2 w3 : World)
    (evs1 evs2 : list Event) (k1 k2 k : Z) :
  RoundEffect dbg w1 w2 evs1 k1 -> RoundEffect dbg w2 w3 evs2 k2 ->
  k = k1 + k2 ->
  RoundEffect dbg w1 w3 (evs1 ++ evs2) k.
Proof. intros H1 H2 ->; eapply RoundEffect_trans; eassumption. Qed.

(** The way a round ends the loop: the concurrency unit is released and
    the rows since the last checkpoint are added to the counter. *)
Lemma RoundEffect_stop (dbg : bool) (w : World) (k : Z) :
  RoundEffect dbg w
    (emitted (RowsIngestedAdd k) (emitted DecConcurrency w))
    ([DecConcurrency] ++ [RowsIngestedAdd k]) 0.
Proof.
  eapply RoundEffect_trans_eq;
    [ apply RoundEffect_emitted, neutral_DecConcurrency
    | apply RoundEffect_emitted, neutral_RowsIngestedAdd
    | reflexivity ].
Qed.

Section Sink.

Variable NeedFlush : LogRows -> bool.
Variable tenantID : TenantID.

(** One call of the closure [processLogMessage]. *)
Lemma processLogMessage_effect (dbg : bool) (timestamp : Z)
    (fields : list Field) (w : World) :
  let w' := snd (processLogMessage NeedFlush tenantID dbg timestamp fields w) in
  exists evs : list Event,
    trace w' = trace w ++ evs /\
    reportedCount evs = None /\
    occurrences PutParser evs = 0%nat /\
    ingestedTotal evs = 0 /\
    if dbg
    then storedRows evs = [] /\ droppedTotal evs = 1 /\ rows (lr w') = []
    else droppedTotal evs = 0 /\
         Z.of_nat (List.length (storedRows evs))
         + Z.of_nat (List.length (rows (lr w')))
         = Z.of_nat (List.length (rows (lr w))) + 1.
Proof.
  unfold processLogMessage; rewrite !bind_eq; cbn [getLR putLR fst snd lr].
  destruct dbg.
  - rewrite !bind_eq; cbn [getLR putLR emit fst snd lr trace].
    eexists [LogInfof _; RowsDroppedInc].
    rewrite <- app_assoc; repeat split.
  - rewrite !bind_eq; cbn [getLR putLR emit fst snd lr trace].
    destruct (NeedFlush _).
    + rewrite !bind_eq; cbn [getLR putLR emit fst snd lr trace].
      eexists [StorageMustAddRows _]; repeat split.
      cbn [storedRows rows MustAdd ResetKeepSettings].
      rewrite app_nil_r, length_app; simpl; lia.
    + exists []; rewrite app_nil_r; repeat split.
      cbn [ret snd lr rows MustAdd storedRows]; rewrite length_app; simpl; lia.
Qed.

End Sink.

Section Loop.

Context {Time : Type}.
Variable time_Parse : string -> string -> option Time.
Variable UnixNano : Time -> Z.
Variable time_Now : nat -> Z.
Variable ParseLogMessage : string -> string + list Field.
Variable NeedFlush : LogRows -> bool.
Variable maxLineSizeBytes : Z.
Variable tenantID : TenantID.
Variable dbg : bool.
Variables timeField msgField : string.

Let sink := processLogMessage NeedFlush tenantID dbg.

(** Decoding one document with the handler's sink. *)
Lemma decodeDocument_effect (doc : string) (sc2 : Scanner) (w : World) :
  let res := decodeDocument time_Parse UnixNano time_Now ParseLogMessage
               doc sc2 timeField msgField sink w in
  fst (fst res) <> inr false /\
  snd (fst res) = sc2 /\
  exists evs : list Event,
    RoundEffect dbg w (snd res) evs (decodedCount (fst (fst res))) /\
    ingestedTotal evs = 0.
Proof.
  unfold decodeDocument.
  destruct (ParseLogMessage doc) as [cause|fields]; cbn [fst snd].
  - split; [discriminate|]; split; [reflexivity|].
    exists [GetParser]; split; [auto with bulk | reflexivity].
  - pose proof (extract_world time_Parse UnixNano time_Now timeField fields
                  (emitted GetParser w)) as Hw.
    cbv zeta in Hw; destruct Hw as [Htr Hlr].
    destruct (extractTimestampFromFields _ _ _ _ _ _) as [[r fields'] w2].
    cbn [fst snd] in *.
    destruct r as [err|timestamp]; cbn [fst snd].
    + split; [discriminate|]; split; [reflexivity|].
      exists [GetParser]; split; [|reflexivity].
      unfold RoundEffect; rewrite Htr, Hlr; cbn [trace lr emitted].
      destruct dbg; simpl; repeat split; auto; lia.
    + split; [discriminate|]; split; [reflexivity|].
      pose proof (processLogMessage_effect NeedFlush tenantID dbg timestamp
                    (updateMessageFieldName msgField fields') w2) as Hs.
      cbv zeta in Hs; destruct Hs as (evs & Ht & Hn & Hp & Hi & Hd).
      fold sink in Ht, Hd.
      exists ([GetParser] ++ evs ++ [PutParser]); split.
      * unfold RoundEffect; cbn [trace lr emitted decodedCount].
        rewrite Ht, Htr; cbn [trace emitted].
        split; [now rewrite <- !app_assoc|].
        split; [cbn [app reportedCount]; now rewrite reportedCount_app|].
        rewrite !occurrences_app, Hp.
        split; [reflexivity|].
        rewrite !storedRows_app, !droppedTotal_app.
        rewrite Hlr in Hd; cbn [lr emitted] in Hd.
        destruct dbg.
        -- destruct Hd as (Hs1 & Hd1 & Hr1); rewrite Hs1, Hd1.
           repeat split; auto.
        -- destruct Hd as (Hd1 & Hc1); rewrite Hd1.
           split; [reflexivity|].
           cbn [storedRows app]; rewrite app_nil_r; exact Hc1.
      * rewrite !ingestedTotal_app, Hi; reflexivity.
Qed.

(** The request loop, started with more fuel than lines are left, ends;
    the rows it reports are the line-pairs decoded to the end, and the
    amounts it adds to the ingested-row counter sum up to the reported
    count less the checkpoint it started from. *)
Lemma readBulkRequest_loop_effect (fuel : nat) :
  forall (sc : Scanner) (n nCheckpoint : Z) (w : World),
    (List.length (tokens sc) < fuel)%nat ->
    exists (n' : Z) (err : option BulkError) (w' : World)
           (evs : list Event),
      readBulkRequest_loop time_Parse UnixNano time_Now ParseLogMessage
        maxLineSizeBytes fuel sc timeField msgField sink n nCheckpoint w
      = (Some (n', err), w') /\
      RoundEffect dbg w w' evs (n' - n) /\
      ingestedTotal evs = n' - nCheckpoint.
Proof.
  induction fuel as [|fuel IH]; intros sc n ck w Hfuel; [lia|].
  rewrite readBulkRequest_loop_S; cbv zeta.
  destruct (readBulkLine_cases time_Parse UnixNano time_Now ParseLogMessage
              maxLineSizeBytes sc timeField msgField sink w)
    as [[Hw Hr] | (doc & sc2 & Hlen & Hres)].
  - (* the round stops before a document is read *)
    rewrite Hw.
    assert (Hstop : RoundEffect dbg w
              (emitted (RowsIngestedAdd (n - ck)) (emitted DecConcurrency w))
              ([DecConcurrency] ++ [RowsIngestedAdd (n - ck)]) (n - n))
      by (rewrite Z.sub_diag; apply RoundEffect_stop).
    destruct (fst (fst (readBulkLine _ _ _ _ _ _ _ _ _ _))) as [err|[|]].
    + exists n, (Some err); do 2 eexists; split; [reflexivity|].
      split; [exact Hstop | simpl; lia].
    + now contradiction Hr.
    + exists n, None; do 2 eexists; split; [reflexivity|].
      split; [exact Hstop | simpl; lia].
  - (* a document is read and decoded *)
    rewrite Hres.
    destruct (decodeDocument_effect doc sc2 w)
      as (Hnf & Hsc & evs1 & Heff1 & Hing1).
    cbv zeta in Hnf, Hsc, Heff1.
    destruct (decodeDocument _ _ _ _ _ _ _ _ _ _) as [[r sc'] w1].
    cbn [fst snd] in *; subst sc'.
    destruct r as [err|[|]]; cbn [decodedCount] in Heff1.
    + exists n, (Some err); do 2 eexists; split; [reflexivity|].
      split.
      * eapply RoundEffect_trans_eq;
          [exact Heff1 | apply RoundEffect_stop | lia].
      * rewrite !ingestedTotal_app, Hing1; simpl; lia.
    + destruct (1000 <=? n + 1).
      * destruct (IH sc2 (n + 1) (n + 1)
                    (emitted (RowsIngestedAdd (n + 1 - ck))
                       (emitted DecConcurrency w1)))
          as (n' & err & w' & evs2 & Hrun & Heff2 & Hing2); [lia|].
        exists n', err, w'; eexists; split; [exact Hrun|].
        split.
        -- eapply RoundEffect_trans_eq;
             [ exact Heff1
             | eapply RoundEffect_trans_eq;
                 [apply RoundEffect_stop | exact Heff2 | reflexivity]
             | lia ].
        -- rewrite !ingestedTotal_app, Hing1, Hing2; simpl; lia.
      * destruct (IH sc2 (n + 1) ck (emitted DecConcurrency w1))
          as (n' & err & w' & evs2 & Hrun & Heff2 & Hing2); [lia|].
        exists n', err, w'; eexists; split; [exact Hrun|].
        split.
        -- eapply RoundEffect_trans_eq;
             [ exact Heff1
             | eapply RoundEffect_trans_eq;
                 [ apply RoundEffect_emitted, neutral_DecConcurrency
                 | exact Heff2 | reflexivity ]
             | lia ].
        -- rewrite !ingestedTotal_app, Hing1, Hing2; simpl; lia.
    + now contradiction Hnf.
Qed.

End Loop.

Ltac neutral_event e := apply (RoundEffect_emitted _ e); repeat split.

Section Request.

Context {Time : Type}.
Variable time_Parse : string -> string -> option Time.
Variable UnixNano : Time -> Z.
Variable time_Now : nat -> Z.
Variable ParseLogMessage : string -> string + list Field.
Variable NeedFlush : LogRows -> bool.
Variable maxLineSizeBytes : Z.

(** [readBulkRequest] with the handler's sink always returns; it reports
    the number of line-pairs decoded to the end, and has added exactly
    that number to the ingested-row counter, with or without the debug
    flag. *)
Lemma readBulkRequest_effect (tenantID : TenantID) (dbg : bool)
    (r : Reader) (isGzip : bool) (timeField msgField : string) (w : World) :
  exists (n : Z) (err : option BulkError) (w' : World) (evs : list Event),
    readBulkRequest time_Parse UnixNano time_Now ParseLogMessage
      maxLineSizeBytes r isGzip timeField msgField
      (processLogMessage NeedFlush tenantID dbg) w
    = (Some (n, err), w') /\
    RoundEffect dbg w w' evs n /\
    ingestedTotal evs = n.
Proof.
  assert (Hbody : forall w0 : World,
    exists (n : Z) (err : option BulkError) (w' : World) (evs : list Event),
      (emit GetReader ;;
       emit GetLineBuffer ;;
       res <- readBulkRequest_loop time_Parse UnixNano time_Now
                ParseLogMessage maxLineSizeBytes
                (S (List.length (tokens (lines r)))) (lines r)
                timeField msgField
                (processLogMessage NeedFlush tenantID dbg) 0 0 ;;
       emit PutLineBuffer ;;
       emit PutReader ;;
       ret res) w0 = (Some (n, err), w') /\
      RoundEffect dbg w0 w' evs n /\
      ingestedTotal evs = n).
  { intros w0.
    destruct (readBulkRequest_loop_effect time_Parse UnixNano time_Now
                ParseLogMessage NeedFlush maxLineSizeBytes tenantID dbg
                timeField msgField (S (List.length (tokens (lines r))))
                (lines r) 0 0
                (emitted GetLineBuffer (emitted GetReader w0)))
      as (n & err & w1 & evs & Hrun & Heff & Hing); [lia|].
    exists n, err; do 2 eexists; split; [|split].
    - rewrite !bind_eq, !emit_eq; cbn [fst snd].
      rewrite Hrun; reflexivity.
    - eapply RoundEffect_trans_eq;
        [ neutral_event GetReader
        | eapply RoundEffect_trans_eq;
            [ neutral_event GetLineBuffer
            | eapply RoundEffect_trans_eq;
                [ exact Heff
                | eapply RoundEffect_trans_eq;
                    [ neutral_event PutLineBuffer
                    | neutral_event PutReader | reflexivity ]
                | reflexivity ]
            | reflexivity ]
        | lia ].
    - rewrite !ingestedTotal_app, Hing; simpl; lia. }
  unfold readBulkRequest; destruct isGzip; [|apply Hbody].
  destruct (gzipOpen r) as [cause|].
  - exists 0, (Some (CannotReadGzip cause)), w, []; split; [reflexivity|].
    split; [apply RoundEffect_refl | reflexivity].
  - destruct (Hbody (emitted GetGzipReader w))
      as (n & err & w1 & evs & Hrun & Heff & Hing).
    exists n, err; do 2 eexists; split; [|split].
    + rewrite bind_eq, emit_eq; cbn [fst snd].
      rewrite bind_eq, Hrun; cbn [fst snd].
      rewrite bind_eq, emit_eq; reflexivity.
    + eapply RoundEffect_trans_eq;
        [ neutral_event GetGzipReader
        | eapply RoundEffect_trans_eq;
            [exact Heff | neutral_event PutGzipReader | reflexivity]
        | lia ].
    + rewrite !ingestedTotal_app, Hing; simpl; lia.
Qed.

End Request.

(** ** Well-formed line-pairs *)

Section WellFormed.

Context {Time : Type}.
Variable time_Parse : string -> string -> option Time.
Variable UnixNano : Time -> Z.
Variable time_Now : nat -> Z.
Variable ParseLogMessage : string -> string + list Field.
Variable maxLineSizeBytes : Z.
Variables timeField msgField : string.

Lemma timestampParses_extract (fields : list Field) (w : World) :
  timestampParses time_Parse UnixNano timeField fields = true ->
  exists timestamp : Z,
    fst (fst (extractTimestampFromFields time_Parse UnixNano time_Now
                timeField fields w)) = inr timestamp.
Proof.
  induction fields as [|f rest IH]; cbn [timestampParses
    extractTimestampFromFields].
  - intros _; rewrite bind_eq; now eexists.
  - destruct (Name f =? timeField)%string; cbn [negb].
    + destruct (parseElasticsearchTimestamp _ _ _) as [err|ts];
        [discriminate | intros _; now exists ts].
    + intros H; destruct (IH H) as [ts Hts].
      rewrite bind_eq; cbn [ret fst]; now exists ts.
Qed.

(** On a body made of well-formed line-pairs followed by lines on which
    [readBulkLine] does not succeed, the request loop reports the number
    of those line-pairs, whatever the sink does. *)
Lemma readBulkRequest_loop_counts (sink : Z -> list Field -> M unit)
    (tail : list string) (fail : option ScanError) :
  (forall w : World,
      fst (fst (readBulkLine time_Parse UnixNano time_Now ParseLogMessage
                  maxLineSizeBytes {| tokens := tail; failure := fail |}
                  timeField msgField sink w)) <> inr true) ->
  forall (pairs : list (nat * string * string)),
    forallb (wellFormed time_Parse UnixNano ParseLogMessage timeField) pairs
    = true ->
    forall (fuel : nat) (n nCheckpoint : Z) (w : World),
      (List.length (flat_map pairLines pairs ++ tail) < fuel)%nat ->
      exists (err : option BulkError) (w' : World),
        readBulkRequest_loop time_Parse UnixNano time_Now ParseLogMessage
          maxLineSizeBytes fuel
          {| tokens := flat_map pairLines pairs ++ tail; failure := fail |}
          timeField msgField sink n nCheckpoint w
        = (Some (n + Z.of_nat (List.length pairs), err), w').
Proof.
  intros Htail pairs; induction pairs as [|[[k cmd] doc] pairs IH];
    intros Hwf fuel n ck w Hfuel;
    (destruct fuel as [|fuel]; [lia|]); rewrite readBulkRequest_loop_S;
    cbv zeta.
  - cbn [flat_map app List.length]; rewrite Z.add_0_r.
    specialize (Htail w).
    destruct (fst (fst (readBulkLine _ _ _ _ _ _ _ _ _ _))) as [err|[|]].
    + now eexists _, _.
    + now contradiction Htail.
    + now eexists _, _.
  - cbn [forallb wellFormed] in Hwf.
    apply andb_true_iff in Hwf; destruct Hwf as [Hp Hps].
    apply andb_true_iff in Hp; destruct Hp as [Hcmd Hdoc].
    cbn [flat_map pairLines] in *.
    rewrite <- !app_assoc in *; cbn [app] in *.
    rewrite readBulkLine_pair by assumption; cbv zeta.
    destruct (ParseLogMessage doc) as [cause|fields]; [discriminate|].
    destruct (timestampParses_extract fields (snd (emit GetParser w)) Hdoc)
      as [ts Hts].
    destruct (extractTimestampFromFields _ _ _ _ _ _) as [r w2].
    cbn [fst] in Hts; rewrite Hts; cbn [fst snd].
    rewrite length_app, repeat_length in Hfuel; cbn [List.length] in Hfuel.
    replace (n + Z.of_nat (List.length ((k, cmd, doc) :: pairs)))
      with (n + 1 + Z.of_nat (List.length pairs))
      by (cbn [List.length]; lia).
    destruct (1000 <=? n + 1); apply IH; auto; lia.
Qed.

Lemma timestampParses_extract_false (fields : list Field) (w : World) :
  timestampParses time_Parse UnixNano timeField fields = false ->
  exists err : TimestampError,
    fst (fst (extractTimestampFromFields time_Parse UnixNano time_Now
                timeField fields w)) = inl err.
Proof.
  induction fields as [|f rest IH]; cbn [timestampParses
    extractTimestampFromFields].
  - discriminate.
  - destruct (Name f =? timeField)%string; cbn [negb].
    + destruct (parseElasticsearchTimestamp _ _ _) as [err|ts];
        [intros _; now exists err | discriminate].
    + intros H; destruct (IH H) as [err Herr].
      rewrite bind_eq; cbn [ret fst]; now exists err.
Qed.

Lemma scanCommand_failure (toks : list string) (fail : option ScanError) :
  scanCommand toks fail
  = (fst (scanCommand toks None),
     {| tokens := tokens (snd (scanCommand toks None)); failure := fail |}).
Proof.
  induction toks as [|line rest IH]; cbn [scanCommand]; [reflexivity|].
  destruct (String.length line =? 0)%nat; [exact IH | reflexivity].
Qed.

Lemma stopsRequest_readBulkLine (tail : list string)
    (fail : option ScanError) (sink : Z -> list Field -> M unit)
    (w : World) :
  stopsRequest time_Parse UnixNano ParseLogMessage timeField tail = true ->
  fst (fst (readBulkLine time_Parse UnixNano time_Now ParseLogMessage
              maxLineSizeBytes {| tokens := tail; failure := fail |}
              timeField msgField sink w)) <> inr true.
Proof.
  unfold stopsRequest, readBulkLine; cbn [tokens failure].
  rewrite (scanCommand_failure tail fail).
  destruct (scanCommand tail None) as [[cmd|] sc1]; cbn [fst snd].
  - destruct (isCommand cmd) eqn:Hcmd; cbn [negb orb]; [|discriminate].
    unfold Scan; cbn [tokens failure].
    destruct (tokens sc1) as [|doc rest].
    + intros _; destruct (Err _) as [[|msg]|]; discriminate.
    + cbn [wellFormed]; rewrite Hcmd; cbn [andb].
      rewrite bind_eq, emit_eq; cbn [fst snd].
      destruct (ParseLogMessage doc) as [cause|fields]; [discriminate|].
      intros H; apply negb_true_iff in H.
      destruct (timestampParses_extract_false fields
                  (emitted GetParser w) H) as [err Herr].
      rewrite bind_eq, Herr; discriminate.
  - intros _; destruct (Err _) as [[|msg]|]; discriminate.
Qed.

End WellFormed.

Section Counting.

Context {Time : Type}.
Variable time_Parse : string -> string -> option Time.
Variable UnixNano : Time -> Z.
Variable time_Now : nat -> Z.
Variable ParseLogMessage : string -> string + list Field.
Variable maxLineSizeBytes : Z.
Variables timeField msgField : string.

(** [readBulkRequest] on a body of well-formed line-pairs followed by
    lines that stop the request reports the number of those line-pairs. *)
Lemma readBulkRequest_counts (sink : Z -> list Field -> M unit)
    (r : Reader) (isGzip : bool) (pairs : list (nat * string * string))
    (tail : list string) (w : World) :
  bodyOpens r isGzip = true ->
  tokens (lines r) = flat_map pairLines pairs ++ tail ->
  forallb (wellFormed time_Parse UnixNano ParseLogMessage timeField) pairs
  = true ->
  stopsRequest time_Parse UnixNano ParseLogMessage timeField tail = true ->
  exists (err : option BulkError) (w' : World),
    readBulkRequest time_Parse UnixNano time_Now ParseLogMessage
      maxLineSizeBytes r isGzip timeField msgField sink w
    = (Some (Z.of_nat (List.length pairs), err), w').
Proof.
  intros Hopen Htok Hwf Hstop.
  destruct r as [gz [toks fail]]; cbn [lines tokens] in Htok; subst toks.
  assert (Hloop : forall w0 : World, exists err w',
    readBulkRequest_loop time_Parse UnixNano time_Now ParseLogMessage
      maxLineSizeBytes
      (S (List.length (flat_map pairLines pairs ++ tail)))
      {| tokens := flat_map pairLines pairs ++ tail; failure := fail |}
      timeField msgField sink 0 0 w0
    = (Some (Z.of_nat (List.length pairs), err), w')).
  { intros w0.
    apply (readBulkRequest_loop_counts time_Parse UnixNano time_Now
             ParseLogMessage maxLineSizeBytes timeField msgField sink tail
             fail); [|assumption|lia].
    intros w1; now apply stopsRequest_readBulkLine. }
  unfold readBulkRequest, bodyOpens in *; cbn [lines tokens gzipOpen] in *.
  destruct isGzip; [destruct gz as [cause|]; [discriminate|]|].
  - rewrite !bind_eq, !emit_eq; cbn [fst snd].
    destruct (Hloop (emitted GetLineBuffer
                       (emitted GetReader (emitted GetGzipReader w))))
      as (err & w' & Hrun).
    rewrite Hrun; now eexists _, _.
  - rewrite !bind_eq, !emit_eq; cbn [fst snd].
    destruct (Hloop (emitted GetLineBuffer (emitted GetReader w)))
      as (err & w' & Hrun).
    rewrite Hrun; now eexists _, _.
Qed.

End Counting.

(** ** The handler *)

Lemma requestEnd_observed (n : Z) (err : option BulkError)
    (batch : list Row) (tookMs : Z) :
  let evs := requestEnd n err batch tookMs in
  reportedCount evs = Some n /\
  warned evs = match err with Some _ => true | None => false end /\
  storedRows evs = match err with Some _ => [] | None => batch end /\
  droppedTotal evs = 0 /\
  ingestedTotal evs = 0 /\
  occurrences PutParser evs = 0%nat.
Proof.
  destruct err; cbn; rewrite ?app_nil_r; repeat split.
Qed.

(** The [/_bulk] arm always returns: it runs [readBulkRequest] in the
    world [requestStart] and then does what [requestEnd] says. *)
Lemma RequestHandler_effect :
  forall (Time : Type) (time_Parse : string -> string -> option Time)
         (UnixNano : Time -> Z) (time_Now : nat -> Z)
         (ParseLogMessage : string -> string + list Field)
         (NeedFlush : LogRows -> bool) (maxLineSizeBytes : Z)
         (r : Request) (tenantID : TenantID) (w : World),
    reqTenant r = inr tenantID ->
    exists (n : Z) (err : option BulkError) (w1 : World)
           (evs1 : list Event) (tookMs : Z),
      readBulkRequest time_Parse UnixNano time_Now ParseLogMessage
        maxLineSizeBytes (reqBody r) (reqGzip r) (timeFieldOf r)
        (msgFieldOf r) (processLogMessage NeedFlush tenantID (reqDebug r))
        (requestStart r w) = (Some (n, err), w1) /\
      RoundEffect (reqDebug r) (requestStart r w) w1 evs1 n /\
      ingestedTotal evs1 = n /\
      RequestHandler time_Parse UnixNano time_Now ParseLogMessage NeedFlush
        maxLineSizeBytes r w
      = (Some true,
         {| trace := trace w ++ [BulkRequestsInc; GetLogRows] ++ evs1
                     ++ requestEnd n err (rows (lr w1)) tookMs;
            clock := match err with
                     | Some _ => clock w1
                     | None => S (clock w1)
                     end;
            lr := lr w1 |}).
Proof.
  intros Time tp un tnow plm NF maxLine r t w Hten.
  destruct (readBulkRequest_effect tp un tnow plm NF maxLine t (reqDebug r)
              (reqBody r) (reqGzip r) (timeFieldOf r) (msgFieldOf r)
              (requestStart r w))
    as (n & err & w1 & evs1 & Hrun & Heff & Hing).
  exists n, err, w1, evs1,
    (Z.quot (tnow (clock w1) - tnow (clock w)) million).
  repeat (split; [assumption|]).
  unfold RequestHandler; rewrite Hten.
  fold (timeFieldOf r); fold (msgFieldOf r).
  rewrite !bind_eq, !emit_eq;
    cbn [fst snd now putLR emitted trace clock lr].
  rewrite <- app_assoc; cbn [app]; fold (requestStart r w).
  rewrite Hrun; cbn [fst snd].
  destruct Heff as (Htr & _); cbn [requestStart trace] in Htr.
  destruct err as [err|]; cbn [requestEnd].
  - rewrite bind_eq, emit_eq; cbn [fst snd].
    unfold ret, emitted; rewrite Htr, <- !app_assoc; reflexivity.
  - rewrite !bind_eq, !emit_eq; cbn [fst snd getLR now].
    unfold ret, emitted; cbn [trace clock lr].
    rewrite Htr, <- !app_assoc; reflexivity.
Qed.

(** ** The debug flag *)

(** C2, as amended. For every [/_bulk] request with the debug flag set,
    whatever its body, the handler returns; with [N] the number of line-pairs
    decoded to the end (the count the handler reports, and the number of
    well-formed line-pairs the body begins with), no row reaches storage,
    the dropped-row counter grows by exactly [N], and the ingested-row
    counter grows by [N] as well: [readBulkRequest] counts every decoded
    line-pair without regard to the flag. *)
Theorem C2_debug_request :
  forall (Time : Type) (time_Parse : string -> string -> option Time)
         (UnixNano : Time -> Z) (time_Now : nat -> Z)
         (ParseLogMessage : string -> string + list Field)
         (NeedFlush : LogRows -> bool) (maxLineSizeBytes : Z)
         (r : Request) (tenantID : TenantID) (w : World),
    reqDebug r = true ->
    reqTenant r = inr tenantID ->
    exists (w' : World) (evs : list Event) (N : Z),
      RequestHandler time_Parse UnixNano time_Now ParseLogMessage NeedFlush
        maxLineSizeBytes r w = (Some true, w') /\
      trace w' = trace w ++ evs /\
      Z.of_nat (occurrences PutParser evs) = N /\
      reportedCount evs = Some N /\
      storedRows evs = [] /\
      droppedTotal evs = N /\
      ingestedTotal evs = N /\
      (forall (pairs : list (nat * string * string)) (tail : list string),
          bodyOpens (reqBody r) (reqGzip r) = true ->
          tokens (lines (reqBody r)) = flat_map pairLines pairs ++ tail ->
          forallb (wellFormed time_Parse UnixNano ParseLogMessage
                     (timeFieldOf r)) pairs = true ->
          stopsRequest time_Parse UnixNano ParseLogMessage (timeFieldOf r)
            tail = true ->
          N = Z.of_nat (List.length pairs)).
Proof.
  intros Time tp un tnow plm NF maxLine r t w Hdbg Hten.
  destruct (RequestHandler_effect Time tp un tnow plm NF maxLine r t w Hten)
    as (n & err & w1 & evs1 & took & Hrun & Heff & Hing & Hhandler).
  rewrite Hdbg in Hrun, Heff.
  destruct Heff as (_ & Hrep & Hocc & Hst & Hdr & Hrows).
  specialize (Hrows eq_refl).
  destruct (requestEnd_observed n err (rows (lr w1)) took)
    as (Erep & _ & Est & Edr & Eing & Eocc).
  eexists; exists ([BulkRequestsInc; GetLogRows] ++ evs1
                   ++ requestEnd n err (rows (lr w1)) took), n.
  split; [exact Hhandler|]; split; [reflexivity|].
  rewrite !occurrences_app, !storedRows_app, !droppedTotal_app,
    !ingestedTotal_app, Hst, Hdr, Hing, Est, Edr, Eing, Eocc.
  split; [cbn; lia|].
  split; [cbn [app reportedCount]; now rewrite reportedCount_app|].
  split; [destruct err; cbn [app]; rewrite ?Hrows; reflexivity|].
  split; [cbn; lia|].
  split; [cbn; lia|].
  intros pairs tail Hopen Htok Hwf Hstop.
  destruct (readBulkRequest_counts tp un tnow plm maxLine (timeFieldOf r)
              (msgFieldOf r) (processLogMessage NF t true) (reqBody r)
              (reqGzip r) pairs tail (requestStart r w) Hopen Htok Hwf Hstop)
    as (err' & w1' & Hrun').
  rewrite Hrun in Hrun'; now injection Hrun'.
Qed.

Lemma C2_debug_request_witness :
  let r := Sample.request true
             [Sample.create; "msg=a"; ""; Sample.create; "msg=b";
              Sample.create; "no document"] in
  reqDebug r = true /\
  reqTenant r = inr Sample.tenant0 /\
  exists (w' : World) (evs : list Event),
    Sample.handle (Sample.flushAt 1) r = (Some true, w') /\
    trace w' = evs /\
    reportedCount evs = Some 2 /\
    storedRows evs = [] /\
    droppedTotal evs = 2 /\
    ingestedTotal evs = 2.
Proof.
  intros r; split; [reflexivity|]; split; [reflexivity|].
  destruct (C2_debug_request Z Sample.time_Parse Sample.UnixNano
              Sample.time_Now Sample.ParseLogMessage (Sample.flushAt 1)
              Sample.maxLineSizeBytes r Sample.tenant0 Sample.world0
              eq_refl eq_refl)
    as (w' & evs & N & Hrun & Htr & _ & Hrep & Hst & Hdr & Hing & Hcount).
  assert (HN : N = 2).
  { apply (Hcount [(0%nat, Sample.create, "msg=a");
                   (1%nat, Sample.create, "msg=b")]
             [Sample.create; "no document"]); reflexivity. }
  rewrite HN in Hrep, Hdr, Hing; exists w', evs.
  split; [exact Hrun|]; split; [exact Htr|]; split; [exact Hrep|].
  split; [exact Hst|]; split; [exact Hdr | exact Hing].
Defined.

(** C2 as stated fails: a debug request with one line-pair adds one to the
    ingested-row counter, while it stores nothing and drops one row. *)
Lemma C2_counterexample :
  let w' := snd (Sample.handle Sample.neverFlush
                   (Sample.request true [Sample.create; "msg=a"])) in
  storedRows (trace w') = [] /\
  droppedTotal (trace w') = 1 /\
  ingestedTotal (trace w') = 1 /\
  ingestedTotal (trace w') <> ingestedTotal (trace Sample.world0).
Proof.
  cbv zeta; repeat split; try reflexivity; vm_compute; discriminate.
Qed.

(** ** Requests without the debug flag *)

(** Every [/_bulk] request without the debug flag returns and adds to the
    ingested-row counter exactly the count [N] it reports.  When it ends
    without error, [N] rows have reached storage.  When it ends with the
    warning of a decode error, the rows that reached storage and the rows
    left in the batch, which is not flushed, add up to [N]. *)
Lemma plain_request_accounting :
  forall (Time : Type) (time_Parse : string -> string -> option Time)
         (UnixNano : Time -> Z) (time_Now : nat -> Z)
         (ParseLogMessage : string -> string + list Field)
         (NeedFlush : LogRows -> bool) (maxLineSizeBytes : Z)
         (r : Request) (tenantID : TenantID) (w : World),
    reqDebug r = false ->
    reqTenant r = inr tenantID ->
    exists (w' : World) (evs : list Event) (N : Z),
      RequestHandler time_Parse UnixNano time_Now ParseLogMessage NeedFlush
        maxLineSizeBytes r w = (Some true, w') /\
      trace w' = trace w ++ evs /\
      reportedCount evs = Some N /\
      ingestedTotal evs = N /\
      droppedTotal evs = 0 /\
      ((warned evs = false /\
        Z.of_nat (List.length (storedRows evs)) = N)
       \/
       (warned evs = true /\
        Z.of_nat (List.length (storedRows evs))
        + Z.of_nat (List.length (rows (lr w'))) = N)).
Proof.
  intros Time tp un tnow plm NF maxLine r t w Hdbg Hten.
  destruct (RequestHandler_effect Time tp un tnow plm NF maxLine r t w Hten)
    as (n & err & w1 & evs1 & took & Hrun & Heff & Hing & Hhandler).
  rewrite Hdbg in Heff.
  destruct Heff as (_ & Hrep & Hocc & Hdr & Hcons).
  cbn [requestStart lr rows List.length] in Hcons.
  destruct (requestEnd_observed n err (rows (lr w1)) took)
    as (Erep & Ewarn & Est & Edr & Eing & _).
  eexists; exists ([BulkRequestsInc; GetLogRows] ++ evs1
                   ++ requestEnd n err (rows (lr w1)) took), n.
  split; [exact Hhandler|]; split; [reflexivity|].
  split; [cbn [app reportedCount]; now rewrite reportedCount_app|].
  rewrite !storedRows_app, !droppedTotal_app, !ingestedTotal_app,
    Hdr, Hing, Est, Edr, Eing.
  split; [cbn; lia|]; split; [cbn; lia|].
  cbn [app warned lr]; rewrite (warned_app _ _ Hrep), Ewarn.
  destruct err; [right | left]; (split; [reflexivity|]);
    cbn [storedRows app]; rewrite ?app_nil_r, ?length_app; lia.
Qed.

(** ** Where the code departs from the specification *)

(** C1. The handler does not flush on error. On the request of two
    well-formed line-pairs followed by a line-pair whose document does not
    decode, with a batch that never asks for a flush, the handler reports
    the count 2 in its warning and has added 2 to the ingested-row counter,
    yet no row has reached storage: both rows are still in the batch, which
    is neither flushed nor returned to its pool.  With a batch that asks for
    a flush at two rows, of three decoded rows only the first two reach
    storage. *)
Theorem C1_rows_before_failure_are_not_flushed :
  let failing :=
    Sample.request false
      [Sample.create; "msg=a"; Sample.create; "msg=b";
       Sample.create; "no document"] in
  let out := Sample.handle Sample.neverFlush failing in
  let failing3 :=
    Sample.request false
      [Sample.create; "msg=a"; Sample.create; "msg=b"; Sample.create; "msg=c";
       Sample.create; "no document"] in
  let out3 := Sample.handle (Sample.flushAt 2) failing3 in
  (fst out = Some true /\
   reportedCount (trace (snd out)) = Some 2 /\
   warned (trace (snd out)) = true /\
   ingestedTotal (trace (snd out)) = 2 /\
   storedRows (trace (snd out)) = [] /\
   List.length (rows (lr (snd out))) = 2%nat /\
   occurrences PutLogRows (trace (snd out)) = 0%nat)
  /\
  (reportedCount (trace (snd out3)) = Some 3 /\
   List.length (storedRows (trace (snd out3))) = 2%nat /\
   List.length (rows (lr (snd out3))) = 1%nat).
Proof. vm_compute; repeat split. Qed.

(** C6. The checkpoint test reads [n >= 1000], not [batchSize >= 1000]:
    from the thousandth row on, every row is added to the counter on its
    own.  For every request the amounts added still sum up to the count
    [readBulkRequest] returns; but on a request of 1002 well-formed
    line-pairs the successive amounts added are 1000, 1, 1 and a final 0. *)
Theorem C6_checkpoint_after_thousand_rows :
  (forall (Time : Type) (time_Parse : string -> string -> option Time)
          (UnixNano : Time -> Z) (time_Now : nat -> Z)
          (ParseLogMessage : string -> string + list Field)
          (NeedFlush : LogRows -> bool) (maxLineSizeBytes : Z)
          (tenantID : TenantID) (isDebug : bool) (r : Reader) (isGzip : bool)
          (timeField msgField : string) (w : World),
      exists (n : Z) (err : option BulkError) (w' : World)
             (evs : list Event),
        readBulkRequest time_Parse UnixNano time_Now ParseLogMessage
          maxLineSizeBytes r isGzip timeField msgField
          (processLogMessage NeedFlush tenantID isDebug) w
        = (Some (n, err), w') /\
        trace w' = trace w ++ evs /\
        ingestedTotal evs = n)
  /\
  (let out := Sample.handle Sample.neverFlush
                (Sample.request false (Sample.goodPairs 1002)) in
   reportedCount (trace (snd out)) = Some 1002 /\
   ingestedAdds (trace (snd out)) = [1000; 1; 1; 0] /\
   ingestedTotal (trace (snd out)) = 1002).
Proof.
  split.
  - intros Time tp un tnow plm NF maxLine t dbg r isGzip tf mf w.
    destruct (readBulkRequest_effect tp un tnow plm NF maxLine t dbg r isGzip
                tf mf w) as (n & err & w' & evs & Hrun & Heff & Hing).
    exists n, err, w', evs; split; [exact Hrun|].
    split; [exact (proj1 Heff) | exact Hing].
  - vm_compute; repeat split.
Qed.

(** C8. Of the three pooled objects only the line buffer is returned on
    every path.  On a request whose only document does not decode, and on
    one whose timestamp does not parse, the line buffer is back in its pool
    while the parser and the batch are still checked out; on a request that
    ends cleanly all three are back. *)
Theorem C8_pooled_objects_on_error :
  let leaks (toks : list string) :=
    let tr := trace (snd (Sample.handle Sample.neverFlush
                            (Sample.request false toks))) in
    (outstanding GetLineBuffer PutLineBuffer tr,
     outstanding GetParser PutParser tr,
     outstanding GetLogRows PutLogRows tr) in
  leaks [Sample.create; "no document"] = (0, 1, 1) /\
  leaks [Sample.create; "_time=yesterday"] = (0, 1, 1) /\
  leaks [Sample.create] = (0, 0, 1) /\
  leaks [Sample.create; "msg=a"] = (0, 0, 0).
Proof. vm_compute; repeat split. Qed.

(** * More of the handler *)

(** ** The command test *)

Lemma prefix_iff (p s : string) :
  String.prefix p s = true <-> exists b : string, s = String.append p b.
Proof.
  revert s; induction p as [|a p IH]; intros s.
  - split; [intros _; now exists s | intros _; now destruct s].
  - destruct s as [|c s]; simpl.
    + split; [discriminate | intros [b Hb]; discriminate].
    + destruct (ascii_dec a c) as [->|Hne].
      * rewrite IH; split; intros [b Hb]; exists b.
        -- now rewrite Hb.
        -- now injection Hb.
      * split; [discriminate|].
        intros [b Hb]; injection Hb as Hac _; now symmetry in Hac.
Qed.

(** [strings.Contains] finds [substr] exactly when it occurs somewhere. *)
Lemma Contains_iff (s substr : string) :
  strings.Contains s substr = true <->
  exists a b : string, s = String.append a (String.append substr b).
Proof.
  induction s as [|c s IH]; cbn [strings.Contains].
  - rewrite orb_false_r, prefix_iff; split.
    + intros [b Hb]; now exists EmptyString, b.
    + intros (a & b & H); destruct a; [now exists b | discriminate].
  - rewrite orb_true_iff, prefix_iff, IH; split.
    + intros [[b Hb] | (a & b & H)].
      * now exists EmptyString, b.
      * exists (String c a), b; simpl; now rewrite H.
    + intros (a & b & H); destruct a as [|c' a]; simpl in H.
      * left; now exists b.
      * right; exists a, b; now injection H.
Qed.

(** The command test is a raw substring test: a line passes exactly when
    the quoted word [create] or the quoted word [index] occurs anywhere in
    it, whatever surrounds it. *)
Theorem isCommand_substring :
  forall line : string,
    isCommand line = true <->
    exists a b : string,
      line = String.append a (String.append (quoted "create") b) \/
      line = String.append a (String.append (quoted "index") b).
Proof.
  intros line; unfold isCommand.
  rewrite negb_true_iff, andb_false_iff, !negb_false_iff, !Contains_iff.
  split.
  - intros [(a & b & H) | (a & b & H)]; exists a, b; auto.
  - intros (a & b & [H | H]); [left | right]; now exists a, b.
Qed.

(** ** Fields under the extractor and the remapper *)

(** Neither the extractor nor the remapper adds, removes or reorders a
    field.  The extractor keeps every name and every value but the one it
    empties, which belonged to a field named [timeField]; the remapper keeps
    every value and every name but the one it rewrites to [_msg], which was
    [msgField]. *)
Theorem fields_kept_in_place :
  forall (Time : Type) (time_Parse : string -> string -> option Time)
         (UnixNano : Time -> Z) (time_Now : nat -> Z)
         (timeField msgField : string) (fields : list Field) (w : World),
    Forall2
      (fun f g : Field =>
         Name g = Name f /\
         (Value g = Value f \/ (Name f = timeField /\ Value g = "")))
      fields
      (snd (fst (extractTimestampFromFields time_Parse UnixNano time_Now
                   timeField fields w)))
    /\
    Forall2
      (fun f g : Field =>
         Value g = Value f /\
         (Name g = Name f \/ (Name f = msgField /\ Name g = "_msg")))
      fields (updateMessageFieldName msgField fields).
Proof.
  intros Time tp un tnow tf mf fields w; split.
  - assert (Hid : forall l : list Field,
      Forall2 (fun f g : Field =>
                 Name g = Name f /\
                 (Value g = Value f \/ (Name f = tf /\ Value g = ""))) l l)
      by (induction l; constructor; auto).
    revert w; induction fields as [|f rest IH]; intros w;
      cbn [extractTimestampFromFields].
    + rewrite bind_eq; constructor.
    + destruct (Name f =? tf)%string eqn:E; cbn [negb].
      * apply String.eqb_eq in E.
        destruct (parseElasticsearchTimestamp _ _ _); cbn [ret fst snd].
        -- apply Hid.
        -- constructor; [split; [reflexivity | right; now split] | apply Hid].
      * rewrite bind_eq; cbn [ret fst snd].
        constructor; [split; [reflexivity | now left] | apply IH].
  - assert (Hid : forall l : list Field,
      Forall2 (fun f g : Field =>
                 Value g = Value f /\
                 (Name g = Name f \/ (Name f = mf /\ Name g = "_msg"))) l l)
      by (induction l; constructor; auto).
    unfold updateMessageFieldName.
    destruct (mf =? "")%string; [apply Hid|].
    induction fields as [|f rest IH]; cbn [updateMessageFieldName_loop].
    + constructor.
    + destruct (Name f =? mf)%string eqn:E.
      * apply String.eqb_eq in E.
        constructor; [split; [reflexivity | right; now split] | apply Hid].
      * constructor; [split; [reflexivity | now left] | exact IH].
Qed.

(** ** The outcomes of [readBulkLine] *)

Lemma length_zero_empty (s : string) :
  (String.length s =? 0)%nat = true -> s = "".
Proof. destruct s; [reflexivity | discriminate]. Qed.

Lemma scanCommand_inv (toks : list string) (fail : option ScanError)
    (cmd : string) (sc1 : Scanner) :
  scanCommand toks fail = (Some cmd, sc1) ->
  exists k : nat, toks = repeat "" k ++ cmd :: tokens sc1.
Proof.
  induction toks as [|line rest IH]; cbn [scanCommand]; [discriminate|].
  destruct (String.length line =? 0)%nat eqn:E.
  - intros H; destruct (IH H) as [k Hk].
    exists (S k); cbn [repeat app].
    now rewrite (length_zero_empty _ E), <- Hk.
  - intros [= <- <-]; now exists 0%nat.
Qed.

Section Outcomes.

Context {Time : Type}.
Variable time_Parse : string -> string -> option Time.
Variable UnixNano : Time -> Z.
Variable time_Now : nat -> Z.
Variable ParseLogMessage : string -> string + list Field.
Variable maxLineSizeBytes : Z.
Variables timeField msgField : string.
Variable sink : Z -> list Field -> M unit.

Lemma readBulkLine_wellFormed (k : nat) (cmd doc : string)
    (rest : list string) (fail : option ScanError) (w : World) :
  wellFormed time_Parse UnixNano ParseLogMessage timeField (k, cmd, doc)
  = true ->
  fst (readBulkLine time_Parse UnixNano time_Now ParseLogMessage
         maxLineSizeBytes
         {| tokens := repeat "" k ++ cmd :: doc :: rest; failure := fail |}
         timeField msgField sink w)
  = (inr true, {| tokens := rest; failure := fail |}).
Proof.
  cbn [wellFormed]; intros H.
  apply andb_true_iff in H; destruct H as [Hcmd Hdoc].
  rewrite readBulkLine_pair by assumption; cbv zeta.
  destruct (ParseLogMessage doc) as [cause|fields]; [discriminate|].
  destruct (timestampParses_extract time_Parse UnixNano time_Now timeField
              fields (snd (emit GetParser w)) Hdoc) as [ts Hts].
  destruct (extractTimestampFromFields _ _ _ _ _ _) as [r w2].
  cbn [fst] in Hts; now rewrite Hts.
Qed.

End Outcomes.

(** [readBulkLine] reports a decoded line-pair exactly when the lines left
    begin, after any number of empty lines, with a command line and a
    document that decodes and whose timestamp parses; it has then consumed
    those lines and no more. *)
Theorem readBulkLine_ok_iff :
  forall (Time : Type) (time_Parse : string -> string -> option Time)
         (UnixNano : Time -> Z) (time_Now : nat -> Z)
         (ParseLogMessage : string -> string + list Field)
         (maxLineSizeBytes : Z) (sc : Scanner) (timeField msgField : string)
         (sink : Z -> list Field -> M unit) (w : World),
    let res := readBulkLine time_Parse UnixNano time_Now ParseLogMessage
                 maxLineSizeBytes sc timeField msgField sink w in
    (fst (fst res) = inr true <->
     exists (k : nat) (cmd doc : string) (rest : list string),
       tokens sc = repeat "" k ++ cmd :: doc :: rest /\
       wellFormed time_Parse UnixNano ParseLogMessage timeField (k, cmd, doc)
       = true)
    /\
    (forall (k : nat) (cmd doc : string) (rest : list string),
        tokens sc = repeat "" k ++ cmd :: doc :: rest ->
        wellFormed time_Parse UnixNano ParseLogMessage timeField (k, cmd, doc)
        = true ->
        snd (fst res) = {| tokens := rest; failure := failure sc |}).
Proof.
  intros Time tp un tnow plm maxLine [toks fail] tf mf sink w res; subst res.
  cbn [tokens failure]; split; [split|].
  - intros Hok.
    destruct (stopsRequest tp un plm tf toks) eqn:Hstop.
    { now apply (stopsRequest_readBulkLine tp un tnow plm maxLine tf mf toks
                   fail sink w) in Hstop. }
    unfold stopsRequest in Hstop.
    destruct (scanCommand toks None) as [[cmd|] sc1] eqn:Hscan;
      [|discriminate].
    apply orb_false_iff in Hstop; destruct Hstop as [_ Hdoc].
    destruct (scanCommand_inv _ _ _ _ Hscan) as [k Hk].
    destruct (tokens sc1) as [|doc rest]; [discriminate|].
    apply negb_false_iff in Hdoc.
    now exists k, cmd, doc, rest.
  - intros (k & cmd & doc & rest & -> & Hwf).
    now rewrite (readBulkLine_wellFormed tp un tnow plm maxLine tf mf sink).
  - intros k cmd doc rest -> Hwf.
    now rewrite (readBulkLine_wellFormed tp un tnow plm maxLine tf mf sink).
Qed.

Lemma readBulkLine_ok_iff_witness :
  let sc := {| tokens := [""; Sample.create; "_time=1700000000000"; "next"];
               failure := None |} in
  let res := readBulkLine Sample.time_Parse Sample.UnixNano Sample.time_Now
               Sample.ParseLogMessage Sample.maxLineSizeBytes sc "_time" ""
               (processLogMessage Sample.neverFlush Sample.tenant0 false)
               Sample.world0 in
  fst res = (inr true, {| tokens := ["next"]; failure := None |}).
Proof.
  intros sc res.
  destruct (readBulkLine_ok_iff Z Sample.time_Parse Sample.UnixNano
              Sample.time_Now Sample.ParseLogMessage Sample.maxLineSizeBytes
              sc "_time" ""
              (processLogMessage Sample.neverFlush Sample.tenant0 false)
              Sample.world0) as [Hiff Hrest].
  fold res in Hiff, Hrest.
  apply injective_projections.
  - change (fst (fst res) = inr true); apply Hiff.
    exists 1%nat, Sample.create, "_time=1700000000000", ["next"].
    split; reflexivity.
  - change (snd (fst res) = {| tokens := ["next"]; failure := None |}).
    apply (Hrest 1%nat Sample.create "_time=1700000000000" ["next"]);
      reflexivity.
Defined.

(** The errors of [readBulkLine] before a document is decoded, after any
    number of empty lines: a line too long for the buffer is reported with
    the configured limit, as a command when no command has been read and as
    a log message after one; any other read error is passed on; a first
    line that is not empty and holds neither quoted word is an unexpected
    command, reported before the next line is read.  None of them touches
    the world. *)
Theorem readBulkLine_errors :
  forall (Time : Type) (time_Parse : string -> string -> option Time)
         (UnixNano : Time -> Z) (time_Now : nat -> Z)
         (ParseLogMessage : string -> string + list Field)
         (maxLineSizeBytes : Z) (k : nat) (timeField msgField : string)
         (sink : Z -> list Field -> M unit) (w : World),
    let run toks fail :=
      readBulkLine time_Parse UnixNano time_Now ParseLogMessage
        maxLineSizeBytes {| tokens := toks; failure := fail |}
        timeField msgField sink w in
    let stopped fail := {| tokens := []; failure := fail |} in
    run (repeat "" k) (Some ErrTooLong)
    = ((inl (CommandTooLong maxLineSizeBytes), stopped (Some ErrTooLong)), w)
    /\
    (forall msg : string,
        run (repeat "" k) (Some (ErrRead msg))
        = ((inl (ScanFailed msg), stopped (Some (ErrRead msg))), w))
    /\
    (forall (cmd : string) (rest : list string) (fail : option ScanError),
        cmd <> "" ->
        isCommand cmd = false ->
        run (repeat "" k ++ cmd :: rest) fail
        = ((inl (UnexpectedCommand cmd),
            {| tokens := rest; failure := fail |}), w))
    /\
    (forall cmd : string,
        isCommand cmd = true ->
        run (repeat "" k ++ [cmd]) (Some ErrTooLong)
        = ((inl (MessageTooLong maxLineSizeBytes),
            stopped (Some ErrTooLong)), w)
        /\
        forall msg : string,
          run (repeat "" k ++ [cmd]) (Some (ErrRead msg))
          = ((inl (ScanFailed msg), stopped (Some (ErrRead msg))), w)).
Proof.
  intros Time tp un tnow plm maxLine k tf mf sink w run stopped.
  subst run stopped; unfold readBulkLine; cbn [tokens failure].
  split; [|split; [|split]].
  - rewrite <- (app_nil_r (repeat "" k)), scanCommand_blanks; reflexivity.
  - intros msg.
    rewrite <- (app_nil_r (repeat "" k)), scanCommand_blanks; reflexivity.
  - intros cmd rest fail Hne Hcmd.
    rewrite scanCommand_blanks; cbn [scanCommand].
    destruct cmd as [|c cmd]; [now contradiction Hne|].
    cbn [String.length Nat.eqb]; now rewrite Hcmd.
  - intros cmd Hcmd; split; [|intros msg];
      rewrite scanCommand_command by assumption; now rewrite Hcmd.
Qed.

Lemma readBulkLine_errors_witness :
  let run toks fail :=
    readBulkLine Sample.time_Parse Sample.UnixNano Sample.time_Now
      Sample.ParseLogMessage Sample.maxLineSizeBytes
      {| tokens := toks; failure := fail |} "_time" ""
      (processLogMessage Sample.neverFlush Sample.tenant0 false)
      Sample.world0 in
  run [""; "{}"; "msg=a"] None
  = ((inl (UnexpectedCommand "{}"),
      {| tokens := ["msg=a"]; failure := None |}), Sample.world0)
  /\
  run [""; Sample.create] (Some ErrTooLong)
  = ((inl (MessageTooLong Sample.maxLineSizeBytes),
      {| tokens := []; failure := Some ErrTooLong |}), Sample.world0).
Proof.
  intros run; split.
  - apply (proj1 (proj2 (proj2 (readBulkLine_errors Z Sample.time_Parse
             Sample.UnixNano Sample.time_Now Sample.ParseLogMessage
             Sample.maxLineSizeBytes 1 "_time" ""
             (processLogMessage Sample.neverFlush Sample.tenant0 false)
             Sample.world0))) "{}" ["msg=a"] None);
      [discriminate | reflexivity].
  - apply (proj2 (proj2 (proj2 (readBulkLine_errors Z Sample.time_Parse
             Sample.UnixNano Sample.time_Now Sample.ParseLogMessage
             Sample.maxLineSizeBytes 1 "_time" ""
             (processLogMessage Sample.neverFlush Sample.tenant0 false)
             Sample.world0))) Sample.create).
    reflexivity.
Defined.



(** ** The sink of the handler *)

(** Without the debug flag, [processLogMessage] neither loses nor reorders
    a row, whatever [NeedFlush] answers: the rows in storage followed by the
    rows in the batch grow by exactly the new row, at the end.  The batch is
    handed to storage, new row included, and emptied exactly when
    [NeedFlush] says so; otherwise it is kept and nothing is stored.  With
    the debug flag, [NeedFlush] is not consulted, nothing is stored, one row
    is counted as dropped and the batch is left empty; the row logged is the
    new one when the batch was empty before. *)
Theorem processLogMessage_keeps_rows :
  forall (NeedFlush : LogRows -> bool) (tenantID : TenantID) (timestamp : Z)
         (fields : list Field) (w : World),
    let row := mkRow tenantID timestamp fields in
    let batch := rows (lr w) ++ [row] in
    let plain := snd (processLogMessage NeedFlush tenantID false timestamp
                        fields w) in
    let debug := snd (processLogMessage NeedFlush tenantID true timestamp
                        fields w) in
    accepted plain = accepted w ++ [row] /\
    (if NeedFlush (MustAdd (lr w) tenantID timestamp fields)
     then trace plain = trace w ++ [StorageMustAddRows batch] /\
          rows (lr plain) = []
     else trace plain = trace w /\ rows (lr plain) = batch) /\
    trace debug = trace w ++ [LogInfof (nth_error batch 0); RowsDroppedInc] /\
    rows (lr debug) = [] /\
    (rows (lr w) = [] -> nth_error batch 0 = Some row).
Proof.
  intros NF t ts fs w row batch plain debug; subst plain debug.
  unfold processLogMessage, accepted.
  rewrite !bind_eq; cbn [getLR putLR fst snd lr trace].
  split; [|split; [|split; [|split]]].
  - rewrite ?bind_eq; cbn [getLR putLR fst snd lr trace].
    destruct (NF _).
    + rewrite ?bind_eq; cbn [getLR putLR emit fst snd lr trace rows MustAdd
                             ResetKeepSettings].
      rewrite storedRows_app; cbn [storedRows].
      now rewrite !app_nil_r, app_assoc.
    + cbn [ret snd lr trace rows MustAdd]; now rewrite app_assoc.
  - rewrite ?bind_eq; cbn [getLR putLR fst snd lr trace].
    fold (MustAdd (lr w) t ts fs).
    destruct (NF (MustAdd (lr w) t ts fs)).
    + rewrite ?bind_eq; cbn [getLR putLR emit fst snd lr trace]; now split.
    + now split.
  - rewrite ?bind_eq; cbn [getLR putLR emit fst snd lr trace].
    now rewrite <- app_assoc.
  - rewrite ?bind_eq; cbn [getLR putLR emit fst snd lr trace]; reflexivity.
  - subst batch; now intros ->.
Qed.

Lemma processLogMessage_keeps_rows_witness :
  let row := mkRow Sample.tenant0 5 [mkField "msg" "a"] in
  trace (snd (processLogMessage (Sample.flushAt 1) Sample.tenant0 true 5
                [mkField "msg" "a"] Sample.world0))
  = [LogInfof (Some row); RowsDroppedInc] /\
  trace (snd (processLogMessage (Sample.flushAt 1) Sample.tenant0 false 5
                [mkField "msg" "a"] Sample.world0))
  = [StorageMustAddRows [row]].
Proof.
  intros row.
  pose proof (processLogMessage_keeps_rows (Sample.flushAt 1) Sample.tenant0
                5 [mkField "msg" "a"] Sample.world0) as H.
  cbv zeta in H; destruct H as (_ & Hplain & Hdebug & _ & Hfirst).
  split.
  - rewrite Hdebug, (Hfirst eq_refl); reflexivity.
  - exact (proj1 Hplain).
Defined.

(** ** The rows of a request, in order *)

Lemma loggedRows_app (a b : list Event) :
  loggedRows (a ++ b) = loggedRows a ++ loggedRows b.
Proof.
  induction a as [|e a IH]; [reflexivity|].
  destruct e; cbn [loggedRows app]; rewrite ?IH; try reflexivity.
  destruct row; cbn [app]; reflexivity.
Qed.

Lemma delivered_emitted (dbg : bool) (e : Event) (w : World) :
  storedRows [e] = [] -> loggedRows [e] = [] ->
  delivered dbg (emitted e w) = delivered dbg w.
Proof.
  intros Hs Hl; unfold delivered, accepted, emitted; cbn [trace lr].
  rewrite storedRows_app, loggedRows_app, Hs, Hl, !app_nil_r.
  reflexivity.
Qed.

Section Delivered.

Context {Time : Type}.
Variable time_Parse : string -> string -> option Time.
Variable UnixNano : Time -> Z.
Variable time_Now : nat -> Z.
Variable ParseLogMessage : string -> string + list Field.
Variable NeedFlush : LogRows -> bool.
Variable maxLineSizeBytes : Z.
Variable tenantID : TenantID.
Variable dbg : bool.
Variables timeField msgField : string.

(** The extractor sees nothing of the world but the clock. *)
Lemma extract_frame (fields : list Field) (w : World) :
  let res := extractTimestampFromFields time_Parse UnixNano time_Now
               timeField fields (scratch (clock w)) in
  extractTimestampFromFields time_Parse UnixNano time_Now timeField fields w
  = (fst res,
     {| trace := trace w; clock := clock (snd res); lr := lr w |}).
Proof.
  induction fields as [|f rest IH]; cbn [extractTimestampFromFields].
  - rewrite !bind_eq; reflexivity.
  - destruct (negb (Name f =? timeField)%string).
    + rewrite !bind_eq; cbv zeta in IH; rewrite IH; reflexivity.
    + destruct (parseElasticsearchTimestamp _ _ _); destruct w; reflexivity.
Qed.

(** One call of the handler's sink delivers one row. *)
Lemma processLogMessage_delivered (timestamp : Z) (fields : list Field)
    (w : World) :
  (dbg = true -> rows (lr w) = []) ->
  let w' := snd (processLogMessage NeedFlush tenantID dbg timestamp fields w) in
  delivered dbg w' = delivered dbg w ++ [mkRow tenantID timestamp fields] /\
  (dbg = true -> rows (lr w') = []) /\
  clock w' = clock w.
Proof.
  intros Hempty; unfold processLogMessage, delivered, accepted.
  rewrite !bind_eq; cbn [getLR putLR fst snd lr trace].
  destruct dbg.
  - rewrite ?bind_eq; cbn [getLR putLR emit fst snd lr trace clock rows
                           MustAdd ResetKeepSettings].
    rewrite (Hempty eq_refl), !loggedRows_app; cbn; rewrite app_nil_r.
    repeat split.
  - rewrite ?bind_eq; cbn [getLR putLR fst snd lr trace].
    destruct (NeedFlush _).
    + rewrite ?bind_eq; cbn [getLR putLR emit fst snd lr trace clock rows
                             MustAdd ResetKeepSettings].
      rewrite storedRows_app; cbn [storedRows].
      rewrite !app_nil_r, app_assoc; repeat split; discriminate.
    + cbn [ret snd lr trace clock rows MustAdd].
      rewrite app_assoc; repeat split; discriminate.
Qed.

(** A document that is not decoded to the end leaves the parser checked
    out and nothing else. *)
Lemma decodeDocument_failed (doc : string) (sc2 : Scanner)
    (sink : Z -> list Field -> M unit) (w : World) :
  let res := decodeDocument time_Parse UnixNano time_Now ParseLogMessage doc
               sc2 timeField msgField sink w in
  fst (fst res) <> inr true ->
  trace (snd res) = trace w ++ [GetParser] /\ lr (snd res) = lr w.
Proof.
  unfold decodeDocument.
  destruct (ParseLogMessage doc) as [cause|fields]; cbn [fst snd].
  - now split.
  - pose proof (extract_world time_Parse UnixNano time_Now timeField fields
                  (emitted GetParser w)) as Hw.
    cbv zeta in Hw.
    destruct (extractTimestampFromFields _ _ _ _ _ _) as [[r fields'] w2].
    cbn [fst snd] in *.
    destruct r as [err|ts]; cbn [fst snd]; [intros _; exact Hw|].
    now intros H.
Qed.

(** The round that ends the loop delivers nothing. *)
Lemma stopsRequest_delivered (tail : list string) (fail : option ScanError)
    (sink : Z -> list Field -> M unit) (w : World) :
  stopsRequest time_Parse UnixNano ParseLogMessage timeField tail = true ->
  let res := readBulkLine time_Parse UnixNano time_Now ParseLogMessage
               maxLineSizeBytes {| tokens := tail; failure := fail |}
               timeField msgField sink w in
  delivered dbg (snd res) = delivered dbg w /\ lr (snd res) = lr w.
Proof.
  intros Hstop res.
  pose proof (stopsRequest_readBulkLine time_Parse UnixNano time_Now
                ParseLogMessage maxLineSizeBytes timeField msgField tail fail
                sink w Hstop) as Hno.
  fold res in Hno.
  destruct (readBulkLine_cases time_Parse UnixNano time_Now ParseLogMessage
              maxLineSizeBytes {| tokens := tail; failure := fail |}
              timeField msgField sink w)
    as [[Hw _] | (doc & sc2 & _ & Hres)]; fold res in Hw || fold res in Hres.
  - now rewrite Hw.
  - rewrite Hres in Hno |- *.
    destruct (decodeDocument_failed doc sc2 sink w Hno) as [Htr Hlr].
    split; [|exact Hlr].
    unfold delivered, accepted; rewrite Htr, Hlr.
    rewrite storedRows_app, loggedRows_app; cbn; now rewrite !app_nil_r.
Qed.

Lemma expectedRows_length (pairs : list (nat * string * string)) :
  forallb (wellFormed time_Parse UnixNano ParseLogMessage timeField) pairs
  = true ->
  forall clk : nat,
    List.length (expectedRows time_Parse UnixNano time_Now ParseLogMessage
                   tenantID timeField msgField pairs clk)
    = List.length pairs.
Proof.
  induction pairs as [|[[k cmd] doc] pairs IH]; intros Hwf clk;
    cbn [expectedRows forallb List.length]; [reflexivity|].
  cbn [forallb wellFormed] in Hwf.
  apply andb_true_iff in Hwf; destruct Hwf as [Hp Hps].
  apply andb_true_iff in Hp; destruct Hp as [_ Hdoc].
  destruct (ParseLogMessage doc) as [cause|fields]; [discriminate|].
  destruct (timestampParses_extract time_Parse UnixNano time_Now timeField
              fields (scratch clk) Hdoc) as [ts Hts].
  rewrite Hts; cbn [List.length]; now rewrite IH.
Qed.

(** On a body of well-formed line-pairs followed by lines that stop the
    request, the loop delivers the rows of those line-pairs, in order. *)
Lemma readBulkRequest_loop_delivered (tail : list string)
    (fail : option ScanError) :
  stopsRequest time_Parse UnixNano ParseLogMessage timeField tail = true ->
  forall pairs : list (nat * string * string),
    forallb (wellFormed time_Parse UnixNano ParseLogMessage timeField) pairs
    = true ->
    forall (fuel : nat) (n nCheckpoint : Z) (w : World),
      (List.length (flat_map pairLines pairs ++ tail) < fuel)%nat ->
      (dbg = true -> rows (lr w) = []) ->
      exists (err : option BulkError) (w' : World),
        readBulkRequest_loop time_Parse UnixNano time_Now ParseLogMessage
          maxLineSizeBytes fuel
          {| tokens := flat_map pairLines pairs ++ tail; failure := fail |}
          timeField msgField (processLogMessage NeedFlush tenantID dbg)
          n nCheckpoint w
        = (Some (n + Z.of_nat (List.length pairs), err), w') /\
        delivered dbg w'
        = delivered dbg w
          ++ expectedRows time_Parse UnixNano time_Now ParseLogMessage
               tenantID timeField msgField pairs (clock w) /\
        (dbg = true -> rows (lr w') = []).
Proof.
  intros Hstop pairs; induction pairs as [|[[k cmd] doc] pairs IH];
    intros Hwf fuel n ck w Hfuel Hempty;
    (destruct fuel as [|fuel]; [lia|]); rewrite readBulkRequest_loop_S;
    cbv zeta.
  - cbn [flat_map app List.length expectedRows].
    rewrite Z.add_0_r, app_nil_r.
    pose proof (stopsRequest_readBulkLine time_Parse UnixNano time_Now
                  ParseLogMessage maxLineSizeBytes timeField msgField tail
                  fail (processLogMessage NeedFlush tenantID dbg) w Hstop)
      as Hno.
    destruct (stopsRequest_delivered tail fail
                (processLogMessage NeedFlush tenantID dbg) w Hstop)
      as [Hdel Hlr].
    destruct (readBulkLine _ _ _ _ _ _ _ _ _ _) as [[r sc'] w1].
    cbn [fst snd] in *.
    assert (Hend : forall k0 : Z,
      delivered dbg (emitted (RowsIngestedAdd k0) (emitted DecConcurrency w1))
      = delivered dbg w)
      by (intros k0; now rewrite !delivered_emitted).
    destruct r as [err|[|]].
    + eexists _, _; split; [reflexivity|]; split; [apply Hend|].
      cbn [emitted lr]; now rewrite Hlr.
    + now contradiction Hno.
    + eexists _, _; split; [reflexivity|]; split; [apply Hend|].
      cbn [emitted lr]; now rewrite Hlr.
  - cbn [forallb wellFormed] in Hwf.
    apply andb_true_iff in Hwf; destruct Hwf as [Hp Hps].
    apply andb_true_iff in Hp; destruct Hp as [Hcmd Hdoc].
    cbn [flat_map pairLines expectedRows] in *.
    rewrite <- !app_assoc in *; cbn [app] in *.
    rewrite readBulkLine_pair by assumption; cbv zeta.
    destruct (ParseLogMessage doc) as [cause|fields]; [discriminate|].
    change (snd (emit GetParser w)) with (emitted GetParser w).
    rewrite (extract_frame fields (emitted GetParser w)); cbv zeta.
    change (clock (emitted GetParser w)) with (clock w).
    destruct (timestampParses_extract time_Parse UnixNano time_Now timeField
                fields (scratch (clock w)) Hdoc) as [ts Hts].
    destruct (extractTimestampFromFields _ _ _ _ _ (scratch (clock w)))
      as [[r fields'] ws].
    cbn [fst snd] in Hts |- *; subst r; cbn [fst snd].
    set (w2 := {| trace := trace (emitted GetParser w); clock := clock ws;
                  lr := lr (emitted GetParser w) |}).
    destruct (processLogMessage_delivered ts
                (updateMessageFieldName msgField fields') w2 Hempty)
      as (Hdel & Hemp & Hclk).
    cbv zeta in Hdel, Hemp, Hclk.
    set (w3 := snd (processLogMessage NeedFlush tenantID dbg ts
                      (updateMessageFieldName msgField fields') w2)) in *.
    assert (Hdel2 : delivered dbg w2 = delivered dbg w).
    { unfold w2, delivered, accepted; cbn [trace lr emitted].
      rewrite storedRows_app, loggedRows_app; cbn; now rewrite !app_nil_r. }
    rewrite length_app, repeat_length in Hfuel; cbn [List.length] in Hfuel.
    replace (n + Z.of_nat (List.length ((k, cmd, doc) :: pairs)))
      with (n + 1 + Z.of_nat (List.length pairs))
      by (cbn [List.length]; lia).
    destruct (1000 <=? n + 1).
    + destruct (IH Hps fuel (n + 1) (n + 1)
                  (emitted (RowsIngestedAdd (n + 1 - ck))
                     (emitted DecConcurrency (emitted PutParser w3))))
        as (err & w' & Hrun & Hd & He); [lia | exact Hemp|].
      exists err, w'; split; [exact Hrun|]; split; [|exact He].
      rewrite Hd, !delivered_emitted, Hdel, Hdel2 by reflexivity.
      cbn [emitted clock]; rewrite Hclk; unfold w2; cbn [clock].
      now rewrite <- app_assoc.
    + destruct (IH Hps fuel (n + 1) ck
                  (emitted DecConcurrency (emitted PutParser w3)))
        as (err & w' & Hrun & Hd & He); [lia | exact Hemp|].
      exists err, w'; split; [exact Hrun|]; split; [|exact He].
      rewrite Hd, !delivered_emitted, Hdel, Hdel2 by reflexivity.
      cbn [emitted clock]; rewrite Hclk; unfold w2; cbn [clock].
      now rewrite <- app_assoc.
Qed.

End Delivered.

Section DeliveredRequest.

Context {Time : Type}.
Variable time_Parse : string -> string -> option Time.
Variable UnixNano : Time -> Z.
Variable time_Now : nat -> Z.
Variable ParseLogMessage : string -> string + list Field.
Variable NeedFlush : LogRows -> bool.
Variable maxLineSizeBytes : Z.

Lemma readBulkRequest_delivered (tenantID : TenantID) (dbg : bool)
    (timeField msgField : string) (r : Reader) (isGzip : bool)
    (pairs : list (nat * string * string)) (tail : list string) (w : World) :
  bodyOpens r isGzip = true ->
  tokens (lines r) = flat_map pairLines pairs ++ tail ->
  forallb (wellFormed time_Parse UnixNano ParseLogMessage timeField) pairs
  = true ->
  stopsRequest time_Parse UnixNano ParseLogMessage timeField tail = true ->
  (dbg = true -> rows (lr w) = []) ->
  exists (err : option BulkError) (w' : World),
    readBulkRequest time_Parse UnixNano time_Now ParseLogMessage
      maxLineSizeBytes r isGzip timeField msgField
      (processLogMessage NeedFlush tenantID dbg) w
    = (Some (Z.of_nat (List.length pairs), err), w') /\
    delivered dbg w'
    = delivered dbg w
      ++ expectedRows time_Parse UnixNano time_Now ParseLogMessage tenantID
           timeField msgField pairs (clock w).
Proof.
  intros Hopen Htok Hwf Hstop Hempty.
  destruct r as [gz [toks fail]]; cbn [lines tokens] in Htok; subst toks.
  assert (Hloop : forall w0 : World,
    clock w0 = clock w -> delivered dbg w0 = delivered dbg w ->
    lr w0 = lr w ->
    exists err w',
      readBulkRequest_loop time_Parse UnixNano time_Now ParseLogMessage
        maxLineSizeBytes
        (S (List.length (flat_map pairLines pairs ++ tail)))
        {| tokens := flat_map pairLines pairs ++ tail; failure := fail |}
        timeField msgField (processLogMessage NeedFlush tenantID dbg) 0 0 w0
      = (Some (Z.of_nat (List.length pairs), err), w') /\
      delivered dbg w'
      = delivered dbg w
        ++ expectedRows time_Parse UnixNano time_Now ParseLogMessage tenantID
             timeField msgField pairs (clock w)).
  { intros w0 Hclk Hdel Hlr.
    destruct (readBulkRequest_loop_delivered time_Parse UnixNano time_Now
                ParseLogMessage NeedFlush maxLineSizeBytes tenantID dbg
                timeField msgField tail fail Hstop pairs Hwf
                (S (List.length (flat_map pairLines pairs ++ tail))) 0 0 w0)
      as (err & w' & Hrun & Hd & _); [lia | now rewrite Hlr|].
    exists err, w'; split; [exact Hrun|].
    now rewrite Hd, Hdel, Hclk. }
  unfold readBulkRequest, bodyOpens in *; cbn [lines tokens gzipOpen] in *.
  destruct isGzip; [destruct gz as [cause|]; [discriminate|]|].
  - rewrite !bind_eq, !emit_eq; cbn [fst snd].
    destruct (Hloop (emitted GetLineBuffer
                       (emitted GetReader (emitted GetGzipReader w))))
      as (err & w' & Hrun & Hd);
      [reflexivity | now rewrite !delivered_emitted | reflexivity|].
    rewrite Hrun; eexists _, _; split; [reflexivity|].
    unfold ret; cbn [fst snd].
    rewrite !delivered_emitted by reflexivity; exact Hd.
  - rewrite !bind_eq, !emit_eq; cbn [fst snd].
    destruct (Hloop (emitted GetLineBuffer (emitted GetReader w)))
      as (err & w' & Hrun & Hd);
      [reflexivity | now rewrite !delivered_emitted | reflexivity|].
    rewrite Hrun; eexists _, _; split; [reflexivity|].
    unfold ret; cbn [fst snd].
    rewrite !delivered_emitted by reflexivity; exact Hd.
Qed.

End DeliveredRequest.

(** Rows are neither lost, duplicated nor reordered on their way through a
    request.  For a body that begins with well-formed line-pairs and goes on
    with lines that stop the request, the rows of those line-pairs are, in
    body order and whatever [NeedFlush] answers: with the debug flag, the
    rows logged; without it, the rows in storage, followed, when the request
    ends with the warning of an error, by the rows left in the batch. *)
Theorem rows_delivered_in_order :
  forall (Time : Type) (time_Parse : string -> string -> option Time)
         (UnixNano : Time -> Z) (time_Now : nat -> Z)
         (ParseLogMessage : string -> string + list Field)
         (NeedFlush : LogRows -> bool) (maxLineSizeBytes : Z)
         (r : Request) (tenantID : TenantID)
         (pairs : list (nat * string * string)) (tail : list string)
         (w : World),
    reqTenant r = inr tenantID ->
    bodyOpens (reqBody r) (reqGzip r) = true ->
    tokens (lines (reqBody r)) = flat_map pairLines pairs ++ tail ->
    forallb (wellFormed time_Parse UnixNano ParseLogMessage (timeFieldOf r))
      pairs = true ->
    stopsRequest time_Parse UnixNano ParseLogMessage (timeFieldOf r) tail
    = true ->
    let expected :=
      expectedRows time_Parse UnixNano time_Now ParseLogMessage tenantID
        (timeFieldOf r) (msgFieldOf r) pairs (S (clock w)) in
    exists (w' : World) (evs : list Event),
      RequestHandler time_Parse UnixNano time_Now ParseLogMessage NeedFlush
        maxLineSizeBytes r w = (Some true, w') /\
      trace w' = trace w ++ evs /\
      List.length expected = List.length pairs /\
      if reqDebug r
      then loggedRows evs = expected /\ storedRows evs = []
      else storedRows evs ++ (if warned evs then rows (lr w') else [])
           = expected.
Proof.
  intros Time tp un tnow plm NF maxLine r t pairs tail w Hten Hopen Htok Hwf
    Hstop expected.
  destruct (RequestHandler_effect Time tp un tnow plm NF maxLine r t w Hten)
    as (n & err & w1 & evs1 & took & Hrun & Heff & _ & Hhandler).
  destruct (readBulkRequest_delivered tp un tnow plm NF maxLine t (reqDebug r)
              (timeFieldOf r) (msgFieldOf r) (reqBody r) (reqGzip r) pairs
              tail (requestStart r w) Hopen Htok Hwf Hstop (fun _ => eq_refl))
    as (err' & w1' & Hrun' & Hdel).
  rewrite Hrun in Hrun'; injection Hrun' as _ _ <-.
  change (clock (requestStart r w)) with (S (clock w)) in Hdel.
  fold expected in Hdel.
  destruct Heff as (Htr & Hrep & _ & Hdbg).
  destruct (requestEnd_observed n err (rows (lr w1)) took)
    as (_ & Ewarn & Est & _).
  eexists; exists ([BulkRequestsInc; GetLogRows] ++ evs1
                   ++ requestEnd n err (rows (lr w1)) took).
  split; [exact Hhandler|]; split; [reflexivity|].
  split; [apply (expectedRows_length tp un tnow plm t); exact Hwf|].
  unfold delivered, accepted in Hdel; rewrite Htr in Hdel.
  cbn [requestStart trace lr rows] in Hdel.
  assert (Elog : loggedRows (requestEnd n err (rows (lr w1)) took) = [])
    by (destruct err; reflexivity).
  destruct (reqDebug r).
  - destruct Hdbg as (Hst & _ & Hrows).
    rewrite !loggedRows_app in Hdel; apply app_inv_head in Hdel.
    cbn [loggedRows app] in Hdel.
    rewrite !loggedRows_app, !storedRows_app, Hst, Est, Elog, Hdel.
    rewrite (Hrows eq_refl), app_nil_r.
    split; [reflexivity | now destruct err].
  - rewrite !storedRows_app, <- !app_assoc in Hdel.
    apply app_inv_head in Hdel; cbn [storedRows app] in Hdel.
    rewrite !storedRows_app, Est; cbn [app warned storedRows lr].
    rewrite (warned_app _ _ Hrep), Ewarn.
    destruct err; rewrite <- ?app_assoc, ?app_nil_r; exact Hdel.
Qed.

Lemma rows_delivered_in_order_witness :
  let toks := [Sample.create; "msg=a"; ""; Sample.create; "_time=5";
               Sample.create; "msg=c"; Sample.create; "no document"] in
  let rows3 :=
    [mkRow Sample.tenant0 (Sample.time_Now 1) [mkField "msg" "a"];
     mkRow Sample.tenant0 5000000 [mkField "_time" ""];
     mkRow Sample.tenant0 (Sample.time_Now 2) [mkField "msg" "c"]] in
  (exists (w' : World) (evs : list Event),
      Sample.handle (Sample.flushAt 2) (Sample.request false toks)
      = (Some true, w') /\
      trace w' = evs /\
      storedRows evs ++ (if warned evs then rows (lr w') else []) = rows3)
  /\
  (exists (w' : World) (evs : list Event),
      Sample.handle (Sample.flushAt 2) (Sample.request true toks)
      = (Some true, w') /\
      trace w' = evs /\
      loggedRows evs = rows3 /\ storedRows evs = []).
Proof.
  intros toks rows3; split.
  - destruct (rows_delivered_in_order Z Sample.time_Parse Sample.UnixNano
                Sample.time_Now Sample.ParseLogMessage (Sample.flushAt 2)
                Sample.maxLineSizeBytes (Sample.request false toks)
                Sample.tenant0
                [(0%nat, Sample.create, "msg=a");
                 (1%nat, Sample.create, "_time=5");
                 (0%nat, Sample.create, "msg=c")]
                [Sample.create; "no document"] Sample.world0
                eq_refl eq_refl eq_refl eq_refl eq_refl)
      as (w' & evs & Hrun & Htr & _ & Hrows).
    exists w', evs; split; [exact Hrun|]; split; [exact Htr|exact Hrows].
  - destruct (rows_delivered_in_order Z Sample.time_Parse Sample.UnixNano
                Sample.time_Now Sample.ParseLogMessage (Sample.flushAt 2)
                Sample.maxLineSizeBytes (Sample.request true toks)
                Sample.tenant0
                [(0%nat, Sample.create, "msg=a");
                 (1%nat, Sample.create, "_time=5");
                 (0%nat, Sample.create, "msg=c")]
                [Sample.create; "no document"] Sample.world0
                eq_refl eq_refl eq_refl eq_refl eq_refl)
      as (w' & evs & Hrun & Htr & _ & Hrows).
    exists w', evs; split; [exact Hrun|]; split; [exact Htr|exact Hrows].
Defined.

(** ** Pool traffic and checkpoints *)

Lemma poolTrace_app (a b : list Event) :
  poolTrace (a ++ b) = poolTrace a ++ poolTrace b.
Proof. apply filter_app. Qed.

Lemma ingestedAdds_app (a b : list Event) :
  ingestedAdds (a ++ b) = ingestedAdds a ++ ingestedAdds b.
Proof.
  induction a as [|e a IH]; [reflexivity|].
  destruct e; cbn [ingestedAdds app]; now rewrite IH.
Qed.

Lemma sinkEvents_quiet (evs : list Event) :
  forallb isSinkEvent evs = true ->
  poolTrace evs = [] /\ ingestedAdds evs = [].
Proof.
  induction evs as [|e evs IH]; [now split|].
  cbn [forallb]; intros H; apply andb_true_iff in H; destruct H as [He Hevs].
  destruct (IH Hevs) as [IH1 IH2].
  destruct e; try discriminate; cbn; now rewrite ?IH1, ?IH2.
Qed.

Lemma handlerTrace_app (a b : list Event) :
  handlerTrace (a ++ b) = handlerTrace a ++ handlerTrace b.
Proof. apply filter_app. Qed.

Lemma sinkEvents_handler (evs : list Event) :
  forallb isSinkEvent evs = true -> handlerTrace evs = [].
Proof.
  induction evs as [|e evs IH]; [reflexivity|].
  cbn [forallb]; intros H; apply andb_true_iff in H; destruct H as [He Hevs].
  destruct e; try discriminate; cbn; now apply IH.
Qed.

Lemma processLogMessage_events (NeedFlush : LogRows -> bool)
    (tenantID : TenantID) (dbg : bool) (timestamp : Z) (fields : list Field)
    (w : World) :
  exists evs : list Event,
    trace (snd (processLogMessage NeedFlush tenantID dbg timestamp fields w))
    = trace w ++ evs /\
    forallb isSinkEvent evs = true.
Proof.
  unfold processLogMessage; rewrite !bind_eq; cbn [getLR putLR fst snd lr].
  destruct dbg.
  - rewrite ?bind_eq; cbn [getLR putLR emit fst snd lr trace].
    eexists [LogInfof _; RowsDroppedInc]; now rewrite <- app_assoc.
  - rewrite ?bind_eq; cbn [getLR putLR fst snd lr trace].
    destruct (NeedFlush _).
    + rewrite ?bind_eq; cbn [getLR putLR emit fst snd lr trace].
      now eexists [StorageMustAddRows _].
    + exists []; now rewrite app_nil_r.
Qed.

Section Traffic.

Context {Time : Type}.
Variable time_Parse : string -> string -> option Time.
Variable UnixNano : Time -> Z.
Variable time_Now : nat -> Z.
Variable ParseLogMessage : string -> string + list Field.
Variable NeedFlush : LogRows -> bool.
Variable maxLineSizeBytes : Z.
Variable tenantID : TenantID.
Variable dbg : bool.
Variables timeField msgField : string.

Let sink := processLogMessage NeedFlush tenantID dbg.

(** Once the command and the document are read, [readBulkLine] is
    [decodeDocument]. *)
Lemma readBulkLine_decode (k : nat) (cmd doc : string) (rest : list string)
    (fail : option ScanError) (snk : Z -> list Field -> M unit) (w : World) :
  isCommand cmd = true ->
  readBulkLine time_Parse UnixNano time_Now ParseLogMessage maxLineSizeBytes
    {| tokens := repeat "" k ++ cmd :: doc :: rest; failure := fail |}
    timeField msgField snk w
  = decodeDocument time_Parse UnixNano time_Now ParseLogMessage doc
      {| tokens := rest; failure := fail |} timeField msgField snk w.
Proof.
  intros Hcmd; unfold readBulkLine, decodeDocument; cbn [tokens failure].
  rewrite scanCommand_command by assumption.
  rewrite Hcmd; cbn [negb Scan tokens failure].
  rewrite bind_eq, emit_eq; cbn [fst snd].
  destruct (ParseLogMessage doc) as [cause|fields]; [reflexivity|].
  rewrite bind_eq.
  destruct (fst (fst (extractTimestampFromFields _ _ _ _ _ _)));
    [reflexivity|].
  rewrite !bind_eq, emit_eq; reflexivity.
Qed.

(** The trace of [decodeDocument] with the handler's sink. *)
Lemma decodeDocument_trace (doc : string) (sc2 : Scanner) (w : World) :
  let res := decodeDocument time_Parse UnixNano time_Now ParseLogMessage doc
               sc2 timeField msgField sink w in
  match fst (fst res) with
  | inr true =>
      exists evs : list Event,
        trace (snd res) = trace w ++ [GetParser] ++ evs ++ [PutParser] /\
        forallb isSinkEvent evs = true
  | inr false => False
  | inl e =>
      trace (snd res) = trace w ++ [GetParser] /\
      lastRound (Some e) = [GetParser; DecConcurrency]
  end.
Proof.
  unfold decodeDocument.
  destruct (ParseLogMessage doc) as [cause|fields]; cbn [fst snd].
  - now split.
  - pose proof (extract_world time_Parse UnixNano time_Now timeField fields
                  (emitted GetParser w)) as Hw.
    cbv zeta in Hw; destruct Hw as [Htr _].
    destruct (extractTimestampFromFields _ _ _ _ _ _) as [[r fields'] w2].
    cbn [fst snd] in *.
    destruct r as [err|ts]; cbn [fst snd]; [now split|].
    destruct (processLogMessage_events NeedFlush tenantID dbg ts
                (updateMessageFieldName msgField fields') w2)
      as (evs & Hevs & Hsink).
    exists evs; split; [|exact Hsink].
    subst sink; cbn [emitted trace]; rewrite Hevs, Htr; cbn [emitted trace].
    now rewrite <- !app_assoc.
Qed.

(** A round that stops before a document is read reports no decode
    error. *)
Lemma readBulkLine_cases_pool (sc : Scanner) (w : World) :
  let res := readBulkLine time_Parse UnixNano time_Now ParseLogMessage
               maxLineSizeBytes sc timeField msgField sink w in
  (snd res = w /\
   match fst (fst res) with
   | inr true => False
   | inr false => True
   | inl e => lastRound (Some e) = [DecConcurrency]
   end)
  \/
  (exists (doc : string) (sc2 : Scanner),
      (List.length (tokens sc2) < List.length (tokens sc))%nat /\
      res = decodeDocument time_Parse UnixNano time_Now ParseLogMessage
              doc sc2 timeField msgField sink w).
Proof.
  destruct sc as [toks fail]; cbn [tokens].
  destruct (scanCommand toks fail) as [[cmd|] sc1] eqn:Hscan.
  - destruct (scanCommand_inv _ _ _ _ Hscan) as [k Hk].
    pose proof (scanCommand_spec toks fail) as Hspec.
    rewrite Hscan in Hspec; cbn [fst snd] in Hspec.
    destruct Hspec as [Hfail Hlen].
    destruct sc1 as [toks1 fail1]; cbn [tokens failure] in *; subst fail1.
    destruct (isCommand cmd) eqn:Hcmd.
    + destruct toks1 as [|doc rest]; subst toks.
      * left; unfold readBulkLine; cbn [tokens failure].
        rewrite scanCommand_command by assumption.
        rewrite Hcmd; cbn [negb Scan tokens failure Err].
        destruct fail as [[|msg]|]; now split.
      * right; exists doc, {| tokens := rest; failure := fail |}.
        split; [cbn [tokens List.length] in *; lia|].
        now apply readBulkLine_decode.
    + left; unfold readBulkLine; cbn [tokens failure].
      rewrite Hscan, Hcmd; now split.
  - left; unfold readBulkLine; cbn [tokens failure]; rewrite Hscan.
    destruct (Err sc1) as [[|msg]|]; now split.
Qed.

(** The pool traffic of the loop: each round that decodes a line-pair
    takes the parser, gives it back and releases a concurrency unit; the
    round that ends the loop releases one too, after taking the parser when
    it fails on a document it has read. *)
Lemma readBulkRequest_loop_pool (fuel : nat) :
  forall (sc : Scanner) (n nCheckpoint : Z) (w : World),
    (List.length (tokens sc) < fuel)%nat ->
    exists (rounds : nat) (err : option BulkError) (w' : World)
           (evs : list Event),
      readBulkRequest_loop time_Parse UnixNano time_Now ParseLogMessage
        maxLineSizeBytes fuel sc timeField msgField sink n nCheckpoint w
      = (Some (n + Z.of_nat rounds, err), w') /\
      trace w' = trace w ++ evs /\
      poolTrace evs
      = List.concat (repeat [GetParser; PutParser; DecConcurrency] rounds)
        ++ lastRound err /\
      handlerTrace evs = [].
Proof.
  induction fuel as [|fuel IH]; intros sc n ck w Hfuel; [lia|].
  rewrite readBulkRequest_loop_S; cbv zeta.
  destruct (readBulkLine_cases_pool sc w)
    as [[Hw Hr] | (doc & sc2 & Hlen & Hres)].
  - rewrite Hw.
    destruct (fst (fst (readBulkLine _ _ _ _ _ _ _ _ _ _))) as [err|[|]].
    + exists 0%nat, (Some err); do 2 eexists; rewrite Z.add_0_r.
      split; [reflexivity|]; cbn [emitted trace].
      split; [now rewrite <- app_assoc|].
      split; [|reflexivity].
      cbn [repeat List.concat app]; now rewrite Hr.
    + contradiction.
    + exists 0%nat, None; do 2 eexists; rewrite Z.add_0_r.
      split; [reflexivity|]; cbn [emitted trace].
      split; [now rewrite <- app_assoc | split; reflexivity].
  - rewrite Hres.
    pose proof (decodeDocument_trace doc sc2 w) as Hdec; cbv zeta in Hdec.
    assert (Hsc : snd (fst (decodeDocument time_Parse UnixNano time_Now
                              ParseLogMessage doc sc2 timeField msgField
                              sink w)) = sc2).
    { unfold decodeDocument.
      destruct (ParseLogMessage doc); [reflexivity|].
      cbv zeta; destruct (fst (fst (extractTimestampFromFields _ _ _ _ _ _)));
        reflexivity. }
    destruct (decodeDocument _ _ _ _ _ _ _ _ _ _) as [[r sc'] w1].
    cbn [fst snd] in *; subst sc'.
    destruct r as [err|[|]].
    + destruct Hdec as [Htr Hlast].
      exists 0%nat, (Some err); do 2 eexists; rewrite Z.add_0_r.
      split; [reflexivity|]; cbn [emitted trace].
      split; [rewrite Htr, <- !app_assoc; reflexivity|].
      split; [|reflexivity].
      cbn [repeat List.concat app]; now rewrite Hlast.
    + destruct Hdec as (evs1 & Htr & Hsink).
      destruct (sinkEvents_quiet evs1 Hsink) as [Hpool _].
      pose proof (sinkEvents_handler evs1 Hsink) as Hhand.
      destruct (1000 <=? n + 1).
      * destruct (IH sc2 (n + 1) (n + 1)
                    (emitted (RowsIngestedAdd (n + 1 - ck))
                       (emitted DecConcurrency w1)))
          as (rounds & err & w' & evs2 & Hrun & Htr2 & Hpool2 & Hhand2);
          [lia|].
        exists (S rounds), err, w'; eexists; split;
          [replace (n + Z.of_nat (S rounds)) with (n + 1 + Z.of_nat rounds)
             by lia; exact Hrun|].
        split; [rewrite Htr2; cbn [emitted trace]; rewrite Htr,
                  <- !app_assoc; reflexivity|].
        split; [rewrite !poolTrace_app, Hpool, Hpool2; reflexivity|].
        rewrite !handlerTrace_app, Hhand, Hhand2; reflexivity.
      * destruct (IH sc2 (n + 1) ck (emitted DecConcurrency w1))
          as (rounds & err & w' & evs2 & Hrun & Htr2 & Hpool2 & Hhand2);
          [lia|].
        exists (S rounds), err, w'; eexists; split;
          [replace (n + Z.of_nat (S rounds)) with (n + 1 + Z.of_nat rounds)
             by lia; exact Hrun|].
        split; [rewrite Htr2; cbn [emitted trace]; rewrite Htr,
                  <- !app_assoc; reflexivity|].
        split; [rewrite !poolTrace_app, Hpool, Hpool2; reflexivity|].
        rewrite !handlerTrace_app, Hhand, Hhand2; reflexivity.
    + contradiction.
Qed.

End Traffic.

Lemma occurrences_poolTrace (e : Event) (evs : list Event) :
  isPoolEvent e = true ->
  occurrences e (poolTrace evs) = occurrences e evs.
Proof.
  intros He; unfold occurrences, poolTrace.
  induction evs as [|a evs IH]; [reflexivity|].
  cbn [filter].
  destruct (isPoolEvent a) eqn:Ha; cbn [filter].
  - destruct (Event_eqb_tag e a); cbn [List.length]; now rewrite IH.
  - assert (Hne : Event_eqb_tag e a = false)
      by (destruct e; try discriminate; destruct a; try discriminate;
          reflexivity).
    now rewrite Hne.
Qed.

Lemma occurrences_rounds (e : Event) (round : list Event) (n : nat) :
  occurrences e (List.concat (repeat round n))
  = (n * occurrences e round)%nat.
Proof.
  induction n as [|n IH]; [reflexivity|].
  cbn [repeat List.concat]; rewrite occurrences_app, IH; lia.
Qed.

(** The pools around and inside the loop of [readBulkRequest]: what is
    taken and given back, in order. *)
Lemma readBulkRequest_pool :
  forall (Time : Type) (time_Parse : string -> string -> option Time)
         (UnixNano : Time -> Z) (time_Now : nat -> Z)
         (ParseLogMessage : string -> string + list Field)
         (NeedFlush : LogRows -> bool) (maxLineSizeBytes : Z)
         (tenantID : TenantID) (isDebug : bool) (r : Reader) (isGzip : bool)
         (timeField msgField : string) (w : World),
    exists (rounds : nat) (err : option BulkError) (w' : World)
           (evs : list Event),
      readBulkRequest time_Parse UnixNano time_Now ParseLogMessage
        maxLineSizeBytes r isGzip timeField msgField
        (processLogMessage NeedFlush tenantID isDebug) w
      = (Some (Z.of_nat rounds, err), w') /\
      trace w' = trace w ++ evs /\
      poolTrace evs
      = (if bodyOpens r isGzip then poolTraffic isGzip rounds err else []) /\
      (bodyOpens r isGzip = false ->
       rounds = 0%nat /\ exists cause, err = Some (CannotReadGzip cause)) /\
      handlerTrace evs = [].
Proof.
  intros Time tp un tnow plm NF maxLine t dbg r isGzip tf mf w.
  assert (Hbody : forall w0 : World, exists rounds err w' evs,
    readBulkRequest_loop tp un tnow plm maxLine
      (S (List.length (tokens (lines r)))) (lines r) tf mf
      (processLogMessage NF t dbg) 0 0 w0
    = (Some (Z.of_nat rounds, err), w') /\
    trace w' = trace w0 ++ evs /\
    poolTrace evs
    = List.concat (repeat [GetParser; PutParser; DecConcurrency] rounds)
      ++ lastRound err /\
    handlerTrace evs = []).
  { intros w0.
    destruct (readBulkRequest_loop_pool tp un tnow plm NF maxLine t dbg tf
                mf (S (List.length (tokens (lines r)))) (lines r) 0 0 w0)
      as (rounds & err & w' & evs & Hrun & Htr & Hpool & Hhand); [lia|].
    now exists rounds, err, w', evs. }
  unfold readBulkRequest, bodyOpens, poolTraffic.
  destruct isGzip; [destruct (gzipOpen r) as [cause|]|]; cbn [negb orb].
  - exists 0%nat, (Some (CannotReadGzip cause)), w, [].
    rewrite app_nil_r; repeat split; eauto.
  - rewrite !bind_eq, !emit_eq; cbn [fst snd].
    destruct (Hbody (emitted GetLineBuffer
                       (emitted GetReader (emitted GetGzipReader w))))
      as (rounds & err & w' & evs & Hrun & Htr & Hpool & Hhand).
    rewrite Hrun; unfold ret; cbn [fst snd].
    exists rounds, err; do 2 eexists; split; [reflexivity|].
    split; [cbn [emitted trace]; rewrite Htr; cbn [emitted trace];
            rewrite <- !app_assoc; reflexivity|].
    split; [|split; [discriminate|]].
    + rewrite !poolTrace_app, Hpool.
      cbn; now rewrite <- ?app_assoc.
    + rewrite !handlerTrace_app, Hhand; reflexivity.
  - rewrite !bind_eq, !emit_eq; cbn [fst snd].
    destruct (Hbody (emitted GetLineBuffer (emitted GetReader w)))
      as (rounds & err & w' & evs & Hrun & Htr & Hpool & Hhand).
    rewrite Hrun; unfold ret; cbn [fst snd].
    exists rounds, err; do 2 eexists; split; [reflexivity|].
    split; [cbn [emitted trace]; rewrite Htr; cbn [emitted trace];
            rewrite <- !app_assoc; reflexivity|].
    split; [|split; [discriminate|]].
    + rewrite !poolTrace_app, Hpool.
      cbn; now rewrite <- ?app_assoc.
    + rewrite !handlerTrace_app, Hhand; reflexivity.
Qed.

(** What the pool events of a request add up to. *)
Lemma pool_balance (opens isGzip : bool) (rounds : nat)
    (err : option BulkError) (evs : list Event) :
  poolTrace evs = (if opens then poolTraffic isGzip rounds err else []) ->
  (opens = false ->
   rounds = 0%nat /\ exists cause, err = Some (CannotReadGzip cause)) ->
  outstanding GetGzipReader PutGzipReader evs = 0 /\
  outstanding GetReader PutReader evs = 0 /\
  outstanding GetLineBuffer PutLineBuffer evs = 0 /\
  occurrences DecConcurrency evs = (if opens then S rounds else 0%nat) /\
  occurrences PutParser evs = rounds /\
  outstanding GetParser PutParser evs
  = match err with
    | Some (CannotParseJSON _) | Some (CannotParseTimestamp _) => 1
    | _ => 0
    end.
Proof.
  intros Hpool Hshut.
  unfold outstanding.
  rewrite <- !(occurrences_poolTrace _ evs) by reflexivity.
  rewrite Hpool.
  destruct opens.
  - unfold poolTraffic; rewrite !occurrences_app, !occurrences_rounds.
    destruct isGzip; destruct err as [[]|];
      cbn -[Z.of_nat Z.sub Z.add Z.opp Nat.mul Nat.add]; repeat split; lia.
  - destruct (Hshut eq_refl) as [-> [cause ->]]; cbn; repeat split.
Qed.

(** The pool traffic of [readBulkRequest], for every body and with or
    without the debug flag.  When the gzip reader cannot be made nothing is
    taken from any pool.  Otherwise the readers and the line buffer are
    taken before the loop and given back after it, last taken first, on
    every path; every call of [readBulkLine] is followed by the release of
    one concurrency unit, so there is one release more than rows counted;
    and the parser is taken and given back once per decoded line-pair, and
    left checked out once exactly when the request ends on a document that
    does not decode or whose timestamp does not parse. *)
Theorem pool_traffic_of_request :
  forall (Time : Type) (time_Parse : string -> string -> option Time)
         (UnixNano : Time -> Z) (time_Now : nat -> Z)
         (ParseLogMessage : string -> string + list Field)
         (NeedFlush : LogRows -> bool) (maxLineSizeBytes : Z)
         (tenantID : TenantID) (isDebug : bool) (r : Reader) (isGzip : bool)
         (timeField msgField : string) (w : World),
    exists (rounds : nat) (err : option BulkError) (w' : World)
           (evs : list Event),
      readBulkRequest time_Parse UnixNano time_Now ParseLogMessage
        maxLineSizeBytes r isGzip timeField msgField
        (processLogMessage NeedFlush tenantID isDebug) w
      = (Some (Z.of_nat rounds, err), w') /\
      trace w' = trace w ++ evs /\
      poolTrace evs
      = (if bodyOpens r isGzip then poolTraffic isGzip rounds err else []) /\
      outstanding GetGzipReader PutGzipReader evs = 0 /\
      outstanding GetReader PutReader evs = 0 /\
      outstanding GetLineBuffer PutLineBuffer evs = 0 /\
      occurrences DecConcurrency evs
      = (if bodyOpens r isGzip then S rounds else 0%nat) /\
      occurrences PutParser evs = rounds /\
      outstanding GetParser PutParser evs
      = match err with
        | Some (CannotParseJSON _) | Some (CannotParseTimestamp _) => 1
        | _ => 0
        end.
Proof.
  intros Time tp un tnow plm NF maxLine t dbg r isGzip tf mf w.
  destruct (readBulkRequest_pool Time tp un tnow plm NF maxLine t dbg r isGzip
              tf mf w)
    as (rounds & err & w' & evs & Hrun & Htr & Hpool & Hshut & _).
  exists rounds, err, w', evs.
  split; [exact Hrun|]; split; [exact Htr|]; split; [exact Hpool|].
  exact (pool_balance _ _ _ _ _ Hpool Hshut).
Qed.

Lemma occurrences_handlerTrace (e : Event) (evs : list Event) :
  isHandlerEvent e = true ->
  occurrences e (handlerTrace evs) = occurrences e evs.
Proof.
  intros He; unfold occurrences, handlerTrace.
  induction evs as [|a evs IH]; [reflexivity|].
  cbn [filter].
  destruct (isHandlerEvent a) eqn:Ha; cbn [filter].
  - destruct (Event_eqb_tag e a); cbn [List.length]; now rewrite IH.
  - assert (Hne : Event_eqb_tag e a = false)
      by (destruct e; try discriminate; destruct a; try discriminate;
          reflexivity).
    now rewrite Hne.
Qed.

Lemma outstanding_app (get put : Event) (a b : list Event) :
  outstanding get put (a ++ b) = outstanding get put a + outstanding get put b.
Proof. unfold outstanding; rewrite !occurrences_app; lia. Qed.

Lemma outstanding_handler (get put : Event) (evs : list Event) :
  isHandlerEvent get = true -> isHandlerEvent put = true ->
  handlerTrace evs = [] -> outstanding get put evs = 0.
Proof.
  intros Hg Hp Hevs; unfold outstanding.
  rewrite <- (occurrences_handlerTrace get evs Hg),
    <- (occurrences_handlerTrace put evs Hp), Hevs.
  reflexivity.
Qed.

(** What every [/_bulk] request with a tenant leaves checked out.  The
    handler returns, and of all the pooled objects it and
    [readBulkRequest] take, the gzip reader, the concurrency reader, the
    line buffer and the buffered writer are always back in their pools when
    it does.  The batch is back exactly when the request ends without
    error: a request that ends with the warning leaves its batch checked
    out.  The parser is left checked out exactly when that error is a
    document that does not decode or a timestamp that does not parse. *)
Theorem request_pool_balance :
  forall (Time : Type) (time_Parse : string -> string -> option Time)
         (UnixNano : Time -> Z) (time_Now : nat -> Z)
         (ParseLogMessage : string -> string + list Field)
         (NeedFlush : LogRows -> bool) (maxLineSizeBytes : Z)
         (r : Request) (tenantID : TenantID) (w : World),
    reqTenant r = inr tenantID ->
    exists (n : Z) (err : option BulkError) (w' : World)
           (evs : list Event),
      RequestHandler time_Parse UnixNano time_Now ParseLogMessage NeedFlush
        maxLineSizeBytes r w = (Some true, w') /\
      trace w' = trace w ++ evs /\
      match err with
      | Some e => last evs BulkRequestsInc = LogWarnf n e
      | None => warned evs = false
      end /\
      outstanding GetGzipReader PutGzipReader evs = 0 /\
      outstanding GetReader PutReader evs = 0 /\
      outstanding GetLineBuffer PutLineBuffer evs = 0 /\
      outstanding GetBufferedWriter PutBufferedWriter evs = 0 /\
      outstanding GetLogRows PutLogRows evs
      = match err with Some _ => 1 | None => 0 end /\
      outstanding GetParser PutParser evs
      = match err with
        | Some (CannotParseJSON _) | Some (CannotParseTimestamp _) => 1
        | _ => 0
        end.
Proof.
  intros Time tp un tnow plm NF maxLine r t w Hten.
  destruct (RequestHandler_effect Time tp un tnow plm NF maxLine r t w Hten)
    as (n & err & w1 & evs1 & took & Hrun & Heff & _ & Hhandler).
  destruct (readBulkRequest_pool Time tp un tnow plm NF maxLine t (reqDebug r)
              (reqBody r) (reqGzip r) (timeFieldOf r) (msgFieldOf r)
              (requestStart r w))
    as (rounds & err' & w1' & evs' & Hrun' & Htr' & Hpool & Hshut & Hhand).
  rewrite Hrun in Hrun'; injection Hrun' as Hn <- <-.
  destruct Heff as (Htr & Hrep & _).
  rewrite Htr in Htr'; apply app_inv_head in Htr'; subst evs'.
  destruct (pool_balance _ _ _ _ _ Hpool Hshut)
    as (Hgz & Hrd & Hlb & _ & _ & Hparser).
  exists n, err; eexists;
    exists ([BulkRequestsInc; GetLogRows] ++ evs1
            ++ requestEnd n err (rows (lr w1)) took).
  split; [exact Hhandler|]; split; [reflexivity|].
  split.
  { destruct err as [e|].
    - cbn [requestEnd]; rewrite !app_assoc; apply last_last.
    - cbn [app warned]; rewrite (warned_app _ _ Hrep); reflexivity. }
  rewrite !outstanding_app, Hgz, Hrd, Hlb, Hparser.
  rewrite !(outstanding_handler _ _ evs1) by (reflexivity || exact Hhand).
  destruct err as [[]|]; cbn; repeat split.
Qed.

Lemma request_pool_balance_witness :
  exists (n : Z) (w' : World) (evs : list Event),
    Sample.handle Sample.neverFlush
      (Sample.request false
         [Sample.create; "msg=a"; Sample.create; "_time=yesterday"])
    = (Some true, w') /\
    trace w' = evs /\
    outstanding GetLineBuffer PutLineBuffer evs = 0 /\
    outstanding GetLogRows PutLogRows evs = 1 /\
    outstanding GetParser PutParser evs = 1.
Proof.
  destruct (request_pool_balance Z Sample.time_Parse Sample.UnixNano
              Sample.time_Now Sample.ParseLogMessage Sample.neverFlush
              Sample.maxLineSizeBytes
              (Sample.request false
                 [Sample.create; "msg=a"; Sample.create; "_time=yesterday"])
              Sample.tenant0 Sample.world0 eq_refl)
    as (n & err & w' & evs & Hrun & Htr & Hlast & _ & _ & Hlb & _ & Hbatch
        & Hparser).
  exists n, w', evs.
  split; [exact Hrun|]; split; [exact Htr|]; split; [exact Hlb|].
  assert (Herr : exists msg, err = Some (CannotParseTimestamp msg)).
  { unfold Sample.handle in Hrun; vm_compute in Hrun.
    injection Hrun as Hw; subst w'.
    unfold Sample.world0 in Htr; cbn [trace app] in Htr; subst evs.
    destruct err as [e|]; [|discriminate Hlast].
    cbn [last] in Hlast; injection Hlast as _ <-; now eexists. }
  destruct Herr as [msg ->]; split; [exact Hbatch|exact Hparser].
Defined.

Section Checkpoints.

Context {Time : Type}.
Variable time_Parse : string -> string -> option Time.
Variable UnixNano : Time -> Z.
Variable time_Now : nat -> Z.
Variable ParseLogMessage : string -> string + list Field.
Variable NeedFlush : LogRows -> bool.
Variable maxLineSizeBytes : Z.
Variable tenantID : TenantID.
Variable dbg : bool.
Variables timeField msgField : string.

Let sink := processLogMessage NeedFlush tenantID dbg.

(** The round on a well-formed line-pair adds nothing to the counter by
    itself. *)
Lemma wellFormed_round (k : nat) (cmd doc : string) (rest : list string)
    (fail : option ScanError) (w : World) :
  wellFormed time_Parse UnixNano ParseLogMessage timeField (k, cmd, doc)
  = true ->
  exists (w' : World) (evs : list Event),
    readBulkLine time_Parse UnixNano time_Now ParseLogMessage
      maxLineSizeBytes
      {| tokens := repeat "" k ++ cmd :: doc :: rest; failure := fail |}
      timeField msgField sink w
    = ((inr true, {| tokens := rest; failure := fail |}), w') /\
    trace w' = trace w ++ evs /\
    ingestedAdds evs = [].
Proof.
  intros Hwf.
  pose proof (readBulkLine_wellFormed time_Parse UnixNano time_Now
                ParseLogMessage maxLineSizeBytes timeField msgField sink k
                cmd doc rest fail w Hwf) as Hok.
  cbn [wellFormed] in Hwf; apply andb_true_iff in Hwf.
  destruct Hwf as [Hcmd _].
  rewrite (readBulkLine_decode time_Parse UnixNano time_Now ParseLogMessage
             maxLineSizeBytes timeField msgField k cmd doc rest fail sink w
             Hcmd) in Hok |- *.
  pose proof (decodeDocument_trace time_Parse UnixNano time_Now
                ParseLogMessage NeedFlush tenantID dbg timeField msgField doc
                {| tokens := rest; failure := fail |} w) as Hdec.
  cbv zeta in Hdec; fold sink in Hdec.
  destruct (decodeDocument _ _ _ _ _ _ _ _ _ _) as [rs w'].
  cbn [fst snd] in *; subst rs; cbn [fst] in Hdec.
  destruct Hdec as (evs & Htr & Hsink).
  exists w', ([GetParser] ++ evs ++ [PutParser]).
  split; [reflexivity|]; split; [exact Htr|].
  rewrite !ingestedAdds_app, (proj2 (sinkEvents_quiet evs Hsink)).
  reflexivity.
Qed.

(** The amounts the loop adds to the ingested-row counter, from a state in
    which the checkpoint is 0 below a thousand rows and the row count from
    a thousand rows on. *)
Lemma readBulkRequest_loop_adds (tail : list string)
    (fail : option ScanError) :
  stopsRequest time_Parse UnixNano ParseLogMessage timeField tail = true ->
  forall pairs : list (nat * string * string),
    forallb (wellFormed time_Parse UnixNano ParseLogMessage timeField) pairs
    = true ->
    forall (fuel n : nat) (nCheckpoint : Z) (w : World),
      (List.length (flat_map pairLines pairs ++ tail) < fuel)%nat ->
      ((n < 1000)%nat /\ nCheckpoint = 0 \/
       (1000 <= n)%nat /\ nCheckpoint = Z.of_nat n) ->
      exists (err : option BulkError) (w' : World) (evs : list Event),
        readBulkRequest_loop time_Parse UnixNano time_Now ParseLogMessage
          maxLineSizeBytes fuel
          {| tokens := flat_map pairLines pairs ++ tail; failure := fail |}
          timeField msgField sink (Z.of_nat n) nCheckpoint w
        = (Some (Z.of_nat (n + List.length pairs), err), w') /\
        trace w' = trace w ++ evs /\
        ingestedAdds evs = checkpointAddsFrom n (List.length pairs).
Proof.
  intros Hstop pairs; induction pairs as [|[[k cmd] doc] pairs IH];
    intros Hwf fuel n ck w Hfuel Hinv;
    (destruct fuel as [|fuel]; [lia|]); rewrite readBulkRequest_loop_S;
    cbv zeta.
  - cbn [flat_map app List.length]; rewrite Nat.add_0_r.
    pose proof (stopsRequest_readBulkLine time_Parse UnixNano time_Now
                  ParseLogMessage maxLineSizeBytes timeField msgField tail
                  fail sink w Hstop) as Hno.
    assert (Htr : exists evs,
      trace (snd (readBulkLine time_Parse UnixNano time_Now ParseLogMessage
                    maxLineSizeBytes {| tokens := tail; failure := fail |}
                    timeField msgField sink w)) = trace w ++ evs /\
      ingestedAdds evs = []).
    { destruct (readBulkLine_cases time_Parse UnixNano time_Now
                  ParseLogMessage maxLineSizeBytes
                  {| tokens := tail; failure := fail |} timeField msgField
                  sink w) as [[Hw _] | (doc & sc2 & _ & Hres)].
      - exists []; rewrite Hw, app_nil_r; now split.
      - rewrite Hres in Hno |- *.
        destruct (decodeDocument_failed time_Parse UnixNano time_Now
                    ParseLogMessage timeField msgField doc sc2 sink w Hno)
          as [Htr _].
        now exists [GetParser]. }
    destruct Htr as (evs & Htr & Hadds).
    destruct (readBulkLine _ _ _ _ _ _ _ _ _ _) as [[r sc'] w1].
    cbn [fst snd] in *.
    assert (Hlast : ingestedAdds
                      (evs ++ [DecConcurrency]
                           ++ [RowsIngestedAdd (Z.of_nat n - ck)])
                    = checkpointAddsFrom n 0).
    { rewrite !ingestedAdds_app, Hadds; cbn [ingestedAdds app].
      unfold checkpointAddsFrom; rewrite Nat.add_0_r.
      destruct Hinv as [[Hn ->] | [Hn ->]].
      - apply Nat.ltb_lt in Hn; rewrite Hn; now rewrite Z.sub_0_r.
      - apply Nat.ltb_ge in Hn; rewrite Hn; now rewrite Z.sub_diag. }
    destruct r as [err|[|]].
    + eexists _, _, _; split; [reflexivity|]; cbn [emitted trace].
      split; [rewrite Htr, <- !app_assoc; reflexivity | exact Hlast].
    + now contradiction Hno.
    + eexists _, _, _; split; [reflexivity|]; cbn [emitted trace].
      split; [rewrite Htr, <- !app_assoc; reflexivity | exact Hlast].
  - cbn [forallb] in Hwf.
    apply andb_true_iff in Hwf; destruct Hwf as [Hp Hps].
    cbn [flat_map pairLines] in *.
    rewrite <- !app_assoc in *; cbn [app] in *.
    destruct (wellFormed_round k cmd doc
                (flat_map pairLines pairs ++ tail) fail w Hp)
      as (w1 & evs1 & Hrun1 & Htr1 & Hadds1).
    rewrite Hrun1; cbn [fst snd].
    rewrite length_app, repeat_length in Hfuel; cbn [List.length] in Hfuel.
    replace (Z.of_nat n + 1) with (Z.of_nat (S n)) by lia.
    replace (n + List.length ((k, cmd, doc) :: pairs))%nat
      with (S n + List.length pairs)%nat by (cbn [List.length]; lia).
    assert (Hfrom : forall first : list Z,
      (if (S n <? 1000)%nat then first = [] else
       if (n <? 1000)%nat then first = [1000] else first = [1]) ->
      first ++ checkpointAddsFrom (S n) (List.length pairs)
      = checkpointAddsFrom n (List.length ((k, cmd, doc) :: pairs))).
    { intros first Hfirst; unfold checkpointAddsFrom; cbn [List.length].
      replace (n + S (List.length pairs))%nat
        with (S n + List.length pairs)%nat by lia.
      destruct (Nat.ltb_spec (S n) 1000) as [H1|H1].
      - subst first; assert (E : (n <? 1000)%nat = true)
          by (apply Nat.ltb_lt; lia).
        now rewrite E.
      - destruct (Nat.ltb_spec n 1000) as [H2|H2]; subst first.
        + assert (E : (S n + List.length pairs <? 1000)%nat = false)
            by (apply Nat.ltb_ge; lia).
          rewrite E; cbn [app]; do 2 f_equal.
          replace (S n + List.length pairs - 1000)%nat
            with (List.length pairs) by lia.
          reflexivity.
        + assert (E : (S n + List.length pairs <? 1000)%nat = false)
            by (apply Nat.ltb_ge; lia).
          rewrite E; reflexivity. }
    destruct (Z.leb_spec 1000 (Z.of_nat (S n))) as [Hge|Hlt].
    + destruct (IH Hps fuel (S n) (Z.of_nat (S n))
                  (emitted (RowsIngestedAdd (Z.of_nat (S n) - ck))
                     (emitted DecConcurrency w1)))
        as (err & w' & evs2 & Hrun & Htr2 & Hadds2); [lia | right; lia|].
      exists err, w'; eexists; split; [exact Hrun|].
      split; [rewrite Htr2; cbn [emitted trace]; rewrite Htr1,
                <- !app_assoc; reflexivity|].
      rewrite !ingestedAdds_app, Hadds1, Hadds2; cbn [ingestedAdds app].
      apply (Hfrom [Z.of_nat (S n) - ck]).
      assert (E : (S n <? 1000)%nat = false) by (apply Nat.ltb_ge; lia).
      rewrite E.
      destruct Hinv as [[Hn ->] | [Hn ->]].
      * assert (E2 : (n <? 1000)%nat = true) by (apply Nat.ltb_lt; lia).
        rewrite E2; f_equal; lia.
      * assert (E2 : (n <? 1000)%nat = false) by (apply Nat.ltb_ge; lia).
        rewrite E2; f_equal; lia.
    + destruct (IH Hps fuel (S n) ck (emitted DecConcurrency w1))
        as (err & w' & evs2 & Hrun & Htr2 & Hadds2);
        [lia | left; destruct Hinv as [[Hn ->] | [Hn ->]]; lia|].
      exists err, w'; eexists; split; [exact Hrun|].
      split; [rewrite Htr2; cbn [emitted trace]; rewrite Htr1,
                <- !app_assoc; reflexivity|].
      rewrite !ingestedAdds_app, Hadds1, Hadds2; cbn [ingestedAdds app].
      apply (Hfrom []).
      assert (E : (S n <? 1000)%nat = true) by (apply Nat.ltb_lt; lia).
      now rewrite E.
Qed.

End Checkpoints.

(** The checkpoints of the ingested-row counter, for every number of rows.
    A request whose body holds [N] well-formed line-pairs and then stops
    adds to the counter, in this order: [N] alone when [N] is below a
    thousand; otherwise a thousand, then one for each further row, then a
    final zero.  The amounts do not depend on the debug flag. *)
Theorem ingested_checkpoints :
  forall (Time : Type) (time_Parse : string -> string -> option Time)
         (UnixNano : Time -> Z) (time_Now : nat -> Z)
         (ParseLogMessage : string -> string + list Field)
         (NeedFlush : LogRows -> bool) (maxLineSizeBytes : Z)
         (tenantID : TenantID) (isDebug : bool) (r : Reader) (isGzip : bool)
         (timeField msgField : string)
         (pairs : list (nat * string * string)) (tail : list string)
         (w : World),
    bodyOpens r isGzip = true ->
    tokens (lines r) = flat_map pairLines pairs ++ tail ->
    forallb (wellFormed time_Parse UnixNano ParseLogMessage timeField) pairs
    = true ->
    stopsRequest time_Parse UnixNano ParseLogMessage timeField tail = true ->
    exists (err : option BulkError) (w' : World) (evs : list Event),
      readBulkRequest time_Parse UnixNano time_Now ParseLogMessage
        maxLineSizeBytes r isGzip timeField msgField
        (processLogMessage NeedFlush tenantID isDebug) w
      = (Some (Z.of_nat (List.length pairs), err), w') /\
      trace w' = trace w ++ evs /\
      ingestedAdds evs = checkpointAdds (List.length pairs).
Proof.
  intros Time tp un tnow plm NF maxLine t dbg r isGzip tf mf pairs tail w
    Hopen Htok Hwf Hstop.
  destruct r as [gz [toks fail]]; cbn [lines tokens] in Htok; subst toks.
  assert (Hloop : forall w0 : World, exists err w' evs,
    readBulkRequest_loop tp un tnow plm maxLine
      (S (List.length (flat_map pairLines pairs ++ tail)))
      {| tokens := flat_map pairLines pairs ++ tail; failure := fail |}
      tf mf (processLogMessage NF t dbg) 0 0 w0
    = (Some (Z.of_nat (List.length pairs), err), w') /\
    trace w' = trace w0 ++ evs /\
    ingestedAdds evs = checkpointAdds (List.length pairs)).
  { intros w0.
    destruct (readBulkRequest_loop_adds tp un tnow plm NF maxLine t dbg tf mf
                tail fail Hstop pairs Hwf
                (S (List.length (flat_map pairLines pairs ++ tail)))
                0%nat 0 w0) as (err & w' & evs & Hrun & Htr & Hadds);
      [lia | left; split; [lia | reflexivity]|].
    now exists err, w', evs. }
  unfold readBulkRequest, bodyOpens in *; cbn [lines tokens gzipOpen] in *.
  destruct isGzip; [destruct gz as [cause|]; [discriminate|]|].
  - rewrite !bind_eq, !emit_eq; cbn [fst snd].
    destruct (Hloop (emitted GetLineBuffer
                       (emitted GetReader (emitted GetGzipReader w))))
      as (err & w' & evs & Hrun & Htr & Hadds).
    rewrite Hrun; unfold ret; cbn [fst snd].
    exists err; do 2 eexists; split; [reflexivity|].
    split; [cbn [emitted trace]; rewrite Htr; cbn [emitted trace];
            rewrite <- !app_assoc; reflexivity|].
    rewrite !ingestedAdds_app, Hadds; cbn [ingestedAdds app].
    now rewrite app_nil_r.
  - rewrite !bind_eq, !emit_eq; cbn [fst snd].
    destruct (Hloop (emitted GetLineBuffer (emitted GetReader w)))
      as (err & w' & evs & Hrun & Htr & Hadds).
    rewrite Hrun; unfold ret; cbn [fst snd].
    exists err; do 2 eexists; split; [reflexivity|].
    split; [cbn [emitted trace]; rewrite Htr; cbn [emitted trace];
            rewrite <- !app_assoc; reflexivity|].
    rewrite !ingestedAdds_app, Hadds; cbn [ingestedAdds app].
    now rewrite app_nil_r.
Qed.

Lemma ingested_checkpoints_witness :
  let pairs := repeat (0%nat, Sample.create, "msg=hello") 1001 in
  exists (err : option BulkError) (w' : World) (evs : list Event),
    readBulkRequest Sample.time_Parse Sample.UnixNano Sample.time_Now
      Sample.ParseLogMessage Sample.maxLineSizeBytes
      (Sample.plainBody (flat_map pairLines pairs ++ [])) false "_time" ""
      (processLogMessage Sample.neverFlush Sample.tenant0 false)
      Sample.world0
    = (Some (1001, err), w') /\
    trace w' = trace Sample.world0 ++ evs /\
    ingestedAdds evs = [1000; 1; 0].
Proof.
  intros pairs.
  destruct (ingested_checkpoints Z Sample.time_Parse Sample.UnixNano
              Sample.time_Now Sample.ParseLogMessage Sample.neverFlush
              Sample.maxLineSizeBytes Sample.tenant0 false
              (Sample.plainBody (flat_map pairLines pairs ++ [])) false
              "_time" "" pairs [] Sample.world0 eq_refl eq_refl)
    as (err & w' & evs & Hrun & Htr & Hadds);
    [vm_compute; reflexivity | reflexivity |].
  unfold pairs in Hrun, Hadds; rewrite repeat_length in Hrun, Hadds.
  exists err, w', evs; split; [exact Hrun|]; split; [exact Htr|exact Hadds].
Defined.

(** ** Routing *)

(** The two headers the handler sets before it looks at the path. *)
Lemma headers_prepared (h : Header) :
  let h' :=
    Header_Set "X-Elastic-Product" "Elasticsearch"
      (Header_Add "Content-Type" "application/json" h) in
  h' "Content-Type" = h "Content-Type" ++ ["application/json"] /\
  h' "X-Elastic-Product" = ["Elasticsearch"] /\
  (forall k : string,
      k <> "Content-Type" -> k <> "X-Elastic-Product" -> h' k = h k).
Proof.
  cbv zeta; unfold Header_Set, Header_Add; split; [reflexivity|].
  split; [reflexivity|]; intros k Hct Hxe.
  apply String.eqb_neq in Hct, Hxe; now rewrite Hct, Hxe.
Qed.

(** Which paths the handler takes, and what it does on all of them.  The
    handler always returns; it reports the request as handled exactly when
    the path starts with one of the four stub prefixes or is [/],
    [/_license] or [/_bulk].  On every path, the declined ones included, one
    [application/json] value is appended to [Content-Type],
    [X-Elastic-Product] is replaced by the single value [Elasticsearch] and
    no other header changes.  Only the exact path [/_bulk] touches counters,
    logs, pools, clock or batch; a declined request gets no body from the
    handler, and neither does a request to [/] with a method other than
    [GET]. *)
Theorem RequestHandler_routes :
  forall (Time : Type) (time_Parse : string -> string -> option Time)
         (UnixNano : Time -> Z) (time_Now : nat -> Z)
         (ParseLogMessage : string -> string + list Field)
         (NeedFlush : LogRows -> bool) (maxLineSizeBytes : Z)
         (path method : string) (r : Request) (rw : ResponseWriter)
         (w : World),
    let handled :=
      HasPrefix path "/_ilm/policy" || HasPrefix path "/_index_template"
      || HasPrefix path "/_ingest" || HasPrefix path "/_nodes"
      || String.eqb path "/" || String.eqb path "/_license"
      || String.eqb path "/_bulk" in
    exists (rw' : ResponseWriter) (w' : World),
      RequestHandlerPath time_Parse UnixNano time_Now ParseLogMessage
        NeedFlush maxLineSizeBytes path method r rw w
      = ((Some handled, rw'), w') /\
      header rw' "Content-Type"
      = header rw "Content-Type" ++ ["application/json"] /\
      header rw' "X-Elastic-Product" = ["Elasticsearch"] /\
      (forall k : string,
          k <> "Content-Type" -> k <> "X-Elastic-Product" ->
          header rw' k = header rw k) /\
      (path <> "/_bulk" -> w' = w) /\
      (handled = false -> written rw' = written rw) /\
      (path = "/" -> method <> MethodGet -> written rw' = written rw).
Proof.
  intros Time tp un tnow plm NF maxLine path method r rw w.
  pose proof (headers_prepared (header rw)) as Hh; cbv zeta in Hh.
  unfold RequestHandlerPath; cbv zeta.
  destruct (HasPrefix path "/_ilm/policy") eqn:E1;
    [| destruct (HasPrefix path "/_index_template") eqn:E2;
       [| destruct (HasPrefix path "/_ingest") eqn:E3;
          [| destruct (HasPrefix path "/_nodes") eqn:E4 ]]];
    cbn [orb].
  1-4: eexists _, w; split; [reflexivity|];
    cbn [Fprintf header written];
    repeat (split; [apply Hh|]);
    (split; [reflexivity|]); (split; [discriminate|]);
    intros ->; discriminate.
  destruct (String.eqb path "/") eqn:E5; cbn [orb].
  { destruct (String.eqb method MethodGet) eqn:Em;
      (eexists _, w; split; [reflexivity|]);
      cbn [Fprintf header written];
      repeat (split; [apply Hh|]);
      (split; [reflexivity|]); (split; [discriminate|]).
    - intros _ Hm; apply String.eqb_eq in Em; contradiction.
    - reflexivity. }
  destruct (String.eqb path "/_license") eqn:E6; cbn [orb].
  { eexists _, w; split; [reflexivity|];
      cbn [Fprintf header written];
      repeat (split; [apply Hh|]);
      (split; [reflexivity|]); (split; [discriminate|]).
    intros ->; discriminate. }
  destruct (String.eqb path "/_bulk") eqn:E7.
  - assert (Hrun : exists w', RequestHandler tp un tnow plm NF maxLine r w
                              = (Some true, w')).
    { destruct (reqTenant r) as [e|t] eqn:Hten.
      - unfold RequestHandler; rewrite Hten; eexists; reflexivity.
      - destruct (RequestHandler_effect Time tp un tnow plm NF maxLine r t w
                    Hten) as (n & err & w1 & evs1 & tookMs & _ & _ & _ & H).
        eexists; exact H. }
    destruct Hrun as [w' Hrun].
    rewrite bind_eq, Hrun; unfold ret; cbn [fst snd].
    eexists _, w'; split; [reflexivity|]; cbn [header written].
    repeat (split; [apply Hh|]).
    apply String.eqb_eq in E7.
    split; [contradiction|]; split; [discriminate|].
    subst path; discriminate.
  - eexists _, w; split; [reflexivity|]; cbn [header written].
    repeat (split; [apply Hh|]).
    split; [reflexivity|]; split; [reflexivity|].
    intros ->; discriminate.
Qed.

Lemma RequestHandler_routes_witness :
  let rw0 := {| header := fun _ => []; written := "" |} in
  (exists rw' : ResponseWriter,
      RequestHandlerPath Sample.time_Parse Sample.UnixNano Sample.time_Now
        Sample.ParseLogMessage Sample.neverFlush Sample.maxLineSizeBytes
        "/metrics" MethodGet (Sample.request false []) rw0 Sample.world0
      = ((Some false, rw'), Sample.world0) /\
      header rw' "Content-Type" = ["application/json"] /\
      written rw' = "") /\
  (exists rw' : ResponseWriter,
      RequestHandlerPath Sample.time_Parse Sample.UnixNano Sample.time_Now
        Sample.ParseLogMessage Sample.neverFlush Sample.maxLineSizeBytes
        "/" MethodHead (Sample.request false []) rw0 Sample.world0
      = ((Some true, rw'), Sample.world0) /\
      written rw' = "").
Proof.
  intros rw0; split.
  - destruct (RequestHandler_routes Z Sample.time_Parse Sample.UnixNano
                Sample.time_Now Sample.ParseLogMessage Sample.neverFlush
                Sample.maxLineSizeBytes "/metrics" MethodGet
                (Sample.request false []) rw0 Sample.world0)
      as (rw' & w' & Hrun & Hct & _ & _ & Hw & Hbody & _).
    exists rw'.
    rewrite (Hw ltac:(discriminate)) in Hrun.
    split; [exact Hrun|]; split; [exact Hct|].
    exact (Hbody eq_refl).
  - destruct (RequestHandler_routes Z Sample.time_Parse Sample.UnixNano
                Sample.time_Now Sample.ParseLogMessage Sample.neverFlush
                Sample.maxLineSizeBytes "/" MethodHead
                (Sample.request false []) rw0 Sample.world0)
      as (rw' & w' & Hrun & _ & _ & _ & Hw & _ & Hhead).
    exists rw'.
    rewrite (Hw ltac:(discriminate)) in Hrun.
    split; [exact Hrun|].
    exact (Hhead eq_refl ltac:(discriminate)).
Defined.

(** ** Millisecond numerals *)

Lemma isDigit_range (c : ascii) :
  isDigit c = true -> 0 <= strconv.byte_val c - 48 <= 9.
Proof.
  unfold isDigit; intros H; apply andb_true_iff in H.
  destruct H as [H1 H2]; apply Z.leb_le in H1, H2; lia.
Qed.

Lemma digitsValueFrom_ge (s : string) :
  isDigits s = true ->
  forall n : Z, 0 <= n -> n <= digitsValueFrom s n.
Proof.
  induction s as [|c s IH]; intros Hs n Hn; cbn [digitsValueFrom];
    [lia|].
  cbn [isDigits] in Hs; apply andb_true_iff in Hs; destruct Hs as [Hc Hs].
  pose proof (isDigit_range c Hc) as Hd.
  pose proof (IH Hs (n * 10 + (strconv.byte_val c - 48)) ltac:(lia)); lia.
Qed.

(** [ParseUint]'s digit loop on a run of digits: the number they denote,
    or the range error as soon as it does not fit 64 bits. *)
Lemma ParseUint_loop_digits (s : string) :
  isDigits s = true ->
  forall n : Z,
    0 <= n <= Int64.maxUint64 ->
    strconv.ParseUint_loop s n
    = if digitsValueFrom s n <=? Int64.maxUint64
      then (digitsValueFrom s n, None)
      else (Int64.maxUint64, Some strconv.ErrRange).
Proof.
  assert (Hmax : Int64.maxUint64 = 18446744073709551615) by reflexivity.
  assert (Hcut : strconv.cutoff10 = 1844674407370955162) by reflexivity.
  induction s as [|c s IH]; intros Hs n Hn;
    cbn [strconv.ParseUint_loop digitsValueFrom].
  - destruct (Z.leb_spec n Int64.maxUint64); [reflexivity|lia].
  - cbn [isDigits] in Hs; apply andb_true_iff in Hs; destruct Hs as [Hc Hs].
    pose proof (isDigit_range c Hc) as Hd.
    cbv zeta; fold (isDigit c); rewrite Hc.
    set (d := strconv.byte_val c - 48) in *.
    pose proof (digitsValueFrom_ge s Hs (n * 10 + d) ltac:(lia)) as Hge.
    destruct (Z.leb_spec strconv.cutoff10 n) as [Hbig|Hsmall].
    + destruct (Z.leb_spec (digitsValueFrom s (n * 10 + d))
                  Int64.maxUint64); [lia|reflexivity].
    + assert (E10 : Int64.uwrap (n * 10) = n * 10)
        by (unfold Int64.uwrap; apply Z.mod_small; lia).
      rewrite E10.
      destruct (Z_le_gt_dec (n * 10 + d) Int64.maxUint64) as [Hfit|Hover].
      * assert (E1 : Int64.uwrap (n * 10 + d) = n * 10 + d)
          by (unfold Int64.uwrap; apply Z.mod_small; lia).
        rewrite E1.
        assert (Ea : (n * 10 + d <? n * 10) = false)
          by (apply Z.ltb_ge; lia).
        assert (Eb : (Int64.maxUint64 <? n * 10 + d) = false)
          by (apply Z.ltb_ge; lia).
        rewrite Ea, Eb; cbn [orb].
        apply IH; [exact Hs|lia].
      * assert (E1 : Int64.uwrap (n * 10 + d) = n * 10 + d - 2 ^ 64).
        { unfold Int64.uwrap.
          replace (n * 10 + d) with (n * 10 + d - 2 ^ 64 + 1 * 2 ^ 64)
            at 1 by lia.
          rewrite Z_mod_plus_full; apply Z.mod_small; lia. }
        rewrite E1.
        assert (Ea : (n * 10 + d - 2 ^ 64 <? n * 10) = true)
          by (apply Z.ltb_lt; lia).
        rewrite Ea; cbn [orb].
        destruct (Z.leb_spec (digitsValueFrom s (n * 10 + d))
                    Int64.maxUint64); [lia|reflexivity].
Qed.

Lemma isDigit_not_sign (c : ascii) :
  isDigit c = true ->
  Ascii.eqb c "+" = false /\ Ascii.eqb c "-" = false.
Proof.
  intros H; split.
  - destruct (Ascii.eqb_spec c "+") as [->|]; [discriminate H|reflexivity].
  - destruct (Ascii.eqb_spec c "-") as [->|]; [discriminate H|reflexivity].
Qed.

Lemma isDigits_get (s : string) :
  isDigits s = true ->
  forall (k : nat) (c : ascii), String.get k s = Some c -> isDigit c = true.
Proof.
  induction s as [|a s IH]; intros Hs k c Hget; [discriminate Hget|].
  cbn [isDigits] in Hs; apply andb_true_iff in Hs; destruct Hs as [Ha Hs].
  destruct k as [|k]; cbn [String.get] in Hget.
  - now injection Hget as <-.
  - exact (IH Hs k c Hget).
Qed.

Lemma ParseUint_digits (s : string) :
  s <> EmptyString -> isDigits s = true ->
  strconv.ParseUint s
  = if digitsValue s <=? Int64.maxUint64
    then (digitsValue s, None)
    else (Int64.maxUint64, Some strconv.ErrRange).
Proof.
  intros Hne Hs; destruct s as [|c s]; [contradiction|].
  unfold strconv.ParseUint, digitsValue.
  apply ParseUint_loop_digits; [exact Hs|].
  unfold Int64.maxUint64; lia.
Qed.

(** [ParseInt] on a run of digits, bare or after a sign. *)
Lemma ParseInt_digits (s : string) :
  s <> EmptyString -> isDigits s = true ->
  strconv.ParseInt s
  = (if digitsValue s <? 2 ^ 63 then inr (digitsValue s)
     else inl strconv.ErrRange) /\
  strconv.ParseInt (String "+" s) = strconv.ParseInt s /\
  strconv.ParseInt (String "-" s)
  = (if digitsValue s <=? 2 ^ 63 then inr (- digitsValue s)
     else inl strconv.ErrRange).
Proof.
  intros Hne Hs.
  pose proof (ParseUint_digits s Hne Hs) as HU.
  pose proof (digitsValueFrom_ge s Hs 0 ltac:(lia)) as Hpos.
  fold (digitsValue s) in Hpos.
  assert (Hmax : Int64.maxUint64 = 18446744073709551615) by reflexivity.
  assert (Hbare : strconv.ParseInt s
                  = if digitsValue s <? 2 ^ 63 then inr (digitsValue s)
                    else inl strconv.ErrRange).
  { destruct s as [|c s]; [contradiction|].
    assert (Hc : isDigit c = true)
      by (cbn [isDigits] in Hs; apply andb_true_iff in Hs; tauto).
    destruct (isDigit_not_sign c Hc) as [Hplus Hminus].
    unfold strconv.ParseInt; rewrite Hplus, Hminus, HU.
    set (v := digitsValue (String c s)) in *.
    destruct (Z.leb_spec v Int64.maxUint64) as [Hfit|Hover];
      cbn [negb andb].
    - destruct (Z.leb_spec (2 ^ 63) v) as [Hge|Hlt];
        destruct (Z.ltb_spec v (2 ^ 63)); try lia; [reflexivity|].
      unfold Int64.wrap; rewrite Z.mod_small by lia; f_equal; lia.
    - destruct (Z.ltb_spec v (2 ^ 63)); [lia|reflexivity]. }
  split; [exact Hbare|]; split.
  - rewrite Hbare; unfold strconv.ParseInt.
    change (Ascii.eqb "+" "+") with true; cbv iota beta; rewrite HU.
    set (v := digitsValue s) in *.
    destruct (Z.leb_spec v Int64.maxUint64) as [Hfit|Hover];
      cbn [negb andb].
    + destruct (Z.leb_spec (2 ^ 63) v) as [Hge|Hlt];
        destruct (Z.ltb_spec v (2 ^ 63)); try lia; [reflexivity|].
      unfold Int64.wrap; rewrite Z.mod_small by lia; f_equal; lia.
    + destruct (Z.ltb_spec v (2 ^ 63)); [lia|reflexivity].
  - unfold strconv.ParseInt.
    change (Ascii.eqb "-" "+") with false;
      change (Ascii.eqb "-" "-") with true; cbv iota beta; rewrite HU.
    set (v := digitsValue s) in *.
    destruct (Z.leb_spec v Int64.maxUint64) as [Hfit|Hover];
      cbn [negb andb].
    + destruct (Z.ltb_spec (2 ^ 63) v) as [Hgt|Hle];
        destruct (Z.leb_spec v (2 ^ 63)); try lia; [reflexivity|].
      f_equal.
      destruct (Z.eq_dec v (2 ^ 63)) as [->|Hne'];
        [reflexivity|].
      unfold Int64.wrap at 2; rewrite Z.mod_small by lia.
      replace (- (v + 2 ^ 63 - 2 ^ 63)) with (- v) by lia.
      unfold Int64.wrap; rewrite Z.mod_small by lia; lia.
    + destruct (Z.leb_spec v (2 ^ 63)); [lia|reflexivity].
Qed.

Lemma digits_look_like_millis (s : string) :
  isDigits s = true ->
  looksLikeMillis s = Some true /\
  looksLikeMillis (String "+" s) = Some true /\
  looksLikeMillis (String "-" s) = Some true.
Proof.
  intros Hs.
  assert (Hany : forall sign : ascii,
             fifthIsDash (String sign s) = false).
  { intros sign; unfold fifthIsDash; cbn [String.get Nat.eqb].
    destruct (String.get 3 s) as [c|] eqn:Hget; [|reflexivity].
    exact (proj2 (isDigit_not_sign c (isDigits_get s Hs 3%nat c Hget))). }
  assert (Hbare : fifthIsDash s = false).
  { unfold fifthIsDash.
    destruct (String.get 4 s) as [c|] eqn:Hget; [|reflexivity].
    exact (proj2 (isDigit_not_sign c (isDigits_get s Hs 4%nat c Hget))). }
  rewrite !looksLikeMillis_total, !Hany, Hbare; cbn [negb].
  now rewrite !orb_true_r.
Qed.

(** What a decimal numeral means as a timestamp.  A non-empty run of
    digits, bare or with a sign, is always read as milliseconds, whatever
    its length (it is never taken for a date).  With [v] the number the
    digits denote: up to [9223372036854] the result is [v * 1e6]
    nanoseconds, negated after a minus sign; beyond that and within 64-bit
    integers the parser reports a too big (too small) timestamp; beyond
    64-bit integers it reports the range error of [strconv.ParseInt]. *)
Theorem millis_numerals :
  forall (Time : Type) (time_Parse : string -> string -> option Time)
         (UnixNano : Time -> Z) (s : string),
    s <> EmptyString ->
    isDigits s = true ->
    let parse := parseElasticsearchTimestamp time_Parse UnixNano in
    let v := digitsValue s in
    parse s
    = (if v <=? 9223372036854 then inr (v * 1000000)
       else if v <? 2 ^ 63 then inl (TooBigMillis v)
       else inl (CannotParseMillis s strconv.ErrRange)) /\
    parse (String "+" s)
    = (if v <=? 9223372036854 then inr (v * 1000000)
       else if v <? 2 ^ 63 then inl (TooBigMillis v)
       else inl (CannotParseMillis (String "+" s) strconv.ErrRange)) /\
    parse (String "-" s)
    = (if v <=? 9223372036854 then inr (- (v * 1000000))
       else if v <=? 2 ^ 63 then inl (TooSmallMillis (- v))
       else inl (CannotParseMillis (String "-" s) strconv.ErrRange)).
Proof.
  intros Time tp un s Hne Hs parse v; subst parse.
  destruct (digits_look_like_millis s Hs) as (L0 & L1 & L2).
  destruct (ParseInt_digits s Hne Hs) as (P0 & P1 & P2).
  pose proof (digitsValueFrom_ge s Hs 0 ltac:(lia)) as Hpos.
  fold (digitsValue s) in Hpos, P0, P2; fold v in Hpos, P0, P2.
  rewrite P0 in P1.
  unfold parseElasticsearchTimestamp.
  rewrite L0, L1, L2, P0, P1, P2.
  destruct millis_bounds as [Emax Emin].
  assert (Hok : forall n : Z,
    -9223372036854 <= n <= 9223372036854 ->
    (if maxMillis <? n then inl (TooBigMillis n)
     else if n <? minMillis then inl (TooSmallMillis n)
     else inr (Int64.wrap (n * million)))
    = (inr (n * 1000000) : TimestampError + Z)).
  { intros n Hn.
    assert (E1 : (maxMillis <? n) = false)
      by (rewrite Emax; apply Z.ltb_ge; lia).
    assert (E2 : (n <? minMillis) = false)
      by (rewrite Emin; apply Z.ltb_ge; lia).
    now rewrite E1, E2, (millis_no_wrap n E1 E2). }
  destruct (Z.leb_spec v 9223372036854) as [Hin|Hout].
  - assert (E63 : (v <? 2 ^ 63) = true) by (apply Z.ltb_lt; lia).
    assert (E63' : (v <=? 2 ^ 63) = true) by (apply Z.leb_le; lia).
    rewrite E63, E63', !Hok by lia.
    repeat split; f_equal; lia.
  - assert (Ebig : (maxMillis <? v) = true)
      by (rewrite Emax; apply Z.ltb_lt; lia).
    assert (Esmall : (- v <? minMillis) = true)
      by (rewrite Emin; apply Z.ltb_lt; lia).
    assert (Enot : (maxMillis <? - v) = false)
      by (rewrite Emax; apply Z.ltb_ge; lia).
    destruct (Z.ltb_spec v (2 ^ 63)); destruct (Z.leb_spec v (2 ^ 63));
      try lia; rewrite ?Ebig, ?Enot, ?Esmall; repeat split.
Qed.

Lemma millis_numerals_witness :
  let parse :=
    parseElasticsearchTimestamp Sample.time_Parse Sample.UnixNano in
  parse "0001700000000000" = inr 1700000000000000000 /\
  parse "-1700000000000" = inr (-1700000000000000000) /\
  parse "9223372036855" = inl (TooBigMillis 9223372036855) /\
  parse "-9223372036854775809"
  = inl (CannotParseMillis "-9223372036854775809" strconv.ErrRange).
Proof.
  intros parse.
  destruct (millis_numerals Z Sample.time_Parse Sample.UnixNano
              "0001700000000000" ltac:(discriminate) eq_refl)
    as (H1 & _ & _).
  destruct (millis_numerals Z Sample.time_Parse Sample.UnixNano
              "1700000000000" ltac:(discriminate) eq_refl)
    as (_ & _ & H2).
  destruct (millis_numerals Z Sample.time_Parse Sample.UnixNano
              "9223372036855" ltac:(discriminate) eq_refl)
    as (H3 & _ & _).
  destruct (millis_numerals Z Sample.time_Parse Sample.UnixNano
              "9223372036854775809" ltac:(discriminate) eq_refl)
    as (_ & _ & H4).
  split; [exact H1|]; split; [exact H2|]; split; [exact H3|exact H4].
Defined.

(** * Timestamps against Go's parsers *)

(** ** Decimal integers *)

(** On a string that holds something else than a digit, the digit loop
    fails: with the syntax error at that byte, or with the range error
    before it. *)
Lemma ParseUint_loop_not_digits (s : string) :
  isDigits s = false ->
  forall n : Z,
    exists (un : Z) (e : strconv.NumError),
      strconv.ParseUint_loop s n = (un, Some e) /\
      (e = strconv.ErrRange -> un = Int64.maxUint64).
Proof.
  induction s as [|c s IH]; intros Hs n; [discriminate Hs|].
  cbn [isDigits] in Hs; cbn [strconv.ParseUint_loop]; cbv zeta.
  fold (isDigit c).
  destruct (isDigit c); cbn [andb] in Hs.
  - destruct (strconv.cutoff10 <=? n); [now eexists _, _|].
    destruct ((_ <? _) || (_ <? _)); [now eexists _, _|].
    now apply IH.
  - exists 0, strconv.ErrSyntax; split; [reflexivity|discriminate].
Qed.

Lemma spec_digits_cases (s : string) :
  match spec_digits s with
  | Some v => s <> EmptyString /\ isDigits s = true /\ v = digitsValue s
  | None => s = EmptyString \/ isDigits s = false
  end.
Proof.
  unfold spec_digits; destruct s as [|c s]; [now left|].
  cbn [String.length Nat.eqb negb andb].
  destruct (isDigits (String c s)); [|now right].
  repeat split; discriminate.
Qed.

(** [ParseUint] fails on what is not a run of digits. *)
Lemma ParseUint_not_digits (s : string) :
  s = EmptyString \/ isDigits s = false ->
  exists (un : Z) (e : strconv.NumError),
    strconv.ParseUint s = (un, Some e) /\
    (e = strconv.ErrRange -> un = Int64.maxUint64).
Proof.
  intros [-> | Hs].
  - exists 0, strconv.ErrSyntax; split; [reflexivity|discriminate].
  - destruct s as [|c s]; [discriminate Hs|].
    exact (ParseUint_loop_not_digits _ Hs 0).
Qed.

(** [strconv.ParseInt(s, 10, 64)] reads base-10 signed 64-bit integers: it
    returns the number an optional sign and a run of digits denote when that
    number is a 64-bit integer, the range error when it is not, and an error
    on any other string. *)
Lemma ParseInt_decimal (s : string) :
  match spec_decimal s with
  | Some n =>
      strconv.ParseInt s
      = if (n <? Int64.MinInt64) || (Int64.MaxInt64 <? n)
        then inl strconv.ErrRange else inr n
  | None => exists e : strconv.NumError, strconv.ParseInt s = inl e
  end.
Proof.
  assert (Hbad : forall (neg : bool) (digits : string),
    digits = EmptyString \/ isDigits digits = false ->
    exists e : strconv.NumError,
      (let '(un, err) := strconv.ParseUint digits in
       match err with
       | Some strconv.ErrSyntax => inl strconv.ErrSyntax
       | _ =>
           if negb neg && (2 ^ 63 <=? un) then inl strconv.ErrRange
           else if neg && (2 ^ 63 <? un) then inl strconv.ErrRange
           else inr (if neg then Int64.wrap (- Int64.wrap un)
                     else Int64.wrap un)
       end) = (inl e : strconv.NumError + Z)).
  { intros neg digits Hd.
    destruct (ParseUint_not_digits digits Hd) as (un & e & -> & Hun).
    destruct e; [now eexists|].
    rewrite (Hun eq_refl); destruct neg; now eexists. }
  assert (Hmin : Int64.MinInt64 = - 2 ^ 63) by reflexivity.
  assert (Hmax : Int64.MaxInt64 = 2 ^ 63 - 1) by reflexivity.
  destruct s as [|c s]; [now exists strconv.ErrSyntax|].
  cbn [spec_decimal].
  destruct (Ascii.eqb_spec c "+") as [->|Hplus];
    [|destruct (Ascii.eqb_spec c "-") as [->|Hminus]].
  - pose proof (spec_digits_cases s) as Hs.
    destruct (spec_digits s) as [v|].
    + destruct Hs as (Hne & Hd & ->).
      destruct (ParseInt_digits s Hne Hd) as (P0 & P1 & _).
      rewrite P1, P0.
      pose proof (digitsValueFrom_ge s Hd 0 ltac:(lia)) as Hpos.
      fold (digitsValue s) in Hpos.
      rewrite Hmin, Hmax.
      destruct (Z.ltb_spec (digitsValue s) (2 ^ 63));
        destruct (Z.ltb_spec (digitsValue s) (- 2 ^ 63));
        destruct (Z.ltb_spec (2 ^ 63 - 1) (digitsValue s));
        try lia; reflexivity.
    + exact (Hbad false s Hs).
  - pose proof (spec_digits_cases s) as Hs.
    destruct (spec_digits s) as [v|]; cbn [option_map].
    + destruct Hs as (Hne & Hd & ->).
      destruct (ParseInt_digits s Hne Hd) as (_ & _ & P2).
      rewrite P2.
      pose proof (digitsValueFrom_ge s Hd 0 ltac:(lia)) as Hpos.
      fold (digitsValue s) in Hpos.
      rewrite Hmin, Hmax.
      destruct (Z.leb_spec (digitsValue s) (2 ^ 63));
        destruct (Z.ltb_spec (- digitsValue s) (- 2 ^ 63));
        destruct (Z.ltb_spec (2 ^ 63 - 1) (- digitsValue s));
        try lia; reflexivity.
    + exact (Hbad true s Hs).
  - pose proof (spec_digits_cases (String c s)) as Hs.
    destruct (spec_digits (String c s)) as [v|].
    + destruct Hs as (Hne & Hd & ->).
      destruct (ParseInt_digits _ Hne Hd) as (P0 & _ & _).
      rewrite P0.
      pose proof (digitsValueFrom_ge _ Hd 0 ltac:(lia)) as Hpos.
      fold (digitsValue (String c s)) in Hpos.
      rewrite Hmin, Hmax.
      destruct (Z.ltb_spec (digitsValue (String c s)) (2 ^ 63));
        destruct (Z.ltb_spec (digitsValue (String c s)) (- 2 ^ 63));
        destruct (Z.ltb_spec (2 ^ 63 - 1) (digitsValue (String c s)));
        try lia; reflexivity.
    + unfold strconv.ParseInt.
      apply Ascii.eqb_neq in Hplus, Hminus; rewrite Hplus, Hminus.
      exact (Hbad false (String c s) Hs).
Qed.

(** ** Calendar dates *)

Lemma isLeap_spec (year : Z) : time.isLeap year = spec_leapYear year.
Proof.
  unfold time.isLeap, spec_leapYear.
  destruct (Z.eqb_spec (year mod 4) 0); destruct (Z.eqb_spec (year mod 100) 0);
    destruct (Z.eqb_spec (year mod 400) 0); cbn; try reflexivity;
    exfalso; Z.div_mod_to_equations; lia.
Qed.

Lemma month_cases (month : Z) :
  1 <= month <= 12 ->
  month = 1 \/ month = 2 \/ month = 3 \/ month = 4 \/ month = 5 \/ month = 6 \/
  month = 7 \/ month = 8 \/ month = 9 \/ month = 10 \/ month = 11 \/
  month = 12.
Proof. lia. Qed.

Lemma daysIn_spec (year month : Z) :
  1 <= month <= 12 -> time.daysIn month year = spec_monthLength year month.
Proof.
  intros Hm; unfold time.daysIn, spec_monthLength.
  rewrite isLeap_spec.
  destruct (month_cases month Hm)
    as [->|[->|[->|[->|[->|[->|[->|[->|[->|[->|[->| ->]]]]]]]]]]];
    reflexivity.
Qed.

Lemma daysSinceEpoch_spec (year : Z) :
  time.daysSinceEpoch year = 365 * (year - 1) + spec_leapDaysBefore year.
Proof.
  unfold time.daysSinceEpoch, spec_leapDaysBefore; cbv zeta.
  Z.div_mod_to_equations; lia.
Qed.

(** The days Go counts before a date are the days of the calendar. *)
Lemma Date_spec (year month day : Z) :
  1 <= month <= 12 ->
  time.Date year month day
  = time.mkTime (spec_daysSince1970 (year, month, day) * 86400) 0.
Proof.
  intros Hm; unfold time.Date, spec_daysSince1970; cbv zeta.
  rewrite daysSinceEpoch_spec, isLeap_spec.
  f_equal.
  assert (Hmonths :
    time.daysBefore (month - 1)
    + (if spec_leapYear year && (3 <=? month) then 1 else 0)
    = fold_right Z.add 0
        (map (fun k => spec_monthLength year (Z.of_nat k))
           (seq 1 (Z.to_nat month - 1)))).
  { destruct (month_cases month Hm)
      as [->|[->|[->|[->|[->|[->|[->|[->|[->|[->|[->| ->]]]]]]]]]]];
      unfold spec_monthLength; destruct (spec_leapYear year); reflexivity. }
  rewrite <- Hmonths.
  unfold time.secondsPerDay, time.unixToInternal, time.secondsPerDay.
  change (spec_leapDaysBefore 1970) with 477.
  change (1969 * 365 + 1969 / 4 - 1969 / 100 + 1969 / 400) with 719162.
  destruct (spec_leapYear year && (3 <=? month)); lia.
Qed.

Lemma digitsValue_2 (a b : ascii) :
  digitsValue (String a (String b EmptyString))
  = time.digit a * 10 + time.digit b.
Proof. unfold digitsValue, time.digit; cbn [digitsValueFrom]; lia. Qed.

Lemma digitsValue_4 (a b c d : ascii) :
  digitsValue (String a (String b (String c (String d EmptyString))))
  = ((time.digit a * 10 + time.digit b) * 10 + time.digit c) * 10
    + time.digit d.
Proof. unfold digitsValue, time.digit; cbn [digitsValueFrom]; lia. Qed.

(** On ten bytes, [time.Parse] with the layout [2006-01-02] accepts the
    calendar dates and nothing else. *)
Lemma ParseDate_spec (s : string) :
  String.length s = 10%nat ->
  time.ParseDate s
  = match spec_calendarDate s with
    | Some (year, month, day) => Some (time.Date year month day)
    | None => None
    end.
Proof.
  intros Hlen.
  do 10 (destruct s as [|? s]; [discriminate Hlen|]).
  destruct s; [clear Hlen|discriminate Hlen].
  unfold spec_calendarDate, time.ParseDate, time.getyear.
  cbn [String.length Nat.eqb andb String.substring isDigits].
  rewrite digitsValue_4, !digitsValue_2.
  change isDigit with time.isDigit.
  rewrite !andb_true_r.
  destruct (time.isDigit a); cbn [andb]; [|reflexivity].
  destruct (time.isDigit a0); cbn [andb]; [|reflexivity].
  destruct (time.isDigit a1); cbn [andb]; [|reflexivity].
  destruct (time.isDigit a2); cbn [andb]; [|reflexivity].
  unfold time.skip at 1.
  cbn [String.eqb].
  destruct (Ascii.eqb a3 "-"); cbn [andb]; [|reflexivity].
  unfold time.getnum at 1.
  destruct (time.isDigit a4); cbn [andb negb]; [|reflexivity].
  destruct (time.isDigit a5); cbn [andb negb]; [|reflexivity].
  set (year := ((time.digit a * 10 + time.digit a0) * 10 + time.digit a1) * 10
               + time.digit a2).
  set (month := time.digit a4 * 10 + time.digit a5).
  destruct (Ascii.eqb a6 "-") eqn:E6; cbn [andb].
  2:{ unfold time.skip; rewrite E6.
      destruct ((month <=? 0) || (12 <? month)); reflexivity. }
  destruct (time.isDigit a7) eqn:E7; cbn [andb].
  2:{ unfold time.skip, time.getnum; rewrite E6, E7; cbn [negb].
      destruct ((month <=? 0) || (12 <? month)); reflexivity. }
  destruct (time.isDigit a8) eqn:E8; cbn [andb].
  2:{ unfold time.skip, time.getnum; rewrite E6, E7, E8; cbn [negb].
      destruct ((month <=? 0) || (12 <? month)); reflexivity. }
  unfold time.skip, time.getnum; rewrite E6, E7, E8.
  cbn [negb String.length Nat.eqb].
  set (day := time.digit a7 * 10 + time.digit a8).
  destruct (Z.leb_spec month 0) as [H0|H0]; cbn [orb].
  { destruct (Z.leb_spec 1 month); [lia|reflexivity]. }
  destruct (Z.ltb_spec 12 month) as [H12|H12].
  { destruct (Z.leb_spec 1 month); destruct (Z.leb_spec month 12);
      try lia; reflexivity. }
  rewrite (daysIn_spec year month) by lia.
  destruct (Z.leb_spec 1 month); destruct (Z.leb_spec month 12); try lia.
  cbn [andb].
  destruct (Z.ltb_spec day 1); destruct (Z.leb_spec 1 day); try lia;
    cbn [andb orb]; [reflexivity|].
  destruct (Z.ltb_spec (spec_monthLength year month) day);
    destruct (Z.leb_spec day (spec_monthLength year month)); try lia;
    reflexivity.
Qed.

Lemma wrap_wrap (z : Z) : Int64.wrap (Int64.wrap z + 0) = Int64.wrap z.
Proof.
  unfold Int64.wrap; rewrite Z.add_0_r.
  replace ((z + 2 ^ 63) mod 2 ^ 64 - 2 ^ 63 + 2 ^ 63)
    with ((z + 2 ^ 63) mod 2 ^ 64) by lia.
  now rewrite Z.mod_mod by lia.
Qed.

(** The count of nanoseconds fits a 64-bit integer for the dates at most
    106751 days from the epoch. *)
Lemma midnight_in_range (date : Z * Z * Z) :
  Int64.in_range (spec_midnightUTC date)
  <-> -106751 <= spec_daysSince1970 date <= 106751.
Proof.
  unfold Int64.in_range, spec_midnightUTC, Int64.MinInt64, Int64.MaxInt64.
  lia.
Qed.

Lemma spec_calendarDate_valid (s : string) (year month day : Z) :
  spec_calendarDate s = Some (year, month, day) ->
  1 <= month <= 12 /\ 1 <= day <= spec_monthLength year month.
Proof.
  unfold spec_calendarDate.
  destruct (_ && _ && _ && _ && _ && _); [|discriminate].
  cbv zeta.
  destruct (_ && _ && _ && _) eqn:E; [|discriminate].
  intros [= <- <- <-].
  repeat (apply andb_true_iff in E; destruct E as [E ?]).
  repeat match goal with
         | H : (_ <=? _) = true |- _ => apply Z.leb_le in H
         end.
  lia.
Qed.

Lemma spec_shape_date (s : string) :
  spec_shape s = ShapeDate -> String.length s = 10%nat.
Proof.
  unfold spec_shape; cbv zeta.
  destruct (_ || _); [discriminate|].
  destruct (Nat.eqb_spec (String.length s) 10); [easy|discriminate].
Qed.




(** * The import handlers of vmagent *)

Section PushBuffers.

Context {float64 : Type}.

Let tagLabel (tag : vmagent.Tag) : prompbmarshal.Label :=
  prompbmarshal.mkLabel (vmagent.Key tag) (vmagent.tagValue tag).

Let pairSample (vt : float64 * Z) : prompbmarshal.Sample float64 :=
  prompbmarshal.mkSample (fst vt) (snd vt).

Lemma appendTags_map (tags : list vmagent.Tag) :
  forall labels : list prompbmarshal.Label,
    vmagent.appendTags labels tags = labels ++ map tagLabel tags.
Proof.
  induction tags as [|tag tags IH]; intros labels;
    cbn [vmagent.appendTags map].
  - now rewrite app_nil_r.
  - now rewrite IH, <- app_assoc.
Qed.

Lemma nth_error_skipn (timestamps : list Z) :
  forall j : nat,
    (j < List.length timestamps)%nat ->
    exists t : Z,
      nth_error timestamps j = Some t /\
      skipn j timestamps = t :: skipn (S j) timestamps.
Proof.
  induction timestamps as [|t0 ts IH]; intros j Hj; cbn [List.length] in Hj;
    [lia|].
  destruct j as [|j]; [now exists t0|].
  destruct (IH j ltac:(lia)) as (t & Hnth & Hskip).
  exists t; split; [exact Hnth|exact Hskip].
Qed.

(** The sample loop pairs each value with the timestamp of its index; with
    as many timestamps left as values, no index is out of range. *)
Lemma appendSamples_combine (values : list float64) (timestamps : list Z) :
  forall (j : nat) (samples : list (prompbmarshal.Sample float64)),
    List.length timestamps = (j + List.length values)%nat ->
    vmagent.appendSamples samples values timestamps j
    = Some (samples
            ++ map pairSample (combine values (skipn j timestamps))).
Proof.
  induction values as [|value values IH]; intros j samples Hlen;
    cbn [vmagent.appendSamples List.length] in *.
  - cbn [combine map]; now rewrite app_nil_r.
  - destruct (nth_error_skipn timestamps j ltac:(lia)) as (t & Hnth & Hskip).
    rewrite Hnth, Hskip, (IH (S j)) by lia.
    cbn [combine map]; now rewrite <- app_assoc.
Qed.

Lemma skipn_length_app {A : Type} (l1 l2 : list A) :
  skipn (List.length l1) (l1 ++ l2) = l2.
Proof. induction l1 as [|a l1 IH]; [reflexivity|exact IH]. Qed.

Lemma rowsInsertedTotal_countRows (at_ : option vmagent.Token) (n : Z)
    (evs : list (vmagent.Event float64)) :
  rowsInsertedTotal (vmagent.countRows at_ n ++ evs)
  = n + rowsInsertedTotal evs.
Proof. destruct at_; reflexivity. Qed.

Lemma pushedRequests_countRows (at_ : option vmagent.Token) (n : Z)
    (evs : list (vmagent.Event float64)) :
  pushedRequests (vmagent.countRows at_ n ++ evs) = pushedRequests evs.
Proof. destruct at_; reflexivity. Qed.

Lemma rowsTenantInsertedTotal_countRows (t : vmagent.Token) (n : Z)
    (evs : list (vmagent.Event float64)) :
  rowsTenantInsertedTotal t (vmagent.countRows (Some t) n ++ evs)
  = n + rowsTenantInsertedTotal t evs.
Proof.
  cbn [vmagent.countRows app rowsTenantInsertedTotal].
  now rewrite !Z.eqb_refl.
Qed.

Lemma sampleCount_app (tss1 tss2 : list (prompbmarshal.TimeSeries float64)) :
  sampleCount (tss1 ++ tss2) = sampleCount tss1 + sampleCount tss2.
Proof.
  unfold sampleCount; rewrite map_app, concat_app, length_app; lia.
Qed.

Variable extraLabels : list prompbmarshal.Label.

(** The loop on rows whose timestamps match their values: one series per
    row, each cut from the end of the two buffers. *)
Lemma insertRows_loop_shaped (rows : list (vmimport.Row float64)) :
  forallb rowShaped rows = true ->
  forall acc : vmagent.Locals float64,
    vmimport.insertRows_loop rows extraLabels acc
    = inr (vmagent.mkLocals
             (vmagent.rowsTotal acc
              + sampleCount (map (seriesOfRow extraLabels) rows))
             (vmagent.tssDst acc ++ map (seriesOfRow extraLabels) rows)
             (vmagent.labels acc
              ++ List.concat (map prompbmarshal.Labels
                                (map (seriesOfRow extraLabels) rows)))
             (vmagent.samples acc
              ++ List.concat (map prompbmarshal.Samples
                                (map (seriesOfRow extraLabels) rows)))).
Proof.
  induction rows as [|r rows IH]; intros Hs acc;
    cbn [vmimport.insertRows_loop map List.concat].
  - unfold sampleCount; cbn [map List.concat List.length Z.of_nat].
    rewrite Z.add_0_r, !app_nil_r; now destruct acc.
  - cbn [forallb] in Hs; apply andb_true_iff in Hs; destruct Hs as [Hr Hs].
    unfold rowShaped in Hr; cbv zeta; rewrite Hr; cbn [negb].
    apply Nat.eqb_eq in Hr.
    rewrite (appendSamples_combine _ _ 0%nat) by (cbn [Nat.add]; exact Hr).
    cbn [skipn]; rewrite appendTags_map, <- app_assoc.
    rewrite !skipn_length_app, IH by exact Hs.
    cbn [vmagent.rowsTotal vmagent.tssDst vmagent.labels vmagent.samples].
    fold (seriesOfRow extraLabels r).
    change (seriesOfRow extraLabels r :: map (seriesOfRow extraLabels) rows)
      with ([seriesOfRow extraLabels r]
            ++ map (seriesOfRow extraLabels) rows).
    rewrite sampleCount_app, <- !app_assoc.
    assert (Hcount : sampleCount [seriesOfRow extraLabels r]
                     = Z.of_nat (List.length (vmimport.Values r))).
    { unfold sampleCount; cbn [map List.concat seriesOfRow
                                 prompbmarshal.Samples].
      rewrite app_nil_r, length_map, length_combine, Hr, Nat.min_id.
      reflexivity. }
    rewrite Hcount, Z.add_assoc; do 2 f_equal.
    change (prompbmarshal.Labels (seriesOfRow extraLabels r))
      with (map tagLabel (vmimport.Tags r) ++ extraLabels).
    now rewrite <- app_assoc.
Qed.

(** The loop stops with the panic of the first row whose timestamps do not
    match its values in number. *)
Lemma insertRows_loop_mismatch (good rest : list (vmimport.Row float64))
    (bad : vmimport.Row float64) :
  forallb rowShaped good = true ->
  rowShaped bad = false ->
  forall acc : vmagent.Locals float64,
    vmimport.insertRows_loop (good ++ bad :: rest) extraLabels acc
    = inl (vmagent.LengthMismatch
             (Z.of_nat (List.length (vmimport.Timestamps bad)))
             (Z.of_nat (List.length (vmimport.Values bad)))).
Proof.
  induction good as [|r good IH]; intros Hs Hbad acc;
    cbn [app vmimport.insertRows_loop].
  - unfold rowShaped in Hbad; cbv zeta; now rewrite Hbad.
  - cbn [forallb] in Hs; apply andb_true_iff in Hs; destruct Hs as [Hr Hs].
    unfold rowShaped in Hr; cbv zeta; rewrite Hr; cbn [negb].
    apply Nat.eqb_eq in Hr.
    rewrite (appendSamples_combine _ _ 0%nat) by (cbn [Nat.add]; exact Hr).
    now apply IH.
Qed.

End PushBuffers.

(** The request the import handler builds.  For rows whose timestamps match
    their values in number, [insertRows] hands exactly one request to
    [remotewrite.TryPush]: one series per row, in the order of the rows,
    labelled with the row's tags followed by the extra labels and holding
    the row's values paired with their timestamps.  The two buffers of the
    context are tiled by the series, whatever the pooled context held
    before; the call returns the queue-full error exactly when the push is
    refused, and the context goes back to the pool either way. *)
Theorem vmimport_request :
  forall (float64 : Type)
         (TryPush : option vmagent.Token ->
                    list (prompbmarshal.TimeSeries float64) -> bool)
         (at_ : option vmagent.Token) (rows : list (vmimport.Row float64))
         (extraLabels : list prompbmarshal.Label)
         (ctx : vmagent.PushCtx float64),
    forallb rowShaped rows = true ->
    let tss := map (seriesOfRow extraLabels) rows in
    exists (ctx' : vmagent.PushCtx float64)
           (evs : list (vmagent.Event float64)),
      vmimport.insertRows TryPush at_ rows extraLabels ctx
      = (vmagent.Returned
           (if TryPush at_ tss then None
            else Some vmagent.ErrQueueFullHTTPRetry), Some ctx', evs) /\
      pushedRequests evs = [tss] /\
      vmagent.Timeseries ctx' = tss /\
      vmagent.ctxLabels ctx' = List.concat (map prompbmarshal.Labels tss) /\
      vmagent.ctxSamples ctx' = List.concat (map prompbmarshal.Samples tss) /\
      hd_error evs = Some vmagent.GetPushCtx /\
      last evs vmagent.GetPushCtx = vmagent.PutPushCtx.
Proof.
  intros float64 TryPush at_ rows extraLabels ctx Hs tss.
  unfold vmimport.insertRows; cbv zeta.
  rewrite (insertRows_loop_shaped extraLabels rows Hs).
  cbn [firstn app vmagent.tssDst vmagent.labels vmagent.samples
         vmagent.rowsTotal vmagent.Timeseries].
  fold tss.
  destruct (TryPush at_ tss); cbn [negb]; eexists _, _;
    (split; [reflexivity|]); cbn [pushedRequests];
    rewrite ?pushedRequests_countRows; repeat split.
  destruct at_; reflexivity.
Qed.

Lemma vmimport_request_witness :
  let rows :=
    [vmimport.mkRow [vmagent.mkTag "job" "a"] [10; 11] [1000; 2000];
     vmimport.mkRow [] [] [];
     vmimport.mkRow [vmagent.mkTag "job" "b"] [12] [3000]] in
  let extra := [prompbmarshal.mkLabel "dc" "x"] in
  let tss :=
    [prompbmarshal.mkTimeSeries
       [prompbmarshal.mkLabel "job" "a"; prompbmarshal.mkLabel "dc" "x"]
       [prompbmarshal.mkSample 10 1000; prompbmarshal.mkSample 11 2000];
     prompbmarshal.mkTimeSeries [prompbmarshal.mkLabel "dc" "x"] [];
     prompbmarshal.mkTimeSeries
       [prompbmarshal.mkLabel "job" "b"; prompbmarshal.mkLabel "dc" "x"]
       [prompbmarshal.mkSample 12 3000]] in
  exists (ctx' : vmagent.PushCtx Z) (evs : list (vmagent.Event Z)),
    vmimport.insertRows (fun _ _ => false) None rows extra
      (vmagent.mkPushCtx tss [] [prompbmarshal.mkSample 7 7])
    = (vmagent.Returned (Some vmagent.ErrQueueFullHTTPRetry), Some ctx', evs)
    /\
    pushedRequests evs = [tss] /\
    vmagent.ctxSamples ctx'
    = [prompbmarshal.mkSample 10 1000; prompbmarshal.mkSample 11 2000;
       prompbmarshal.mkSample 12 3000].
Proof.
  intros rows extra tss.
  destruct (vmimport_request Z (fun _ _ => false) None rows extra
              (vmagent.mkPushCtx tss [] [prompbmarshal.mkSample 7 7])
              eq_refl)
    as (ctx' & evs & Hrun & Hpush & _ & _ & Hsamples & _).
  exists ctx', evs; split; [exact Hrun|]; split; [exact Hpush|exact Hsamples].
Defined.

(** The import counters follow the push.  For rows whose timestamps match
    their values in number, [vmagent_rows_inserted_total] and the counter of
    the request's tenant grow by the number of samples of the request when
    the push is accepted, and not at all when it is refused. *)
Theorem vmimport_counts_after_push :
  forall (float64 : Type)
         (TryPush : option vmagent.Token ->
                    list (prompbmarshal.TimeSeries float64) -> bool)
         (at_ : option vmagent.Token) (rows : list (vmimport.Row float64))
         (extraLabels : list prompbmarshal.Label)
         (ctx : vmagent.PushCtx float64),
    forallb rowShaped rows = true ->
    let tss := map (seriesOfRow extraLabels) rows in
    let evs := snd (vmimport.insertRows TryPush at_ rows extraLabels ctx) in
    let counted := if TryPush at_ tss then sampleCount tss else 0 in
    rowsInsertedTotal evs = counted /\
    (forall t : vmagent.Token,
        at_ = Some t -> rowsTenantInsertedTotal t evs = counted) /\
    sampleCount tss
    = Z.of_nat (List.length (List.concat (map (@vmimport.Values _) rows))).
Proof.
  intros float64 TryPush at_ rows extraLabels ctx Hs tss evs counted.
  subst evs counted; unfold vmimport.insertRows; cbv zeta.
  rewrite (insertRows_loop_shaped extraLabels rows Hs).
  cbn [firstn app vmagent.tssDst vmagent.labels vmagent.samples
         vmagent.rowsTotal vmagent.Timeseries].
  fold tss.
  split; [|split].
  - destruct (TryPush at_ tss); cbn [negb snd]; [|reflexivity].
    cbn [app rowsInsertedTotal].
    rewrite rowsInsertedTotal_countRows; cbn [rowsInsertedTotal]; lia.
  - intros t ->.
    destruct (TryPush (Some t) tss); cbn [negb snd]; [|reflexivity].
    cbn [app rowsTenantInsertedTotal].
    rewrite rowsTenantInsertedTotal_countRows;
      cbn [rowsTenantInsertedTotal]; lia.
  - subst tss; clear -Hs; unfold sampleCount; f_equal.
    induction rows as [|r rows IH]; [reflexivity|].
    cbn [forallb] in Hs; apply andb_true_iff in Hs; destruct Hs as [Hr Hs].
    apply Nat.eqb_eq in Hr.
    cbn [map List.concat seriesOfRow prompbmarshal.Samples].
    rewrite !length_app, (IH Hs), length_map, length_combine, Hr,
      Nat.min_id.
    reflexivity.
Qed.

Lemma vmimport_counts_after_push_witness :
  let rows :=
    [vmimport.mkRow [vmagent.mkTag "job" "a"] [10; 11] [1000; 2000];
     vmimport.mkRow [vmagent.mkTag "job" "b"] [12] [3000]] in
  let t := vmagent.mkToken 3 4 in
  rowsInsertedTotal
    (snd (vmimport.insertRows (fun _ _ => true) (Some t) rows []
            (vmagent.mkPushCtx [] [] []))) = 3 /\
  rowsTenantInsertedTotal t
    (snd (vmimport.insertRows (fun _ _ => true) (Some t) rows []
            (vmagent.mkPushCtx [] [] []))) = 3 /\
  rowsInsertedTotal
    (snd (vmimport.insertRows (fun _ _ => false) (Some t) rows []
            (vmagent.mkPushCtx [] [] []))) = 0.
Proof.
  intros rows t.
  destruct (vmimport_counts_after_push Z (fun _ _ => true) (Some t) rows []
              (vmagent.mkPushCtx [] [] []) eq_refl) as (H1 & H2 & _).
  destruct (vmimport_counts_after_push Z (fun _ _ => false) (Some t) rows []
              (vmagent.mkPushCtx [] [] []) eq_refl) as (H3 & _ & _).
  split; [exact H1|]; split; [exact (H2 t eq_refl)|exact H3].
Defined.

(** A malformed row stops the whole call.  When some row has a number of
    timestamps other than its number of values, [insertRows] panics at the
    first such row with the two lengths: nothing is pushed, not even the
    rows before it, no counter moves, and the deferred [PutPushCtx] still
    runs.  (What the appends made before the check have left in the arrays
    of the context is not modelled.)  The index expression [timestamps[j]]
    is never out of range, for any rows. *)
Theorem vmimport_mismatch_panics :
  forall (float64 : Type)
         (TryPush : option vmagent.Token ->
                    list (prompbmarshal.TimeSeries float64) -> bool)
         (at_ : option vmagent.Token)
         (extraLabels : list prompbmarshal.Label)
         (ctx : vmagent.PushCtx float64),
    (forall (good rest : list (vmimport.Row float64))
            (bad : vmimport.Row float64),
        forallb rowShaped good = true ->
        rowShaped bad = false ->
        vmimport.insertRows TryPush at_ (good ++ bad :: rest) extraLabels ctx
        = (vmagent.Panicked, None,
           [vmagent.GetPushCtx;
            vmagent.Panicf
              (Z.of_nat (List.length (vmimport.Timestamps bad)))
              (Z.of_nat (List.length (vmimport.Values bad)));
            vmagent.PutPushCtx])) /\
    (forall (rows : list (vmimport.Row float64))
            (acc : vmagent.Locals float64),
        vmimport.insertRows_loop rows extraLabels acc
        <> inl vmagent.IndexOutOfRange).
Proof.
  intros float64 TryPush at_ extraLabels ctx; split.
  - intros good rest bad Hgood Hbad.
    unfold vmimport.insertRows; cbv zeta.
    now rewrite (insertRows_loop_mismatch extraLabels good rest bad Hgood
                   Hbad).
  - intros rows; induction rows as [|r rows IH]; intros acc;
      cbn [vmimport.insertRows_loop]; [discriminate|].
    cbv zeta.
    destruct (Nat.eqb_spec (List.length (vmimport.Timestamps r))
                (List.length (vmimport.Values r))) as [Hr|Hr];
      cbn [negb]; [|discriminate].
    rewrite (appendSamples_combine _ _ 0%nat) by (cbn [Nat.add]; exact Hr).
    apply IH.
Qed.

Lemma vmimport_mismatch_panics_witness :
  vmimport.insertRows (fun _ _ => true) None
    ([vmimport.mkRow [vmagent.mkTag "job" "a"] [10] [1000]]
     ++ vmimport.mkRow [] [11; 12] [2000] :: [])
    [] (vmagent.mkPushCtx [] [] [])
  = (vmagent.Panicked, None,
     [vmagent.GetPushCtx; vmagent.Panicf 1 2; vmagent.PutPushCtx]).
Proof.
  exact (proj1 (vmimport_mismatch_panics Z (fun _ _ => true) None []
                  (vmagent.mkPushCtx [] [] []))
           [vmimport.mkRow [vmagent.mkTag "job" "a"] [10] [1000]] []
           (vmimport.mkRow [] [11; 12] [2000]) eq_refl eq_refl).
Defined.

(** The request the native handler builds.  For a block whose timestamps
    match its values in number, [insertRows] hands exactly one request to
    [remotewrite.TryPush], of a single series: its labels are [__name__]
    with the metric group, then the tags of the metric name, then the extra
    labels; its samples are the values paired with their timestamps.  The
    call returns the queue-full error exactly when the push is refused. *)
Theorem native_request :
  forall (float64 : Type)
         (TryPush : option vmagent.Token ->
                    list (prompbmarshal.TimeSeries float64) -> bool)
         (at_ : option vmagent.Token) (block : native.Block float64)
         (extraLabels : list prompbmarshal.Label)
         (ctx : vmagent.PushCtx float64),
    List.length (native.Timestamps block)
    = List.length (native.Values block) ->
    let tss := [seriesOfBlock extraLabels block] in
    exists (ctx' : vmagent.PushCtx float64)
           (evs : list (vmagent.Event float64)),
      native.insertRows TryPush at_ block extraLabels ctx
      = (vmagent.Returned
           (if TryPush at_ tss then None
            else Some vmagent.ErrQueueFullHTTPRetry), Some ctx', evs) /\
      pushedRequests evs = [tss] /\
      vmagent.Timeseries ctx' = tss /\
      vmagent.ctxLabels ctx' = List.concat (map prompbmarshal.Labels tss) /\
      vmagent.ctxSamples ctx' = List.concat (map prompbmarshal.Samples tss) /\
      hd_error evs = Some vmagent.GetPushCtx /\
      last evs vmagent.GetPushCtx = vmagent.PutPushCtx.
Proof.
  intros float64 TryPush at_ block extraLabels ctx Hlen tss.
  unfold native.insertRows; cbv zeta.
  rewrite (proj2 (Nat.eqb_eq _ _) Hlen); cbn [negb firstn app List.length].
  rewrite (appendSamples_combine _ _ 0%nat) by (cbn [Nat.add]; exact Hlen).
  rewrite appendTags_map; cbn [skipn app vmagent.Timeseries].
  change [prompbmarshal.mkTimeSeries _ _] with tss.
  destruct (TryPush at_ tss); cbn [negb]; eexists _, _;
    (split; [reflexivity|]); cbn [pushedRequests];
    rewrite ?pushedRequests_countRows;
    (split; [reflexivity|]); cbn [vmagent.Timeseries vmagent.ctxLabels
      vmagent.ctxSamples tss map List.concat seriesOfBlock
      prompbmarshal.Labels prompbmarshal.Samples];
    rewrite ?app_nil_r; repeat split; destruct at_; reflexivity.
Qed.

Lemma native_request_witness :
  let block :=
    native.mkBlock (native.mkMetricName "up" [vmagent.mkTag "job" "a"])
      [10; 11] [1000; 2000] in
  let tss :=
    [prompbmarshal.mkTimeSeries
       [prompbmarshal.mkLabel "__name__" "up";
        prompbmarshal.mkLabel "job" "a"; prompbmarshal.mkLabel "dc" "x"]
       [prompbmarshal.mkSample 10 1000; prompbmarshal.mkSample 11 2000]] in
  exists (ctx' : vmagent.PushCtx Z) (evs : list (vmagent.Event Z)),
    native.insertRows (fun _ _ => true) None block
      [prompbmarshal.mkLabel "dc" "x"] (vmagent.mkPushCtx [] [] [])
    = (vmagent.Returned None, Some ctx', evs) /\
    pushedRequests evs = [tss].
Proof.
  intros block tss.
  destruct (native_request Z (fun _ _ => true) None block
              [prompbmarshal.mkLabel "dc" "x"] (vmagent.mkPushCtx [] [] [])
              eq_refl)
    as (ctx' & evs & Hrun & Hpush & _).
  exists ctx', evs; split; [exact Hrun|exact Hpush].
Defined.

(** The native counters run ahead of the push.  For every block,
    [vmagent_rows_inserted_total] and the counter of the request's tenant
    grow by the number of values of the block, whether the push is accepted
    or refused and even when the call panics on mismatched lengths; in that
    last case nothing is pushed and the deferred [PutPushCtx] still runs.
    (What the appends made before the check have left in the arrays of the
    context is not modelled.) *)
Theorem native_counts_before_push :
  forall (float64 : Type)
         (TryPush : option vmagent.Token ->
                    list (prompbmarshal.TimeSeries float64) -> bool)
         (at_ : option vmagent.Token) (block : native.Block float64)
         (extraLabels : list prompbmarshal.Label)
         (ctx : vmagent.PushCtx float64),
    let res := native.insertRows TryPush at_ block extraLabels ctx in
    let rowsLen := Z.of_nat (List.length (native.Values block)) in
    rowsInsertedTotal (snd res) = rowsLen /\
    (forall t : vmagent.Token,
        at_ = Some t -> rowsTenantInsertedTotal t (snd res) = rowsLen) /\
    (List.length (native.Timestamps block)
     <> List.length (native.Values block) ->
     fst (fst res) = vmagent.Panicked /\
     pushedRequests (snd res) = [] /\
     last (snd res) vmagent.GetPushCtx = vmagent.PutPushCtx).
Proof.
  intros float64 TryPush at_ block extraLabels ctx res rowsLen.
  subst res rowsLen; unfold native.insertRows; cbv zeta.
  destruct (Nat.eqb_spec (List.length (native.Timestamps block))
              (List.length (native.Values block))) as [Hlen|Hlen];
    cbn [negb].
  - rewrite (appendSamples_combine _ _ 0%nat) by (cbn [Nat.add]; exact Hlen).
    split; [|split]; [| |contradiction].
    + destruct (TryPush at_ _); cbn [negb snd app rowsInsertedTotal];
        rewrite rowsInsertedTotal_countRows; cbn [rowsInsertedTotal]; lia.
    + intros t ->.
      destruct (TryPush (Some t) _);
        cbn [negb snd app rowsTenantInsertedTotal];
        rewrite rowsTenantInsertedTotal_countRows;
        cbn [rowsTenantInsertedTotal]; lia.
  - cbn [fst snd app rowsInsertedTotal rowsTenantInsertedTotal
           pushedRequests].
    split; [|split].
    + rewrite rowsInsertedTotal_countRows; cbn [rowsInsertedTotal]; lia.
    + intros t ->.
      rewrite rowsTenantInsertedTotal_countRows;
        cbn [rowsTenantInsertedTotal]; lia.
    + intros _; rewrite pushedRequests_countRows.
      repeat split; destruct at_; reflexivity.
Qed.

Lemma native_counts_before_push_witness :
  let block :=
    native.mkBlock (native.mkMetricName "up" []) [10; 11] [1000] in
  let res :=
    native.insertRows (fun _ _ => true) (Some (vmagent.mkToken 3 4)) block []
      (vmagent.mkPushCtx [] [] []) in
  fst (fst res) = vmagent.Panicked /\
  rowsInsertedTotal (snd res) = 2 /\
  rowsTenantInsertedTotal (vmagent.mkToken 3 4) (snd res) = 2 /\
  pushedRequests (snd res) = [].
Proof.
  intros block res.
  destruct (native_counts_before_push Z (fun _ _ => true)
              (Some (vmagent.mkToken 3 4)) block []
              (vmagent.mkPushCtx [] [] [])) as (H1 & H2 & H3).
  destruct (H3 ltac:(discriminate)) as (Hp & Hq & _).
  split; [exact Hp|]; split; [exact H1|]; split;
    [exact (H2 _ eq_refl)|exact Hq].
Defined.

(** * The facets response *)

(** ** The order of strings *)

Lemma string_lt_trans (s1 : string) :
  forall s2 s3 : string,
    String.compare s1 s2 = Lt -> String.compare s2 s3 = Lt ->
    String.compare s1 s3 = Lt.
Proof.
  induction s1 as [|c1 s1 IH]; intros [|c2 s2] [|c3 s3] H12 H23;
    cbn [String.compare] in *; try discriminate; try reflexivity.
  unfold Ascii.compare in *.
  destruct (N.compare_spec (N_of_ascii c1) (N_of_ascii c2)) as [E12|L12|G12];
    try discriminate;
    destruct (N.compare_spec (N_of_ascii c2) (N_of_ascii c3))
      as [E23|L23|G23]; try discriminate.
  - assert (E : (N_of_ascii c1 ?= N_of_ascii c3)%N = Eq)
      by (apply N.compare_eq_iff; congruence).
    rewrite E; exact (IH s2 s3 H12 H23).
  - assert (E : (N_of_ascii c1 ?= N_of_ascii c3)%N = Lt)
      by (apply N.compare_lt_iff; lia).
    now rewrite E.
  - assert (E : (N_of_ascii c1 ?= N_of_ascii c3)%N = Lt)
      by (apply N.compare_lt_iff; lia).
    now rewrite E.
  - assert (E : (N_of_ascii c1 ?= N_of_ascii c3)%N = Lt)
      by (apply N.compare_lt_iff; lia).
    now rewrite E.
Qed.

Lemma string_leb_trans (s1 s2 s3 : string) :
  String.leb s1 s2 = true -> String.leb s2 s3 = true ->
  String.leb s1 s3 = true.
Proof.
  unfold String.leb; intros H12 H23.
  destruct (String.compare s1 s2) eqn:E12; try discriminate.
  - apply String.compare_eq_iff in E12; now subst s2.
  - destruct (String.compare s2 s3) eqn:E23; try discriminate.
    + apply String.compare_eq_iff in E23; subst s3; now rewrite E12.
    + now rewrite (string_lt_trans s1 s2 s3 E12 E23).
Qed.

Lemma string_leb_false (s1 s2 : string) :
  String.leb s1 s2 = false -> String.leb s2 s1 = true.
Proof.
  intros H; destruct (String.leb_total s1 s2) as [H'|H']; congruence.
Qed.

(** ** Sorting *)

Lemma insertSorted_comm (x y : string) (l : list string) :
  Facets.insertSorted x (Facets.insertSorted y l)
  = Facets.insertSorted y (Facets.insertSorted x l).
Proof.
  induction l as [|a l IH]; cbn [Facets.insertSorted].
  - destruct (String.leb x y) eqn:Exy; destruct (String.leb y x) eqn:Eyx;
      try reflexivity.
    + now rewrite (String.leb_antisym x y Exy Eyx).
    + apply string_leb_false in Exy; congruence.
  - destruct (String.leb y a) eqn:Eya; destruct (String.leb x a) eqn:Exa;
      cbn [Facets.insertSorted]; rewrite ?Eya, ?Exa;
      [ | | | now rewrite IH];
      destruct (String.leb x y) eqn:Exy; destruct (String.leb y x) eqn:Eyx;
      cbn [Facets.insertSorted]; rewrite ?Eya, ?Exa, ?Exy, ?Eyx;
      try reflexivity;
      try (rewrite (String.leb_antisym x y Exy Eyx); reflexivity);
      try (apply string_leb_false in Exy; congruence);
      try (pose proof (string_leb_trans x y a Exy Eya); congruence);
      try (pose proof (string_leb_trans y x a Eyx Exa); congruence).
Qed.

(** Sorting forgets the order of its input. *)
Lemma slices_Sort_Permutation (l1 l2 : list string) :
  Permutation l1 l2 -> Facets.slices_Sort l1 = Facets.slices_Sort l2.
Proof.
  induction 1 as [|x l1 l2 _ IH|x y l|l1 l2 l3 _ IH1 _ IH2];
    cbn [Facets.slices_Sort].
  - reflexivity.
  - now rewrite IH.
  - apply insertSorted_comm.
  - now rewrite IH1.
Qed.

Lemma insertSorted_Permutation (k : string) (l : list string) :
  Permutation (k :: l) (Facets.insertSorted k l).
Proof.
  induction l as [|a l IH]; cbn [Facets.insertSorted]; [reflexivity|].
  destruct (String.leb k a); [reflexivity|].
  rewrite perm_swap; now apply perm_skip.
Qed.

Lemma slices_Sort_is_Permutation (l : list string) :
  Permutation l (Facets.slices_Sort l).
Proof.
  induction l as [|k l IH]; cbn [Facets.slices_Sort]; [reflexivity|].
  rewrite <- insertSorted_Permutation; now apply perm_skip.
Qed.

Lemma insertSorted_sorted (k : string) (l : list string) :
  StronglySorted (fun a b => String.leb a b = true) l ->
  StronglySorted (fun a b => String.leb a b = true)
    (Facets.insertSorted k l).
Proof.
  induction 1 as [|a l Hs IH Ha]; cbn [Facets.insertSorted].
  - constructor; constructor.
  - destruct (String.leb k a) eqn:Eka.
    + constructor; [now constructor|].
      constructor; [exact Eka|].
      apply (Forall_impl _ (fun b Hb => string_leb_trans k a b Eka Hb) Ha).
    + constructor; [exact IH|].
      apply (Permutation_Forall (insertSorted_Permutation k l)).
      constructor; [now apply string_leb_false|exact Ha].
Qed.

Lemma slices_Sort_sorted (l : list string) :
  StronglySorted (fun a b => String.leb a b = true) (Facets.slices_Sort l).
Proof.
  induction l as [|k l IH]; cbn [Facets.slices_Sort]; [constructor|].
  now apply insertSorted_sorted.
Qed.

(** ** Lookups *)

Lemma lookup_Permutation (m1 m2 : Facets.FacetMap) :
  Permutation m1 m2 -> NoDup (map fst m1) ->
  forall k : string, Facets.lookup m1 k = Facets.lookup m2 k.
Proof.
  induction 1 as [|[k0 fes0] m1 m2 _ IH|[k1 fes1] [k2 fes2] m
                 |m1 m2 m3 H12 IH1 _ IH2]; intros Hnd k.
  - reflexivity.
  - cbn [Facets.lookup]; cbn [map fst] in Hnd.
    rewrite IH; [reflexivity|now inversion Hnd].
  - cbn [Facets.lookup]; cbn [map fst] in Hnd.
    destruct (String.eqb_spec k k2) as [->|]; [|reflexivity].
    destruct (String.eqb_spec k2 k1) as [->|]; [|reflexivity].
    inversion Hnd as [|? ? Hin _]; subst.
    exfalso; apply Hin; now left.
  - rewrite IH1 by exact Hnd; apply IH2.
    exact (Permutation_NoDup (Permutation_map fst H12) Hnd).
Qed.

(** A loop that writes a comma before every item but the first writes the
    items separated by commas. *)
Lemma writeEach_join {A : Type} (body : A -> string) (x : A) (l : list A) :
  String.append (body x)
    (Facets.writeEach (fun y => String.append "," (body y)) l)
  = String.concat "," (map body (x :: l)).
Proof.
  revert x; induction l as [|y l IH]; intros x.
  - cbn [Facets.writeEach map String.concat].
    induction (body x) as [|c s IHs]; [reflexivity|].
    cbn [String.append]; now rewrite IHs.
  - change (String.concat "," (map body (x :: y :: l)))
      with (String.append (body x)
              (String.append "," (String.concat "," (map body (y :: l))))).
    rewrite <- IH; reflexivity.
Qed.

(** The response does not depend on the order in which Go iterates over the
    map: two enumerations of the same bindings (each key bound once) render
    to the same bytes. *)
Theorem FacetsResponse_order_independent :
  forall (Q : string -> string) (m1 m2 : Facets.FacetMap),
    NoDup (map fst m1) ->
    Permutation m1 m2 ->
    Facets.FacetsResponse Q m1 = Facets.FacetsResponse Q m2.
Proof.
  intros Q m1 m2 Hnd Hperm.
  unfold Facets.FacetsResponse; cbv zeta.
  rewrite (slices_Sort_Permutation _ _ (Permutation_map fst Hperm)).
  assert (Hline : forall k : string,
             Facets.facetsLine Q m1 k = Facets.facetsLine Q m2 k).
  { intros k; unfold Facets.facetsLine; cbv zeta.
    now rewrite (lookup_Permutation m1 m2 Hperm Hnd k). }
  assert (Heach : forall rest : list string,
             Facets.writeEach
               (fun k => String.append "," (Facets.facetsLine Q m1 k)) rest
             = Facets.writeEach
                 (fun k => String.append "," (Facets.facetsLine Q m2 k))
                 rest).
  { induction rest as [|k rest IH]; [reflexivity|].
    cbn [Facets.writeEach]; now rewrite Hline, IH. }
  destruct (Facets.slices_Sort (map fst m2)) as [|k0 rest]; [reflexivity|].
  now rewrite Hline, Heach.
Qed.

Lemma FacetsResponse_order_independent_witness :
  let a := [Facets.mkFacetEntry "x" "3"; Facets.mkFacetEntry "y" "1"] in
  let b := [Facets.mkFacetEntry "z" "7"] in
  Facets.FacetsResponse quoted [("host", a); ("app", b)]
  = Facets.FacetsResponse quoted [("app", b); ("host", a)].
Proof.
  intros a b.
  apply FacetsResponse_order_independent; [|apply perm_swap].
  constructor; [intros [H|[]]; discriminate H|].
  constructor; [intros []|constructor].
Defined.

(** The shape of the response.  The facets are listed once per key of the
    map, in ascending byte-wise order of the keys, separated by single
    commas with none before the first or after the last; within a facet the
    entries of the key follow in their stored order, separated the same
    way. *)
Theorem FacetsResponse_sorted_join :
  forall (Q : string -> string) (m : Facets.FacetMap),
    let keys := Facets.slices_Sort (map fst m) in
    Permutation (map fst m) keys /\
    StronglySorted (fun a b => String.leb a b = true) keys /\
    Facets.FacetsResponse Q m
    = Facets.write
        ["{"; quoted "facets"; ":[";
         String.concat "," (map (Facets.facetsLine Q m) keys); "]"; "}"] /\
    (forall k : string,
        Facets.facetsLine Q m k
        = Facets.write
            ["{"; quoted "field_name"; ":"; Q k; ","; quoted "values"; ":[";
             String.concat "," (map (Facets.facetLine Q) (Facets.lookup m k));
             "]"; "}"]).
Proof.
  intros Q m keys; subst keys.
  split; [apply slices_Sort_is_Permutation|].
  split; [apply slices_Sort_sorted|].
  split.
  - unfold Facets.FacetsResponse; cbv zeta.
    destruct (Facets.slices_Sort (map fst m)) as [|k0 rest]; [reflexivity|].
    now rewrite writeEach_join.
  - intros k; unfold Facets.facetsLine; cbv zeta.
    destruct (Facets.lookup m k) as [|fe0 rest]; [reflexivity|].
    now rewrite writeEach_join.
Qed.

(** * Requests rejected before the body is read *)

(** A [/_bulk] request that fails before its first line is read.  With a
    tenant that cannot be extracted, the request is counted, the error is
    sent to the client and nothing else happens: no batch is taken, no pool
    is touched, no row counter moves.  With a body declared gzip-encoded
    that does not open, the request is counted and a batch is taken, the
    warning reports message number 0 with the cause, and the handler
    returns: no reader or line buffer is taken, the ingested-row counter is
    not touched (not even by 0), and the batch is not given back.  Both
    requests are reported as handled and read the clock once. *)
Theorem request_rejected_before_reading :
  forall (Time : Type) (time_Parse : string -> string -> option Time)
         (UnixNano : Time -> Z) (time_Now : nat -> Z)
         (ParseLogMessage : string -> string + list Field)
         (NeedFlush : LogRows -> bool) (maxLineSizeBytes : Z)
         (r : Request) (w : World),
    let run :=
      RequestHandler time_Parse UnixNano time_Now ParseLogMessage NeedFlush
        maxLineSizeBytes r w in
    (forall msg : string,
        reqTenant r = inl msg ->
        run = (Some true,
               {| trace := trace w ++ [BulkRequestsInc; HttpErrorf msg];
                  clock := S (clock w);
                  lr := lr w |})) /\
    (forall (tenantID : TenantID) (cause : string),
        reqTenant r = inr tenantID ->
        reqGzip r = true ->
        gzipOpen (reqBody r) = Some cause ->
        run = (Some true,
               {| trace := trace w
                           ++ [BulkRequestsInc; GetLogRows;
                               LogWarnf 0 (CannotReadGzip cause)];
                  clock := S (clock w);
                  lr := mkLogRows (reqStreamFields r) (reqIgnoreFields r)
                          [] |}) /\
        outstanding GetLogRows PutLogRows (trace (snd run))
        = outstanding GetLogRows PutLogRows (trace w) + 1).
Proof.
  intros Time tp un tnow plm NF maxLine r w run; subst run; split.
  - intros msg Hten; unfold RequestHandler; rewrite Hten.
    rewrite !bind_eq, !emit_eq; cbn [fst snd now emitted trace clock lr].
    unfold ret, emitted; cbn [trace clock lr].
    rewrite <- ?app_assoc; reflexivity.
  - intros t cause Hten Hgz Hopen.
    assert (Hrun :
      RequestHandler tp un tnow plm NF maxLine r w
      = (Some true,
         {| trace := trace w
                     ++ [BulkRequestsInc; GetLogRows;
                         LogWarnf 0 (CannotReadGzip cause)];
            clock := S (clock w);
            lr := mkLogRows (reqStreamFields r) (reqIgnoreFields r) [] |})).
    { unfold RequestHandler, readBulkRequest; rewrite Hten, Hgz, Hopen.
      cbv [bind emit ret now putLR]; cbn [trace clock lr].
      rewrite <- ?app_assoc; reflexivity. }
    rewrite Hrun; split; [reflexivity|].
    cbn [snd trace]; unfold outstanding, occurrences.
    rewrite !filter_app, !length_app; cbn [filter Event_eqb_tag List.length].
    lia.
Qed.

Lemma request_rejected_before_reading_witness :
  let gz :=
    {| reqTenant := inr Sample.tenant0; reqTimeField := ""; reqMsgField := "";
       reqStreamFields := []; reqIgnoreFields := []; reqDebug := false;
       reqGzip := true;
       reqBody := {| gzipOpen := Some "invalid header";
                     lines := {| tokens := [Sample.create; "msg=a"];
                                 failure := None |} |} |} in
  let bad :=
    {| reqTenant := inl "missing AccountID"; reqTimeField := "";
       reqMsgField := ""; reqStreamFields := []; reqIgnoreFields := [];
       reqDebug := false; reqGzip := false;
       reqBody := Sample.plainBody [Sample.create; "msg=a"] |} in
  trace (snd (Sample.handle Sample.neverFlush bad))
  = [BulkRequestsInc; HttpErrorf "missing AccountID"] /\
  trace (snd (Sample.handle Sample.neverFlush gz))
  = [BulkRequestsInc; GetLogRows;
     LogWarnf 0 (CannotReadGzip "invalid header")].
Proof.
  intros gz bad; split.
  - unfold Sample.handle.
    rewrite (proj1 (request_rejected_before_reading Z Sample.time_Parse
                      Sample.UnixNano Sample.time_Now Sample.ParseLogMessage
                      Sample.neverFlush Sample.maxLineSizeBytes bad
                      Sample.world0) "missing AccountID" eq_refl).
    reflexivity.
  - unfold Sample.handle.
    rewrite (proj1 (proj2 (request_rejected_before_reading Z
                             Sample.time_Parse Sample.UnixNano
                             Sample.time_Now Sample.ParseLogMessage
                             Sample.neverFlush Sample.maxLineSizeBytes gz
                             Sample.world0)
                      Sample.tenant0 "invalid header" eq_refl eq_refl
                      eq_refl)).
    reflexivity.
Defined.
